(** * Session conversation and prompt-cache orchestration

    A shallow embedding of the conversation bookkeeping of the Librarian
    agent: [ConversationManager] (conversation_manager.py), the request
    assembly and cost arithmetic of [LibrarianClaudeAgent]
    (librarian_claude_agent.py) and the API-layer [SessionManager]
    (session_manager.py).

    Conventions of the embedding.
    - Python dictionaries are [gmap]s keyed by strings, Python lists are
      lists; a [defaultdict] is a [gmap] whose missing keys read as the
      default where the source indexes it with [d[k]].
    - [time.time()] is an explicit argument [now : Z], a clock reading in
      seconds; the readings taken inside one call are the same instant.
    - Prices and costs are Python floats: binary64 values, here the
      primitive floats of [PrimFloat], whose operations round to nearest,
      ties to even, as the processor does.  An [int] that meets a float is
      converted first, and the builtin [sum] is modelled for both ways
      CPython adds floats (see [summation]).  The age of a session record
      in minutes is compared as an exact rational.
    - Python exceptions are the [Raise] outcome of [result]. *)

From Stdlib Require Import ZArith QArith Lia.
From stdpp Require Import gmap strings list fin_maps pretty.
From stdpp Require Import sorting.
From Stdlib Require Import Floats.
From Stdlib Require Uint63.

Local Open Scope Z_scope.

(** ** Python values and sequences *)

(** Outcome of a call that may raise. *)
Inductive exn :=
  | KeyError (key : string)
  | AttributeError (attr : string)
  | TypeError
  | OverflowError
  | ZeroDivisionError
  | HTTPException (status : Z) (detail : string)
  | TransportError (detail : string).

Inductive result (A : Type) :=
  | Return (a : A)
  | Raise (e : exn).
Arguments Return {A} a.
Arguments Raise {A} e.

(** A statement after one that raised is not run. *)
Global Instance result_ret : MRet result := @Return.
Global Instance result_bind : MBind result :=
  λ A B f m, match m with Return a => f a | Raise e => Raise e end.
Global Instance result_fmap : FMap result :=
  λ A B f m, match m with Return a => Return (f a) | Raise e => Raise e end.

(** The values the session cache holds ([Any] in the source): the request
    path stores strings, [None] is what a miss returns. *)
Inductive pyval :=
  | PyNone
  | PyStr (s : string).

(** Python truthiness, as tested by [if cached:]. *)
Definition truthy (v : pyval) : bool :=
  match v with
  | PyNone => false
  | PyStr s => negb (String.eqb s "")
  end.

(** Truthiness of a string, as tested by [if skill_context:]. *)
Definition str_truthy (s : string) : bool := negb (String.eqb s "").

(** An index of a slice brought into [0, len]: a negative index counts
    from the end, and the result is clamped. *)
Definition slice_index (len i : Z) : Z :=
  Z.max 0 (Z.min len (if i <? 0 then i + len else i)).

(** [l[start:stop]] with step 1; [None] stands for an omitted bound. *)
Definition py_slice {A} (l : list A) (start stop : option Z) : list A :=
  let len := Z.of_nat (length l) in
  let lo := match start with Some i => slice_index len i | None => 0 end in
  let hi := match stop with Some i => slice_index len i | None => len end in
  take (Z.to_nat (hi - lo)) (drop (Z.to_nat lo) l).

(** ** Turns and the conversation manager *)

Record tool_call := ToolCall {
  tc_id : string;
  tc_name : string;
  tc_input : string
}.

Record turn := Turn {
  timestamp : Z;
  user_message : string;
  agent_response : string;
  tool_calls : list tool_call;
  skills_used : list string
}.

Record ConversationManager := mkCM {
  conversations : gmap string (list turn);
  session_cache : gmap string (gmap string pyval);
  cache_timestamps : gmap string (gmap string Z);
  cache_ttl : Z;
  session_start_times : gmap string Z
}.

(** [ConversationManager(cache_ttl)]. *)
Definition new_manager (ttl : Z) : ConversationManager :=
  mkCM ∅ ∅ ∅ ttl ∅.

Definition default_cache_ttl : Z := 300.

(** The manager with its two cache maps replaced. *)
Definition with_cache (cm : ConversationManager)
    (sc : gmap string (gmap string pyval)) (ts : gmap string (gmap string Z))
    : ConversationManager :=
  mkCM (conversations cm) sc ts (cache_ttl cm) (session_start_times cm).

Module CM.

(** [add_turn]: records the start time of a session seen for the first
    time, then appends the turn; [self.conversations[session_id]] creates
    the list of a session that has none.  The lists are passed as they
    are stored ([tool_calls or []]: an omitted list is the empty one). *)
Definition add_turn (now : Z) (session_id user agent : string)
    (tcs : list tool_call) (skills : list string)
    (cm : ConversationManager) : ConversationManager :=
  let starts :=
    match session_start_times cm !! session_id with
    | Some _ => session_start_times cm
    | None => <[session_id := now]> (session_start_times cm)
    end in
  let t := Turn now user agent tcs skills in
  mkCM (<[session_id := default [] (conversations cm !! session_id) ++ [t]]>
          (conversations cm))
       (session_cache cm) (cache_timestamps cm) (cache_ttl cm) starts.

(** [get_conversation]: [self.conversations.get(session_id, [])]. *)
Definition get_conversation (session_id : string) (cm : ConversationManager)
    : list turn :=
  default [] (conversations cm !! session_id).

(** [get_last_n_turns]:
    [conversation[-n:] if len(conversation) > n else conversation]. *)
Definition get_last_n_turns (session_id : string) (n : Z)
    (cm : ConversationManager) : list turn :=
  let conversation := get_conversation session_id cm in
  if n <? Z.of_nat (length conversation)
  then py_slice conversation (Some (- n)) None
  else conversation.

(** [set_session_cache]: both maps are [defaultdict(dict)], so the inner
    dictionary of a new session starts empty. *)
Definition set_session_cache (now : Z) (session_id key : string) (value : pyval)
    (cm : ConversationManager) : ConversationManager :=
  with_cache cm
    (<[session_id := <[key := value]> (default ∅ (session_cache cm !! session_id))]>
       (session_cache cm))
    (<[session_id := <[key := now]> (default ∅ (cache_timestamps cm !! session_id))]>
       (cache_timestamps cm)).

(** [get_session_cache]: a miss returns [None]; an entry older than the
    TTL is deleted from both maps and reads as [None].  Indexing
    [self.cache_timestamps[session_id][key]] raises [KeyError] when the
    timestamp is missing (after creating the inner dictionary of the
    [defaultdict]); the manager's own writes never leave it missing. *)
Definition get_session_cache (now : Z) (session_id key : string)
    (cm : ConversationManager) : result pyval * ConversationManager :=
  match default ∅ (session_cache cm !! session_id) !! key with
  | None => (Return PyNone, cm)
  | Some value =>
      match cache_timestamps cm !! session_id with
      | None =>
          (Raise (KeyError key),
           with_cache cm (session_cache cm)
             (<[session_id := ∅]> (cache_timestamps cm)))
      | Some stamps =>
          match stamps !! key with
          | None => (Raise (KeyError key), cm)
          | Some written =>
              let cache_age := now - written in
              if cache_ttl cm <? cache_age then
                (Return PyNone,
                 with_cache cm
                   (<[session_id := delete key (default ∅ (session_cache cm !! session_id))]>
                      (session_cache cm))
                   (<[session_id := delete key stamps]> (cache_timestamps cm)))
              else (Return value, cm)
          end
      end
  end.

(** [clear_session_cache]. *)
Definition clear_session_cache (session_id : string) (cm : ConversationManager)
    : ConversationManager :=
  with_cache cm (delete session_id (session_cache cm))
                (delete session_id (cache_timestamps cm)).

(** The test of the sweep on one conversation: an empty one is skipped,
    otherwise the age of [conversation[-1]] is compared with [max_age]. *)
Definition too_old (now max_age : Z) (conversation : list turn) : bool :=
  match last conversation with
  | None => false
  | Some t => max_age <? now - timestamp t
  end.

(** The first loop of [cleanup_old_sessions]. *)
Definition sessions_to_remove (now max_age : Z) (cm : ConversationManager)
    : list string :=
  (filter (λ kv, too_old now max_age kv.2 = true)
          (map_to_list (conversations cm))).*1.

(** The body of its second loop. *)
Definition remove_session (cm : ConversationManager) (session_id : string)
    : ConversationManager :=
  let cm := mkCM (delete session_id (conversations cm)) (session_cache cm)
                 (cache_timestamps cm) (cache_ttl cm) (session_start_times cm) in
  let cm := clear_session_cache session_id cm in
  mkCM (conversations cm) (session_cache cm) (cache_timestamps cm) (cache_ttl cm)
       (delete session_id (session_start_times cm)).

(** [cleanup_old_sessions]: the number of sessions removed and the
    manager without them. *)
Definition cleanup_old_sessions (now max_age : Z) (cm : ConversationManager)
    : Z * ConversationManager :=
  let to_remove := sessions_to_remove now max_age cm in
  (Z.of_nat (length to_remove), fold_left remove_session to_remove cm).

(** The time of the last activity the sweep looks at. *)
Definition last_activity_of (session_id : string) (cm : ConversationManager)
    : option Z :=
  timestamp <$> last (get_conversation session_id cm).

(** What [get_session_stats] returns: the short dictionary of a session
    without turns, or the full one.  The two lists built from sets and
    dictionary keys ([unique_skills_used], [cache_keys]) are kept as sets:
    their order is the iteration order of a Python set or dictionary. *)
Inductive session_stats :=
  | NoTurns (session_id : string)
  | Stats (session_id : string) (total_turns total_tools_used : Z)
          (unique_skills_used : gset string) (session_duration_seconds : Z)
          (cache_keys : gset string)
          (first_message_time last_message_time : Z).

(** [sum(len(turn.get('tool_calls', [])) for turn in conversation)]. *)
Definition count_tools (conversation : list turn) : Z :=
  fold_left (λ acc t, acc + Z.of_nat (length (tool_calls t))) conversation 0.

(** The loop [skills_used.update(turn.get('skills_used', []))]. *)
Definition collect_skills (conversation : list turn) : gset string :=
  fold_left (λ acc t, acc ∪ list_to_set (skills_used t)) conversation ∅.

(** [get_session_stats]. *)
Definition get_session_stats (now : Z) (session_id : string)
    (cm : ConversationManager) : session_stats :=
  let conversation := get_conversation session_id cm in
  match conversation, last conversation with
  | first :: _, Some final =>
      let start_time := default now (session_start_times cm !! session_id) in
      Stats session_id (Z.of_nat (length conversation)) (count_tools conversation)
            (collect_skills conversation) (now - start_time)
            (dom (default ∅ (session_cache cm !! session_id)))
            (timestamp first) (timestamp final)
  | _, _ => NoTurns session_id
  end.

(** [get_active_session_count]: [len(self.conversations)]. *)
Definition get_active_session_count (cm : ConversationManager) : Z :=
  Z.of_nat (size (conversations cm)).

(** [get_all_sessions]: the keys of [self.conversations], in the order the
    map lists them. *)
Definition get_all_sessions (cm : ConversationManager) : list string :=
  (map_to_list (conversations cm)).*1.

(** [export_conversation]: session id, stats and history. *)
Definition export_conversation (now : Z) (session_id : string)
    (cm : ConversationManager) : string * session_stats * list turn :=
  (session_id, get_session_stats now session_id cm,
   get_conversation session_id cm).

End CM.

(** ** Request assembly: the turn part of [_build_cached_messages] *)

Inductive cache_control := Ephemeral.

Record content_block := Block {
  cb_text : string;
  cb_cache_control : option cache_control
}.

Inductive content :=
  | Text (s : string)
  | Blocks (bs : list content_block).

Inductive role := User | Assistant.

Record chat_message := Msg {
  msg_role : role;
  msg_content : content
}.

(** The two [messages.append] calls of a loop body over turns. *)
Definition append_turn (messages : list chat_message) (t : turn) : list chat_message :=
  (messages ++ [Msg User (Text (user_message t))])
            ++ [Msg Assistant (Text (agent_response t))].

(** [conversation[:-2]], the turns of the first loop. *)
Definition older_turns (conversation : list turn) : list turn :=
  py_slice conversation None (Some (-2)).

(** [conversation[-2:]], the turns of the second loop. *)
Definition recent_turns (conversation : list turn) : list turn :=
  py_slice conversation (Some (-2)) None.

(** The partition point: the number of turns the first loop emits. *)
Definition cache_boundary (conversation : list turn) : nat :=
  length (older_turns conversation).

(** The history part of [_build_cached_messages] (the [if conversation:]
    block), starting from the message list built so far. *)
Definition append_history (messages : list chat_message) (conversation : list turn)
    : list chat_message :=
  match conversation with
  | [] => messages
  | _ =>
      let messages := fold_left append_turn (older_turns conversation) messages in
      fold_left append_turn (recent_turns conversation) messages
  end.



(** ** The cost ledger: [_calculate_cost_with_cache] *)

(** The value of a count attribute that is present: an [int], or [None]
    (the cache counts of the SDK's usage object are optional integers). *)
Inductive count :=
  | NoneValue
  | Count (n : Z).

(** The usage object of a response.  A field is [None] when the object has
    no such attribute, otherwise it holds the attribute's value. *)
Record usage := Usage {
  input_tokens : option count;
  output_tokens : option count;
  cache_creation_input_tokens : option count;
  cache_read_input_tokens : option count
}.

(** A number of the ledger: Python keeps the [int] 0 that [savings] and
    the percentage start from apart from a [float]. *)
Inductive pynum :=
  | PyInt (z : Z)
  | PyFloat (f : float).

Record cost_breakdown := Breakdown {
  cost_prompt : float;
  cost_cache_write : float;
  cost_cache_read : float;
  cost_output : float
}.

Record cost_info := CostInfo {
  total : float;
  breakdown : cost_breakdown;
  savings : pynum;
  savings_percentage : pynum
}.

(** How the builtin [sum] adds floats: one rounded addition per item
    (CPython up to 3.11), or with the rounding errors collected and added
    at the end (Neumaier's compensated sum, CPython from 3.12 on). *)
Inductive summation :=
  | LeftToRight
  | Compensated.
Existing Class summation.

Module Cost.
#[local] Set Warnings "-inexact-float".
Local Open Scope float_scope.

Definition PROMPT_PRICE : float := 3.00 / 1000000.
Definition CACHE_WRITE_PRICE : float := 3.75 / 1000000.
Definition CACHE_READ_PRICE : float := 0.30 / 1000000.
Definition OUTPUT_PRICE : float := 15.00 / 1000000.

(** [usage.attr]: raises when the attribute is missing. *)
Definition attr (name : string) (field : option count) : result count :=
  match field with
  | Some v => Return v
  | None => Raise (AttributeError name)
  end.

(** [getattr(usage, attr, 0)]. *)
Definition getattr0 (field : option count) : count := default (Count 0) field.

(** The float an [int] is converted to when it is multiplied with a float:
    the nearest binary64 value, ties to even; an [int] whose nearest value
    is not finite raises [OverflowError].  A machine integer is converted
    by the processor, a longer one from its leading bits; both give the
    correctly rounded value. *)
Definition float_of_int (n : Z) : result float :=
  if (Z.abs n <? 9223372036854775808)%Z then
    Return (if (0 <=? n)%Z then of_uint63 (Uint63.of_Z n)
            else - of_uint63 (Uint63.of_Z (- n)))
  else
    match binary_normalize prec emax n 0 false with
    | S754_infinity _ => Raise OverflowError
    | sf => Return (SF2Prim sf)
    end.
Arguments float_of_int : simpl never.

(** [value * price] for the value of a count attribute: [None] cannot be
    multiplied. *)
Definition times (value : count) (price : float) : result float :=
  match value with
  | NoneValue => Raise TypeError
  | Count n => x ← float_of_int n; Return (x * price)
  end.

(** [value > 0] for the value of a count attribute: [None] cannot be
    compared with an [int]. *)
Definition gt_zero (value : count) : result bool :=
  match value with
  | NoneValue => Raise TypeError
  | Count n => Return (0 <? n)%Z
  end.

(** One step of the compensated sum: the new partial sum, and the
    rounding error of the addition added to the correction. *)
Definition compensated_step (acc : float * float) (x : float) : float * float :=
  let '(f_result, c) := acc in
  let t := f_result + x in
  (t, if abs x <=? abs f_result
      then c + ((f_result - t) + x)
      else c + ((x - t) + f_result)).

(** [sum(items)] for floats: the start value, the [int] 0, is added to the
    first item; the others are then added as floats, in one of the two
    ways.  The correction is added when it is finite and not zero. *)
Definition sum_floats (alg : summation) (items : list float) : float :=
  match items with
  | [] => 0
  | x :: items =>
      let start := 0 + x in
      match alg with
      | LeftToRight => fold_left PrimFloat.add items start
      | Compensated =>
          let '(f_result, c) := fold_left compensated_step items (start, 0) in
          if negb (c =? 0) && is_finite c then f_result + c else f_result
      end
  end.
Arguments sum_floats : simpl never.

(** [x > 0] for a number of the ledger. *)
Definition positive (x : pynum) : bool :=
  match x with
  | PyInt z => (0 <? z)%Z
  | PyFloat f => 0 <? f
  end.

(** The float a number of the ledger enters a float operation as. *)
Definition to_float (x : pynum) : result float :=
  match x with
  | PyInt z => float_of_int z
  | PyFloat f => Return f
  end.

(** [(savings / (total_cost + savings) * 100) if savings > 0 else 0]; a float
    division by zero raises. *)
Definition percentage (total_cost : float) (savings : pynum) : result pynum :=
  if positive savings then
    s ← to_float savings;
    if total_cost + s =? 0 then Raise ZeroDivisionError
    else Return (PyFloat (s / (total_cost + s) * 100))
  else Return (PyInt 0).
Arguments percentage : simpl never.

(** The four entries of [costs] are evaluated in the order of the
    dictionary display, so the first attribute or count that fails
    decides the exception. *)
Definition _calculate_cost_with_cache {alg : summation} (u : usage)
    : result cost_info :=
  let cache_creation := getattr0 (cache_creation_input_tokens u) in
  let cache_read := getattr0 (cache_read_input_tokens u) in
  input ← attr "input_tokens" (input_tokens u);
  prompt ← times input PROMPT_PRICE;
  cache_write ← times cache_creation CACHE_WRITE_PRICE;
  cache_read_cost ← times cache_read CACHE_READ_PRICE;
  output ← attr "output_tokens" (output_tokens u);
  output_cost ← times output OUTPUT_PRICE;
  let costs := Breakdown prompt cache_write cache_read_cost output_cost in
  let total_cost :=
    sum_floats alg [prompt; cache_write; cache_read_cost; output_cost] in
  cached ← gt_zero cache_read;
  savings ←
    (if cached : bool then
       would_have_paid ← times cache_read PROMPT_PRICE;
       actually_paid ← times cache_read CACHE_READ_PRICE;
       Return (PyFloat (would_have_paid - actually_paid))
     else Return (PyInt 0));
  savings_percentage ← percentage total_cost savings;
  Return (CostInfo total_cost costs savings savings_percentage).

End Cost.

(** ** Request assembly and the chat entry point *)

Definition nl : string := String (Ascii.ascii_of_nat 10) "".

Record tool_def := ToolDef {
  tool_name : string;
  tool_cache_control : option cache_control
}.

Record request := Request {
  req_model : string;
  req_max_tokens : Z;
  req_system : list content_block;
  req_tools : list tool_def;
  req_messages : list chat_message
}.

(** A content block of a response: text, or a tool invocation. *)
Inductive response_block :=
  | TextBlock (text : string)
  | ToolUse (id name input : string).

Record response := Response {
  resp_content : list response_block;
  stop_reason : string;
  resp_usage : usage
}.

(** What [search_documentation] returns: the dictionary's ['results'] and
    ['sources'] entries, [None] for a missing key. *)
Record search_results := SearchResults {
  sr_results : option (list string);
  sr_sources : option (list (gmap string string))
}.

Record skill := Skill {
  skill_description : string;
  skill_content : string
}.

Record chat_result := ChatResult {
  res_message : string;
  res_tool_calls : list tool_call;
  res_skills_used : list string;
  res_cost : cost_info;
  res_usage : usage;
  res_response_time : Z;
  res_cache_hit : bool
}.

Module Agent.

(** The five definitions of [AgentTools.get_tool_definitions], by name
    (descriptions and input schemas are carried along unchanged). *)
Definition get_tool_definitions : list tool_def :=
  [ ToolDef "search_documentation" None; ToolDef "load_documentation" None;
    ToolDef "query_skill" None; ToolDef "update_knowledge_graph" None;
    ToolDef "get_catalog" None ].

(** The body of [_get_cached_tools] on a list of definitions:
    [tools[-1]["cache_control"] = {"type": "ephemeral"}] when there is one. *)
Definition mark_last_tool (tools : list tool_def) : list tool_def :=
  match tools with
  | [] => tools
  | _ => alter (λ t, ToolDef (tool_name t) (Some Ephemeral))
               (length tools - 1)%nat tools
  end.

Definition _get_cached_tools : list tool_def :=
  mark_last_tool get_tool_definitions.

(** The user message that carries the skill context: the text, then a
    closing part with the cache breakpoint. *)
Definition skill_message (skill_context : string) : chat_message :=
  Msg User (Blocks
    [ Block ("📚 SKILL CONTEXT:" +:+ nl +:+ nl +:+ skill_context) None;
      Block "Skills loaded and ready." (Some Ephemeral) ]).

Definition skill_ack : chat_message :=
  Msg Assistant (Text "I've reviewed the skills and I'm ready to apply them.").

(** The user message that carries the documentation context. *)
Definition doc_message (doc_context : string) : chat_message :=
  Msg User (Blocks
    [ Block ("📖 DOCUMENTATION:" +:+ nl +:+ nl +:+ doc_context) None;
      Block "Documentation loaded." (Some Ephemeral) ]).

Definition doc_ack : chat_message :=
  Msg Assistant (Text "I've reviewed the documentation.").

(** [_build_cached_messages], one binding per statement of the source. *)
Definition _build_cached_messages (message : string) (conversation : list turn)
    (skill_context doc_context : string) : list chat_message :=
  let messages := [] in
  let messages := append_history messages conversation in
  let messages :=
    if str_truthy skill_context
    then (messages ++ [skill_message skill_context]) ++ [skill_ack]
    else messages in
  let messages :=
    if str_truthy doc_context
    then (messages ++ [doc_message doc_context]) ++ [doc_ack]
    else messages in
  messages ++ [Msg User (Text message)].

(** [_format_docs_for_cache]; [results] is [None] for a falsy result. *)
Definition format_doc (sources : list (gmap string string)) (i : nat)
    (result : string) : string :=
  let source := default ∅ (sources !! i) in
  "[DOC " +:+ pretty (Z.of_nat i + 1) +:+ "] "
    +:+ default "Unknown" (source !! "module") +:+ nl +:+ result +:+ nl.

Definition _format_docs_for_cache (results : option search_results)
    : result string :=
  match results with
  | None => Return ""
  | Some r =>
      match sr_results r with
      | None | Some [] => Return ""
      | Some found =>
          match sr_sources r with
          | None => Raise (KeyError "sources")
          | Some sources => Return (String.concat nl (imap (format_doc sources) found))
          end
      end
  end.

(** [AgentTools.search_documentation] as the repository has it: a
    stand-in that returns three results (the category defaults to "all"
    and the world is left alone). *)
Definition search_documentation_mock {World : Type}
    (query : string) (n_results : Z) (w : World)
    : option search_results * World :=
  (Some (SearchResults
     (Some ["Result 1 for '" +:+ query +:+ "' in category 'all'";
            "Result 2 for '" +:+ query +:+ "'";
            "Result 3 for '" +:+ query +:+ "'"])
     (Some [{["module" := "Example Module 1"; "priority" := "HIGH"]};
            {["module" := "Example Module 2"; "priority" := "MEDIUM"]};
            {["module" := "Example Module 3"; "priority" := "LOW"]}])), w).

Section agent.
(** The collaborators of the agent: the state of the outside world the
    calls act on, the skills loaded at start-up with the system prompt
    built from them, the skill detector of [SkillManager], and the three
    awaited calls; [alg] is the way the interpreter sums floats. *)
Context {World : Type}.
Context {alg : summation}.
Variable skills : gmap string skill.
Variable system_prompt : string.
Variable detect_needed_skills : string → list string.
Variable search_documentation :
  string → Z → World → option search_results * World.
Variable messages_create : request → World → result response * World.
Variable tools_execute : string → string → World → World.

(** [_build_skill_context]. *)
Definition _build_skill_context (needed_skills : list string) : string :=
  match needed_skills with
  | [] => ""
  | _ =>
      let contexts :=
        fold_left (λ contexts skill_name,
            match skills !! skill_name with
            | Some sk =>
                contexts ++ ["=== SKILL: " +:+ skill_name +:+ " ===" +:+ nl
                               +:+ skill_content sk +:+ nl]
            | None => contexts
            end) needed_skills [] in
      String.concat nl contexts
  end.

(** [_get_documentation_context]: the cached value when it is truthy,
    otherwise a search whose formatted result is written back. *)
Definition _get_documentation_context (now : Z) (query session_id : string)
    (cm : ConversationManager) (w : World)
    : result string * ConversationManager * World :=
  match CM.get_session_cache now session_id "docs" cm with
  | (Raise e, cm) => (Raise e, cm, w)
  | (Return cached, cm) =>
      match cached with
      | PyStr s =>
          if truthy cached then (Return s, cm, w)
          else
            let '(results, w) := search_documentation query 5 w in
            match _format_docs_for_cache results with
            | Raise e => (Raise e, cm, w)
            | Return context =>
                (Return context,
                 CM.set_session_cache now session_id "docs" (PyStr context) cm, w)
            end
      | PyNone =>
          let '(results, w) := search_documentation query 5 w in
          match _format_docs_for_cache results with
          | Raise e => (Raise e, cm, w)
          | Return context =>
              (Return context,
               CM.set_session_cache now session_id "docs" (PyStr context) cm, w)
          end
      end
  end.

(** The request [chat] sends. *)
Definition build_request (messages : list chat_message) : request :=
  Request "claude-sonnet-4-20250514" 4000
          [Block system_prompt (Some Ephemeral)]
          _get_cached_tools messages.

(** The loop of [_process_response] over the content blocks. *)
Definition collect_block (acc : string * list tool_call) (b : response_block)
    : string * list tool_call :=
  match b with
  | TextBlock text => (acc.1 +:+ text, acc.2)
  | ToolUse id name input => (acc.1, acc.2 ++ [ToolCall id name input])
  end.

(** [_execute_tools]: one [tools.execute] per call; [execute] catches
    every exception, so there is one result per call. *)
Definition _execute_tools (tcs : list tool_call) (w : World) : nat * World :=
  (length tcs, fold_left (λ w tc, tools_execute (tc_name tc) (tc_input tc) w) tcs w).

Definition _process_response (r : response) (start_time end_time : Z)
    (needed_skills : list string) (w : World) : result chat_result * World :=
  let '(text_response, tcs) := fold_left collect_block (resp_content r) ("", []) in
  let '(text_response, w) :=
    if String.eqb (stop_reason r) "tool_use" && negb (bool_decide (tcs = []))
    then
      let '(n, w) := _execute_tools tcs w in
      (text_response +:+ nl +:+ nl +:+ "[Tool Results: " +:+ pretty (Z.of_nat n)
         +:+ " tools executed]", w)
    else (text_response, w) in
  match Cost._calculate_cost_with_cache (resp_usage r) with
  | Raise e => (Raise e, w)
  | Return cost =>
      match Cost.gt_zero (Cost.getattr0 (cache_read_input_tokens (resp_usage r))) with
      | Raise e => (Raise e, w)
      | Return cache_hit =>
          (Return (ChatResult text_response tcs needed_skills cost (resp_usage r)
                     (end_time - start_time) cache_hit),
           w)
      end
  end.

(** [chat]: [now] is the clock while the request is assembled, [later]
    the clock once the response has arrived.  An exception leaves the
    state as it was when it was raised. *)
Definition chat (now later : Z) (message session_id : string)
    (cm : ConversationManager) (w : World)
    : result chat_result * ConversationManager * World :=
  let conversation := CM.get_conversation session_id cm in
  let needed_skills := detect_needed_skills message in
  let skill_context := _build_skill_context needed_skills in
  match _get_documentation_context now message session_id cm w with
  | (Raise e, cm, w) => (Raise e, cm, w)
  | (Return doc_context, cm, w) =>
      let messages :=
        _build_cached_messages message conversation skill_context doc_context in
      match messages_create (build_request messages) w with
      | (Raise e, w) => (Raise e, cm, w)
      | (Return r, w) =>
          match _process_response r now later needed_skills w with
          | (Raise e, w) => (Raise e, cm, w)
          | (Return res, w) =>
              (Return res,
               CM.add_turn later session_id message (res_message res)
                 (res_tool_calls res) needed_skills cm,
               w)
          end
      end
  end.

End agent.
End Agent.

(** ** The API-layer session manager (session_manager.py) *)

Record session_info := SessionInfo {
  si_session_id : string;
  created_at : Z;
  last_activity : Z;
  turn_count : Z;
  si_messages : list (string * string)
}.

Module SM.

(** [create_session]; the fresh identifier ([uuid4]) is an argument. *)
Definition create_session (now : Z) (session_id : string)
    (sessions : gmap string session_info) : gmap string session_info :=
  <[session_id := SessionInfo session_id now now 0 []]> sessions.

(** [get_session_info]: [self.sessions.get(session_id)]. *)
Definition get_session_info (session_id : string)
    (sessions : gmap string session_info) : option session_info :=
  sessions !! session_id.

(** [update_activity]: a no-op on an unknown session. *)
Definition update_activity (now : Z) (session_id : string)
    (sessions : gmap string session_info) : gmap string session_info :=
  match sessions !! session_id with
  | Some s =>
      <[session_id := SessionInfo (si_session_id s) (created_at s) now
                        (turn_count s + 1) (si_messages s)]> sessions
  | None => sessions
  end.

(** [add_message]: a message is its role and content. *)
Definition add_message (now : Z) (session_id : string) (msg : string * string)
    (sessions : gmap string session_info) : gmap string session_info :=
  match sessions !! session_id with
  | Some s =>
      update_activity now session_id
        (<[session_id := SessionInfo (si_session_id s) (created_at s)
                           (last_activity s) (turn_count s)
                           (si_messages s ++ [msg])]> sessions)
  | None => sessions
  end.

(** [age_minutes > max_age_minutes] with
    [age_minutes = total_seconds / 60]; [create_session] always records
    [last_activity], so the guard [if last_activity:] passes. *)
Definition expired (now max_age_minutes : Z) (s : session_info) : bool :=
  let age_minutes := Qdiv (inject_Z (now - last_activity s)) (inject_Z 60) in
  negb (Qle_bool age_minutes (inject_Z max_age_minutes)).

(** [cleanup_old_sessions]: deletes the expired records; the method
    returns nothing (it prints the number). *)
Definition cleanup_old_sessions (now max_age_minutes : Z)
    (sessions : gmap string session_info) : gmap string session_info :=
  let to_remove :=
    (filter (λ kv, expired now max_age_minutes kv.2 = true)
            (map_to_list sessions)).*1 in
  fold_left (λ m session_id, delete session_id m) to_remove sessions.

(** [delete_session]: whether there was a session to delete. *)
Definition delete_session (session_id : string)
    (sessions : gmap string session_info) : bool * gmap string session_info :=
  match sessions !! session_id with
  | Some _ => (true, delete session_id sessions)
  | None => (false, sessions)
  end.

(** [get_session_count]: [len(self.sessions)]. *)
Definition get_session_count (sessions : gmap string session_info) : Z :=
  Z.of_nat (size sessions).

End SM.

(** ** The chat route of the API layer (api.py) *)

(** What the event stream of a chat request ends with. *)
Inductive stream_outcome :=
  | MessageEnd (res : chat_result)
  | ErrorEvent (e : exn).

Record api_state {World : Type} := ApiState {
  api_sessions : gmap string session_info;
  api_manager : ConversationManager;
  api_world : World
}.
Arguments api_state World : clear implicits.
Arguments ApiState {World} _ _ _.

Module Api.

(** [get_history]: the stored messages of a session, 404 without one. *)
Definition get_history (session_id : string)
    (sessions : gmap string session_info) : result (list (string * string)) :=
  match SM.get_session_info session_id sessions with
  | None => Raise (HTTPException 404 "Session not found")
  | Some info => Return (si_messages info)
  end.

(** The [delete_session] route: deletes the record, 404 without one. *)
Definition delete_session (session_id : string)
    (sessions : gmap string session_info)
    : result string * gmap string session_info :=
  match sessions !! session_id with
  | Some _ => (Return "deleted", delete session_id sessions)
  | None => (Raise (HTTPException 404 "Session not found"), sessions)
  end.

Section api.
Context {World : Type}.
Context {alg : summation}.
Variable skills : gmap string skill.
Variable system_prompt : string.
Variable detect_needed_skills : string → list string.
Variable search_documentation :
  string → Z → World → option search_results * World.
Variable messages_create : request → World → result response * World.
Variable tools_execute : string → string → World → World.

(** [generate_sse_stream] with an agent: an exception of [chat] becomes
    an error event; the session's activity is updated either way. *)
Definition generate_sse_stream (now later : Z) (session_id message : string)
    (st : api_state World) : stream_outcome * api_state World :=
  let '(r, cm, w) :=
    Agent.chat skills system_prompt detect_needed_skills search_documentation
      messages_create tools_execute now later message session_id
      (api_manager st) (api_world st) in
  let sessions := SM.update_activity later session_id (api_sessions st) in
  (match r with Return res => MessageEnd res | Raise e => ErrorEvent e end,
   ApiState sessions cm w).

(** [send_message]: the session is validated before anything else. *)
Definition send_message (now later : Z) (session_id message : string)
    (st : api_state World) : result stream_outcome * api_state World :=
  match SM.get_session_info session_id (api_sessions st) with
  | None => (Raise (HTTPException 404 "Session not found"), st)
  | Some _ =>
      let sessions :=
        SM.add_message now session_id ("user", message) (api_sessions st) in
      let '(out, st) :=
        generate_sse_stream now later session_id message
          (ApiState sessions (api_manager st) (api_world st)) in
      (Return out, st)
  end.

End api.
End Api.

(** ** Skill detection (skill_manager.py) *)

Module Skills.

(** [needle in haystack] on strings. *)
Fixpoint contains (needle haystack : string) : bool :=
  String.prefix needle haystack
  || match haystack with
     | EmptyString => false
     | String _ rest => contains needle rest
     end.

(** [any(word in message_lower for word in words)]. *)
Definition any_in (words : list string) (message_lower : string) : bool :=
  existsb (λ word, contains word message_lower) words.

Section skills.
(** [str.lower] of the Python runtime. *)
Variable lower : string → string.

(** [detect_needed_skills], one binding per [if] of the source. *)
Definition detect_needed_skills (message : string) : list string :=
  let message_lower := lower message in
  let needed := [] in
  let needed :=
    if any_in ["word"; "docx"; "document"; "doc"] message_lower
    then needed ++ ["docx"] else needed in
  let needed :=
    if any_in ["powerpoint"; "pptx"; "presentation"; "slide"] message_lower
    then needed ++ ["pptx"] else needed in
  let needed :=
    if any_in ["excel"; "xlsx"; "spreadsheet"; "workbook"] message_lower
    then needed ++ ["xlsx"] else needed in
  let needed :=
    if any_in ["pdf"; "portable document"] message_lower
    then needed ++ ["pdf"] else needed in
  let needed :=
    if any_in ["frontend"; "ui"; "interface"; "react"; "html"; "css"] message_lower
    then needed ++ ["frontend-design"] else needed in
  let needed :=
    if any_in ["theme"; "style"; "color"; "brand"] message_lower
    then if contains "anthropic" message_lower
         then needed ++ ["brand-guidelines"]
         else needed ++ ["theme-factory"]
    else needed in
  let needed :=
    if any_in ["create skill"; "new skill"; "skill for"] message_lower
    then needed ++ ["skill-creator"] else needed in
  let needed :=
    if any_in ["claude api"; "anthropic"; "claude code"; "pricing"; "rate limit"]
              message_lower
    then needed ++ ["product-self-knowledge"] else needed in
  needed.

End skills.
End Skills.

(** ** The rate limiter of the API layer (rate_limit.py) *)

Module RateLimiter.

(** [check_rate_limit]: the request times of the key are pruned to the
    window, the request is refused when [max_requests] of them remain and
    recorded otherwise; the second component is the remaining allowance.
    The times of the [defaultdict] are a map to lists. *)
Definition check_rate_limit (now : Z) (key : string)
    (max_requests window_seconds : Z) (requests : gmap string (list Z))
    : bool * Z * gmap string (list Z) :=
  let window_start := now - window_seconds in
  let kept := filter (λ req_time, window_start < req_time)
                     (default [] (requests !! key)) in
  let requests := <[key := kept]> requests in
  if max_requests <=? Z.of_nat (length kept)
  then (false, max_requests - Z.of_nat (length kept), requests)
  else (true, max_requests - Z.of_nat (length (kept ++ [now])),
        <[key := kept ++ [now]]> requests).

(** [rate_limit_middleware]: status 429 when the request is refused. *)
Definition rate_limit_middleware (now : Z) (client_ip : string)
    (max_requests : Z) (requests : gmap string (list Z))
    : result Z * gmap string (list Z) :=
  let '(allowed, remaining, requests) :=
    check_rate_limit now client_ip max_requests 60 requests in
  if allowed then (Return remaining, requests)
  else (Raise (HTTPException 429 "Too many requests. Please try again later."),
        requests).

End RateLimiter.

(** ** Notions used to state the properties *)

(** The partition point as the specification gives it:
    [p = max(0, len(history) - k)]. *)
Definition spec_partition_point (k : Z) (history : list turn) : nat :=
  Z.to_nat (Z.max 0 (Z.of_nat (length history) - k)).

(** The messages of a run of turns: a user and an assistant message each. *)
Definition turn_messages (turns : list turn) : list chat_message :=
  flat_map (λ t, [Msg User (Text (user_message t));
                  Msg Assistant (Text (agent_response t))]) turns.

(** One [add_turn] call. *)
Record turn_event := TurnEvent {
  te_now : Z;
  te_session : string;
  te_user : string;
  te_agent : string;
  te_tool_calls : list tool_call;
  te_skills : list string
}.

Definition apply_turn (cm : ConversationManager) (e : turn_event)
    : ConversationManager :=
  CM.add_turn (te_now e) (te_session e) (te_user e) (te_agent e)
              (te_tool_calls e) (te_skills e) cm.

(** A manager evolved only by appending turns. *)
Definition apply_turns (events : list turn_event) (cm : ConversationManager)
    : ConversationManager :=
  fold_left apply_turn events cm.

(** The content parts of a message; a plain string is one unmarked part. *)
Definition message_blocks (m : chat_message) : list content_block :=
  match msg_content m with
  | Text s => [Block s None]
  | Blocks bs => bs
  end.

Definition marked (b : content_block) : bool :=
  match cb_cache_control b with Some _ => true | None => false end.

(** The message carries a cache breakpoint. *)
Definition has_breakpoint (m : chat_message) : bool :=
  existsb marked (message_blocks m).

(** No part of the message but its last one carries a breakpoint. *)
Definition breakpoint_only_at_end (m : chat_message) : bool :=
  forallb (λ b, negb (marked b)) (removelast (message_blocks m)).

(** The skill and documentation parts of the message sequence: both
    messages of the block, or nothing. *)
Definition skill_part (skill_context : string) : list chat_message :=
  if str_truthy skill_context
  then [Agent.skill_message skill_context; Agent.skill_ack] else [].

Definition doc_part (doc_context : string) : list chat_message :=
  if str_truthy doc_context
  then [Agent.doc_message doc_context; Agent.doc_ack] else [].

(** The message sequence in the order the specification lists the blocks
    (the system block travels in the request's [system] field): skill
    context, documentation, cacheable prefix, fresh suffix, new message. *)
Definition spec_block_order (message : string) (conversation : list turn)
    (skill_context doc_context : string) : list chat_message :=
  skill_part skill_context ++ doc_part doc_context
    ++ turn_messages (older_turns conversation)
    ++ turn_messages (recent_turns conversation)
    ++ [Msg User (Text message)].

(** The cache-read count of a usage object, 0 when the attribute is
    missing (or [None], where pricing has raised before the count is
    looked at again). *)
Definition cache_read_count (u : usage) : Z :=
  match cache_read_input_tokens u with
  | Some (Count n) => n
  | _ => 0
  end.

(** The binary64 amount [_calculate_cost_with_cache] binds [savings] to
    for a positive cache-read count whose float is [x]:
    [would_have_paid - actually_paid], two rounded products and a rounded
    difference. *)
Definition savings_float (x : float) : float :=
  (x * Cost.PROMPT_PRICE - x * Cost.CACHE_READ_PRICE)%float.

(** What [savings] is bound to for an [int] cache-read count. *)
Definition savings_amount (cache_read : Z) (x : float) : pynum :=
  if 0 <? cache_read then PyFloat (savings_float x) else PyInt 0.



(** The four rates. *)
Definition rates : list float :=
  [Cost.PROMPT_PRICE; Cost.CACHE_WRITE_PRICE; Cost.CACHE_READ_PRICE;
   Cost.OUTPUT_PRICE].


(** For the float [x] of a positive count: at each rate the component of
    the count is positive and that of the opposite count negative. *)
Definition components_signed (x : float) : bool :=
  forallb (λ price, (0 <? x * price)%float && (- x * price <? 0)%float) rates.

(** The machine integers 0 and 1. *)
Definition int_zero : PrimInt63.int := Eval cbv in Uint63.of_Z 0.
Definition int_one : PrimInt63.int := Eval cbv in Uint63.of_Z 1.

(** A test on the machine integers whose first bits are those of [hi],
    followed by [k] more: [hi * 2 ^ k + j] for every [j < 2 ^ k]. *)
Fixpoint all_bits (k : nat) (hi : PrimInt63.int) (p : PrimInt63.int → bool)
    : bool :=
  match k with
  | O => p hi
  | S k =>
      all_bits k (PrimInt63.add hi hi) p
      && all_bits k (PrimInt63.add (PrimInt63.add hi hi) int_one) p
  end.

(** The counts the tests run over: those below [2 ^ 20]. *)
Definition count_bound : Z := 1048576.

Definition checked_below_bound (p : float → bool) : bool :=
  all_bits 20 int_zero (λ i, PrimInt63.eqb i int_zero || p (of_uint63 i)).

(** The miss path of [_get_documentation_context]: the search, and the
    write-back of its formatted result. *)
Definition doc_miss {World : Type}
    (search_documentation : string → Z → World → option search_results * World)
    (now : Z) (query session_id : string) (cm : ConversationManager) (w : World)
    : result string * ConversationManager * World :=
  let '(results, w) := search_documentation query 5 w in
  match Agent._format_docs_for_cache results with
  | Raise e => (Raise e, cm, w)
  | Return context =>
      (Return context,
       CM.set_session_cache now session_id "docs" (PyStr context) cm, w)
  end.

(** Consecutive requests for the documentation context of one session,
    each with its clock reading and query. *)
Fixpoint doc_requests {World : Type}
    (search_documentation : string → Z → World → option search_results * World)
    (requests : list (Z * string)) (session_id : string)
    (cm : ConversationManager) (w : World)
    : list (result string) * ConversationManager * World :=
  match requests with
  | [] => ([], cm, w)
  | (now, query) :: requests =>
      let '(r, cm, w) :=
        Agent._get_documentation_context search_documentation now query
          session_id cm w in
      let '(rs, cm, w) :=
        doc_requests search_documentation requests session_id cm w in
      (r :: rs, cm, w)
  end.

(** The world after one retrieval per request, in order. *)
Definition retrievals {World : Type}
    (search_documentation : string → Z → World → option search_results * World)
    (requests : list (Z * string)) (w : World) : World :=
  fold_left (λ w r, (search_documentation r.2 5 w).2) requests w.

(** The public operations of the conversation manager that change it. *)
Inductive cm_op :=
  | OpAddTurn (e : turn_event)
  | OpSetCache (now : Z) (session_id key : string) (value : pyval)
  | OpGetCache (now : Z) (session_id key : string)
  | OpClearCache (session_id : string)
  | OpCleanup (now max_age : Z).

Definition run_op (cm : ConversationManager) (op : cm_op) : ConversationManager :=
  match op with
  | OpAddTurn e => apply_turn cm e
  | OpSetCache now session_id key value =>
      CM.set_session_cache now session_id key value cm
  | OpGetCache now session_id key => (CM.get_session_cache now session_id key cm).2
  | OpClearCache session_id => CM.clear_session_cache session_id cm
  | OpCleanup now max_age => (CM.cleanup_old_sessions now max_age cm).2
  end.

(** A manager after a run of public operations. *)
Definition run_ops (ops : list cm_op) (cm : ConversationManager)
    : ConversationManager :=
  fold_left run_op ops cm.

(** The turn an [add_turn] call stores. *)
Definition turn_of (e : turn_event) : turn :=
  Turn (te_now e) (te_user e) (te_agent e) (te_tool_calls e) (te_skills e).

(** The text blocks and the tool invocations of a response, in order. *)
Definition texts_of (blocks : list response_block) : string :=
  foldr (λ b rest, match b with TextBlock t => t +:+ rest | _ => rest end)
        "" blocks.

Definition tool_uses_of (blocks : list response_block) : list tool_call :=
  omap (λ b, match b with
             | ToolUse id name input => Some (ToolCall id name input)
             | _ => None
             end) blocks.

(** A run of rate-limit checks for one key under one limit, at the given
    times: the verdicts, and the request times left. *)
Definition rate_limit_run (times : list Z) (key : string)
    (max_requests window_seconds : Z) (requests : gmap string (list Z))
    : list bool * gmap string (list Z) :=
  fold_left (λ acc now,
      let '(allowed, _, requests) :=
        RateLimiter.check_rate_limit now key max_requests window_seconds acc.2 in
      (acc.1 ++ [allowed], requests))
    times ([], requests).

(** What the public operations keep true of a manager: a stored history
    has a turn and a start time, and a cached value has a timestamp. *)
Definition cm_consistent (cm : ConversationManager) : Prop :=
  map_Forall (λ session_id conversation,
                conversation ≠ []
                ∧ is_Some (session_start_times cm !! session_id))
             (conversations cm)
  ∧ ∀ session_id key,
      is_Some (default ∅ (session_cache cm !! session_id) !! key) →
      is_Some (default ∅ (cache_timestamps cm !! session_id) !! key).


(** The entry [_build_skill_context] formats for a loaded skill. *)
Definition skill_entry (skill_name : string) (sk : skill) : string :=
  "=== SKILL: " +:+ skill_name +:+ " ===" +:+ nl +:+ skill_content sk +:+ nl.


(** The skills [detect_needed_skills] can return, in the order it appends
    them. *)
Definition detectable_skills : list string :=
  ["docx"; "pptx"; "xlsx"; "pdf"; "frontend-design"; "brand-guidelines";
   "theme-factory"; "skill-creator"; "product-self-knowledge"].


(** The one-element list of a skill that was detected, or nothing. *)
Definition when (detected : bool) (skill_name : string) : list string :=
  if detected then [skill_name] else [].


(** The times of the requests a run of checks allowed. *)
Fixpoint allowed_times (times : list Z) (verdicts : list bool) : list Z :=
  match times, verdicts with
  | now :: times, allowed :: verdicts =>
      (if allowed then [now] else []) ++ allowed_times times verdicts
  | _, _ => []
  end.

(** A run of [cleanup_old_sessions] calls, each with its clock reading and
    its limit. *)
Definition sweeps (calls : list (Z * Z)) (cm : ConversationManager)
    : ConversationManager :=
  fold_left (λ cm call, (CM.cleanup_old_sessions call.1 call.2 cm).2) calls cm.

(** What the cache breakpoints of a message sequence cover: a breakpoint
    caches the request up to it, so the cached part of the sequence runs
    to its last message that carries one, and the messages after that
    message are sent fresh. *)
Fixpoint cached_prefix (messages : list chat_message) : list chat_message :=
  match messages with
  | [] => []
  | m :: messages =>
      if has_breakpoint m || existsb has_breakpoint messages
      then m :: cached_prefix messages
      else []
  end.

Definition fresh_suffix (messages : list chat_message) : list chat_message :=
  drop (length (cached_prefix messages)) messages.

(** * Properties *)

(** ** Slices *)

Section slices.
Context {A : Type}.
Implicit Types l : list A.

Lemma slice_all_but_last l (k : nat) :
  py_slice l None (Some (- Z.of_nat (S k)))
  = take (length l - S k)%nat l.
Proof.
  unfold py_slice, slice_index.
  replace (- Z.of_nat (S k) <? 0) with true by (symmetry; apply Z.ltb_lt; lia).
  change (Z.to_nat 0) with 0%nat. rewrite drop_0. f_equal. lia.
Qed.

Lemma slice_last l (k : nat) :
  py_slice l (Some (- Z.of_nat (S k))) None
  = drop (length l - S k)%nat l.
Proof.
  unfold py_slice, slice_index.
  replace (- Z.of_nat (S k) <? 0) with true by (symmetry; apply Z.ltb_lt; lia).
  rewrite take_ge.
  - f_equal. lia.
  - rewrite length_drop. lia.
Qed.

Lemma slice_from_zero l : py_slice l (Some 0) None = l.
Proof.
  unfold py_slice, slice_index. rewrite Z.ltb_irrefl.
  replace (Z.max 0 (Z.min (Z.of_nat (length l)) 0)) with 0 by lia.
  rewrite Z.sub_0_r, Nat2Z.id. simpl. apply firstn_all.
Qed.
End slices.

Lemma older_turns_take conversation :
  older_turns conversation = take (length conversation - 2)%nat conversation.
Proof. apply (slice_all_but_last conversation 1). Qed.

Lemma recent_turns_drop conversation :
  recent_turns conversation = drop (length conversation - 2)%nat conversation.
Proof. apply (slice_last conversation 1). Qed.

Lemma cache_boundary_eq conversation :
  cache_boundary conversation = (length conversation - 2)%nat.
Proof.
  unfold cache_boundary. rewrite older_turns_take, length_take. lia.
Qed.

Lemma older_recent_partition conversation :
  older_turns conversation ++ recent_turns conversation = conversation.
Proof. rewrite older_turns_take, recent_turns_drop. apply take_drop. Qed.

(** ** The cache boundary *)

Lemma spec_partition_point_2 history :
  spec_partition_point 2 history = (length history - 2)%nat.
Proof. unfold spec_partition_point. lia. Qed.

Lemma fold_append_turn turns messages :
  fold_left append_turn turns messages = messages ++ turn_messages turns.
Proof.
  revert messages. induction turns as [|t turns IH]; intros messages; simpl.
  - by rewrite app_nil_r.
  - rewrite IH. unfold append_turn. by rewrite <- !app_assoc.
Qed.

Lemma append_history_eq messages conversation :
  append_history messages conversation
  = messages ++ turn_messages (older_turns conversation)
             ++ turn_messages (recent_turns conversation).
Proof.
  destruct conversation as [|t conversation].
  - simpl. by rewrite app_nil_r.
  - unfold append_history. by rewrite !fold_append_turn, <- app_assoc.
Qed.

Lemma build_cached_messages_layout message conversation skill_context doc_context :
  Agent._build_cached_messages message conversation skill_context doc_context
  = turn_messages (older_turns conversation)
    ++ turn_messages (recent_turns conversation)
    ++ skill_part skill_context ++ doc_part doc_context
    ++ [Msg User (Text message)].
Proof.
  unfold Agent._build_cached_messages, skill_part, doc_part.
  rewrite append_history_eq. simpl.
  destruct (str_truthy skill_context), (str_truthy doc_context);
    simpl; rewrite <- ?app_assoc; simpl; by rewrite ?app_nil_r.
Qed.

(** ** Appending turns *)

Lemma get_conversation_add_turn now sid user agent tcs skills cm sid' :
  CM.get_conversation sid' (CM.add_turn now sid user agent tcs skills cm)
  = if decide (sid = sid')
    then CM.get_conversation sid' cm ++ [Turn now user agent tcs skills]
    else CM.get_conversation sid' cm.
Proof.
  unfold CM.get_conversation, CM.add_turn; simpl.
  rewrite lookup_insert. by destruct (decide (sid = sid')) as [->|].
Qed.

Lemma get_conversation_apply_turns events cm sid :
  CM.get_conversation sid cm `prefix_of`
  CM.get_conversation sid (apply_turns events cm).
Proof.
  revert cm. induction events as [|e events IH]; intros cm; simpl.
  - done.
  - etrans; [|apply IH]. unfold apply_turn.
    rewrite get_conversation_add_turn. case_decide.
    + by apply prefix_app_r.
    + done.
Qed.

Lemma take_prefix_le {A} (l : list A) (n m : nat) :
  (n ≤ m)%nat → take n l `prefix_of` take m l.
Proof.
  intros Hle. replace (take n l) with (take n (take m l)).
  - apply prefix_take.
  - rewrite take_take. f_equal. lia.
Qed.

Lemma older_turns_prefix (h more : list turn) :
  older_turns h `prefix_of` older_turns (h ++ more).
Proof.
  rewrite !older_turns_take, length_app.
  destruct (decide (length h - 2 ≤ length h)%nat) as [Hle|]; [|lia].
  rewrite <- (take_app_le h more (length h - 2)) by done.
  apply take_prefix_le. lia.
Qed.

(** C2: when a manager evolves only by [add_turn] calls, the boundary of
    every session never decreases, and the turns before the boundary at
    the earlier assembly are a prefix of the turns before the boundary at
    the later one. *)
Theorem C2_boundary_monotone
    (events : list turn_event) (cm : ConversationManager) (session_id : string) :
  cache_boundary (CM.get_conversation session_id cm)
    = spec_partition_point 2 (CM.get_conversation session_id cm)
  ∧ (cache_boundary (CM.get_conversation session_id cm)
     ≤ cache_boundary (CM.get_conversation session_id (apply_turns events cm)))%nat
  ∧ older_turns (CM.get_conversation session_id cm) `prefix_of`
    older_turns (CM.get_conversation session_id (apply_turns events cm))
  ∧ older_turns (CM.get_conversation session_id cm) `prefix_of`
    CM.get_conversation session_id (apply_turns events cm).
Proof.
  destruct (get_conversation_apply_turns events cm session_id) as [more ->].
  set (h := CM.get_conversation session_id cm).
  split; [|split; [|split]].
  - by rewrite cache_boundary_eq, spec_partition_point_2.
  - rewrite !cache_boundary_eq, length_app. lia.
  - apply older_turns_prefix.
  - rewrite older_turns_take. etrans; [apply prefix_take|]. by apply prefix_app_r.
Qed.

(** ** Reading the last turns *)

Lemma get_last_n_turns_positive session_id n cm :
  1 ≤ n →
  CM.get_last_n_turns session_id n cm
  = drop (length (CM.get_conversation session_id cm) - Z.to_nat n)%nat
         (CM.get_conversation session_id cm).
Proof.
  intros Hn. unfold CM.get_last_n_turns.
  set (conversation := CM.get_conversation session_id cm).
  destruct (Z.ltb_spec n (Z.of_nat (length conversation))) as [Hlt|Hge].
  - replace n with (Z.of_nat (S (Z.to_nat n - 1))) at 1 by lia.
    rewrite slice_last. f_equal. lia.
  - replace (length conversation - Z.to_nat n)%nat with 0%nat by lia.
    by rewrite drop_0.
Qed.

Lemma get_last_n_turns_zero session_id cm :
  CM.get_last_n_turns session_id 0 cm = CM.get_conversation session_id cm.
Proof.
  unfold CM.get_last_n_turns.
  destruct (0 <? Z.of_nat (length (CM.get_conversation session_id cm)));
    [apply slice_from_zero | done].
Qed.

(** C7: [get_last_n_turns] with [n = 0] on a session of two turns returns
    both turns ([conversation[-0:]] is the whole list), where the last
    [min(0, 2) = 0] turns are the empty sequence. *)
Theorem C7_last_zero_turns_returns_all :
  CM.get_last_n_turns "s" 0
    (apply_turns [TurnEvent 1 "s" "Hello" "Hi!" [] [];
                  TurnEvent 2 "s" "Bye" "Goodbye!" [] []]
                 (new_manager default_cache_ttl))
  = [Turn 1 "Hello" "Hi!" [] []; Turn 2 "Bye" "Goodbye!" [] []].
Proof. vm_compute. reflexivity. Qed.

(** ** The session side-cache *)

Lemma cache_entry_after_set now sid key v cm :
  default ∅ (session_cache (CM.set_session_cache now sid key v cm) !! sid) !! key
    = Some v
  ∧ cache_timestamps (CM.set_session_cache now sid key v cm) !! sid
    = Some (<[key := now]> (default ∅ (cache_timestamps cm !! sid)))
  ∧ cache_ttl (CM.set_session_cache now sid key v cm) = cache_ttl cm.
Proof.
  unfold CM.set_session_cache, with_cache; simpl.
  rewrite !lookup_insert_eq; simpl. by rewrite lookup_insert_eq.
Qed.

Lemma get_after_set T t sid key v cm :
  CM.get_session_cache t sid key (CM.set_session_cache T sid key v cm)
  = if cache_ttl cm <? t - T
    then (Return PyNone,
          with_cache (CM.set_session_cache T sid key v cm)
            (<[sid := delete key
                 (default ∅ (session_cache (CM.set_session_cache T sid key v cm) !! sid))]>
               (session_cache (CM.set_session_cache T sid key v cm)))
            (<[sid := delete key (<[key := T]> (default ∅ (cache_timestamps cm !! sid)))]>
               (cache_timestamps (CM.set_session_cache T sid key v cm))))
    else (Return v, CM.set_session_cache T sid key v cm).
Proof.
  destruct (cache_entry_after_set T sid key v cm) as (Hv & Hts & Httl).
  unfold CM.get_session_cache. rewrite Hv, Hts, lookup_insert_eq, Httl.
  reflexivity.
Qed.

Lemma get_absent_entry t sid key cm :
  default ∅ (session_cache cm !! sid) !! key = None →
  CM.get_session_cache t sid key cm = (Return PyNone, cm).
Proof. intros H. unfold CM.get_session_cache. by rewrite H. Qed.

(** C4 (amended): after an entry is written at time [T] under TTL
    [cache_ttl], a read at any time up to and including [T + cache_ttl]
    returns the stored value and leaves the manager as it is (the expiry
    does not slide); a read at any time after [T + cache_ttl] returns
    [None] and deletes the value and its timestamp, so that every later
    read returns [None] as well. *)
Theorem C4_ttl_visibility
    (T t t' : Z) (sid key : string) (v : pyval) (cm : ConversationManager) :
  (t ≤ T + cache_ttl cm →
     CM.get_session_cache t sid key (CM.set_session_cache T sid key v cm)
     = (Return v, CM.set_session_cache T sid key v cm))
  ∧ (T + cache_ttl cm < t →
     (CM.get_session_cache t sid key (CM.set_session_cache T sid key v cm)).1
       = Return PyNone
     ∧ default ∅ (session_cache
         (CM.get_session_cache t sid key (CM.set_session_cache T sid key v cm)).2
           !! sid) !! key = None
     ∧ default ∅ (cache_timestamps
         (CM.get_session_cache t sid key (CM.set_session_cache T sid key v cm)).2
           !! sid) !! key = None
     ∧ CM.get_session_cache t' sid key
         (CM.get_session_cache t sid key (CM.set_session_cache T sid key v cm)).2
       = (Return PyNone,
          (CM.get_session_cache t sid key (CM.set_session_cache T sid key v cm)).2)).
Proof.
  rewrite get_after_set. split; intros Ht.
  - by replace (cache_ttl cm <? t - T) with false by (symmetry; apply Z.ltb_ge; lia).
  - replace (cache_ttl cm <? t - T) with true by (symmetry; apply Z.ltb_lt; lia).
    assert (Hgone : default ∅ (session_cache
       (with_cache (CM.set_session_cache T sid key v cm)
          (<[sid := delete key
               (default ∅ (session_cache (CM.set_session_cache T sid key v cm) !! sid))]>
             (session_cache (CM.set_session_cache T sid key v cm)))
          (<[sid := delete key (<[key := T]> (default ∅ (cache_timestamps cm !! sid)))]>
             (cache_timestamps (CM.set_session_cache T sid key v cm)))) !! sid) !! key
       = None).
    { simpl. rewrite lookup_insert_eq. simpl. apply lookup_delete_eq. }
    split; [done|]. split; [exact Hgone|]. split.
    + simpl. rewrite lookup_insert_eq. simpl. apply lookup_delete_eq.
    + by apply get_absent_entry.
Qed.

(** The scenario of the specification, TTL 300 s and a write at 0: the
    value is read at 299, and is gone at 301 and at 302. *)
Lemma C4_ttl_visibility_witness :
  CM.get_session_cache 299 "s1" "docs"
    (CM.set_session_cache 0 "s1" "docs" (PyStr "X") (new_manager 300))
  = (Return (PyStr "X"),
     CM.set_session_cache 0 "s1" "docs" (PyStr "X") (new_manager 300))
  ∧ (CM.get_session_cache 301 "s1" "docs"
       (CM.set_session_cache 0 "s1" "docs" (PyStr "X") (new_manager 300))).1
    = Return PyNone
  ∧ (CM.get_session_cache 302 "s1" "docs"
       (CM.get_session_cache 301 "s1" "docs"
          (CM.set_session_cache 0 "s1" "docs" (PyStr "X") (new_manager 300))).2).1
    = Return PyNone.
Proof.
  destruct (C4_ttl_visibility 0 299 0 "s1" "docs" (PyStr "X") (new_manager 300))
    as [Hhit _].
  destruct (C4_ttl_visibility 0 301 302 "s1" "docs" (PyStr "X") (new_manager 300))
    as [_ Hmiss].
  split; [apply Hhit; simpl; lia|].
  destruct Hmiss as (H1 & _ & _ & H2); [simpl; lia|].
  split; [exact H1|]. by rewrite H2.
Defined.

(** C4 as stated fails at the instant [T + cache_ttl] itself: with TTL
    300 s and a write at 0, the read at 300 still returns the value. *)
Lemma C4_read_at_expiry_instant :
  0 + cache_ttl (new_manager 300) ≤ 300
  ∧ (CM.get_session_cache 300 "s1" "docs"
       (CM.set_session_cache 0 "s1" "docs" (PyStr "X") (new_manager 300))).1
    = Return (PyStr "X")
  ∧ (CM.get_session_cache 300 "s1" "docs"
       (CM.set_session_cache 0 "s1" "docs" (PyStr "X") (new_manager 300))).1
    ≠ Return PyNone.
Proof.
  split; [simpl; lia|].
  rewrite get_after_set. simpl. split; [reflexivity | discriminate].
Qed.

(** ** The cost ledger *)

Section cost.
#[local] Set Warnings "-inexact-float".

Lemma float_of_int_small (n : Z) :
  Z.abs n < 9223372036854775808 →
  Cost.float_of_int n
  = Return (if 0 <=? n then of_uint63 (Uint63.of_Z n)
            else (- of_uint63 (Uint63.of_Z (- n)))%float).
Proof.
  intros H. unfold Cost.float_of_int.
  apply Z.ltb_lt in H. by rewrite H.
Qed.

Lemma to_Z_int_one : Uint63.to_Z int_one = 1.
Proof. reflexivity. Qed.

Lemma all_bits_spec (k : nat) (hi : PrimInt63.int) (p : PrimInt63.int → bool) :
  all_bits k hi p = true →
  (Uint63.to_Z hi + 1) * 2 ^ Z.of_nat k ≤ Uint63.wB →
  ∀ i, Uint63.to_Z hi * 2 ^ Z.of_nat k ≤ Uint63.to_Z i
       < (Uint63.to_Z hi + 1) * 2 ^ Z.of_nat k →
       p i = true.
Proof.
  revert hi. induction k as [|k IH]; intros hi Hall Hfit i Hi.
  - simpl in Hall, Hi. assert (i = hi) as -> by (apply Uint63.to_Z_inj; lia). done.
  - simpl in Hall. apply andb_true_iff in Hall as [Heven Hodd].
    rewrite Nat2Z.inj_succ, Z.pow_succ_r in Hfit, Hi by lia.
    pose proof (Uint63.to_Z_bounded hi) as Hhi.
    assert (0 < 2 ^ Z.of_nat k) as Hpow by (apply Z.pow_pos_nonneg; lia).
    assert (Hdouble : Uint63.to_Z (PrimInt63.add hi hi) = 2 * Uint63.to_Z hi).
    { rewrite Uint63.add_spec, Z.mod_small by nia. lia. }
    assert (Hnext : Uint63.to_Z (PrimInt63.add (PrimInt63.add hi hi) int_one)
                    = 2 * Uint63.to_Z hi + 1).
    { rewrite Uint63.add_spec, Hdouble, to_Z_int_one, Z.mod_small by nia. lia. }
    destruct (Z.lt_ge_cases (Uint63.to_Z i)
                ((2 * Uint63.to_Z hi + 1) * 2 ^ Z.of_nat k)) as [Hlow|Hhigh].
    + apply (IH _ Heven); rewrite Hdouble; nia.
    + apply (IH _ Hodd); rewrite Hnext; nia.
Qed.

Lemma checked_below_bound_spec (p : float → bool) (n : Z) :
  checked_below_bound p = true →
  0 < n < count_bound →
  p (of_uint63 (Uint63.of_Z n)) = true.
Proof.
  unfold checked_below_bound, count_bound. intros Hall Hn.
  assert (Hto : Uint63.to_Z (Uint63.of_Z n) = n).
  { rewrite Uint63.of_Z_spec. apply Z.mod_small.
    change Uint63.wB with 9223372036854775808. lia. }
  pose proof (all_bits_spec 20 int_zero _ Hall) as Hspec.
  change (Uint63.to_Z int_zero) with 0 in Hspec.
  change Uint63.wB with 9223372036854775808 in Hspec.
  change (2 ^ Z.of_nat 20) with 1048576 in Hspec.
  specialize (Hspec ltac:(lia) (Uint63.of_Z n) ltac:(lia)).
  apply orb_true_iff in Hspec as [Hzero|Hp]; [|done].
  apply Uint63.eqb_spec in Hzero. rewrite Hzero in Hto.
  change (Uint63.to_Z int_zero) with 0 in Hto. lia.
Qed.


Lemma components_checked : checked_below_bound components_signed = true.
Proof. vm_compute. reflexivity. Qed.

Lemma float_of_count (n : Z) :
  0 < n < count_bound →
  Cost.float_of_int n = Return (of_uint63 (Uint63.of_Z n))
  ∧ Cost.float_of_int (- n) = Return (- of_uint63 (Uint63.of_Z n))%float.
Proof.
  unfold count_bound. intros Hn. rewrite !float_of_int_small by lia.
  destruct (Z.leb_spec 0 n); [|lia].
  destruct (Z.leb_spec 0 (- n)); [lia|].
  by rewrite Z.opp_involutive.
Qed.


(** The ledger of four integer counts whose floats are [fi], [fw], [fr]
    and [fo]. *)
Lemma calculate_cost_counts (alg : summation) (i o w r : Z) (fi fo fw fr : float) :
  Cost.float_of_int i = Return fi →
  Cost.float_of_int o = Return fo →
  Cost.float_of_int w = Return fw →
  Cost.float_of_int r = Return fr →
  Cost._calculate_cost_with_cache
    (Usage (Some (Count i)) (Some (Count o)) (Some (Count w)) (Some (Count r)))
  = let costs :=
      Breakdown (fi * Cost.PROMPT_PRICE) (fw * Cost.CACHE_WRITE_PRICE)
                (fr * Cost.CACHE_READ_PRICE) (fo * Cost.OUTPUT_PRICE) in
    let total_cost :=
      Cost.sum_floats alg
        [cost_prompt costs; cost_cache_write costs; cost_cache_read costs;
         cost_output costs] in
    savings_percentage ← Cost.percentage total_cost (savings_amount r fr);
    Return (CostInfo total_cost costs (savings_amount r fr) savings_percentage).
Proof.
  intros Hi Ho Hw Hr.
  unfold Cost._calculate_cost_with_cache, savings_amount, savings_float; simpl.
  rewrite Hi; simpl. rewrite Hw; simpl. rewrite Hr; simpl. rewrite Ho; simpl.
  destruct (0 <? r); reflexivity.
Qed.

(** Either the percentage divides by zero, or the call returns the
    components, their sum and the savings. *)
Lemma calculate_cost_outcome (alg : summation) (i o w r : Z) (fi fo fw fr : float) :
  Cost.float_of_int i = Return fi →
  Cost.float_of_int o = Return fo →
  Cost.float_of_int w = Return fw →
  Cost.float_of_int r = Return fr →
  let u := Usage (Some (Count i)) (Some (Count o)) (Some (Count w)) (Some (Count r)) in
  let costs :=
    Breakdown (fi * Cost.PROMPT_PRICE) (fw * Cost.CACHE_WRITE_PRICE)
              (fr * Cost.CACHE_READ_PRICE) (fo * Cost.OUTPUT_PRICE) in
  let total_cost :=
    Cost.sum_floats alg
      [cost_prompt costs; cost_cache_write costs; cost_cache_read costs;
       cost_output costs] in
  (Cost._calculate_cost_with_cache u = Raise ZeroDivisionError
   ∧ 0 < r
   ∧ (0 <? savings_float fr)%float = true
   ∧ (total_cost + savings_float fr =? 0)%float = true)
  ∨ (∃ c, Cost._calculate_cost_with_cache u = Return c
          ∧ total c = total_cost
          ∧ breakdown c = costs
          ∧ savings c = savings_amount r fr).
Proof.
  intros Hi Ho Hw Hr u costs total_cost. subst u.
  rewrite (calculate_cost_counts alg i o w r fi fo fw fr Hi Ho Hw Hr).
  cbv zeta. fold costs. fold total_cost.
  unfold savings_amount, Cost.percentage.
  destruct (Z.ltb_spec 0 r) as [Hpos|Hle]; simpl.
  - destruct (0 <? savings_float fr)%float eqn:Hs; simpl.
    + destruct (total_cost + savings_float fr =? 0)%float eqn:Hz; simpl.
      * by left.
      * right. by eexists.
    + right. by eexists.
  - right. by eexists.
Qed.

(** Once the usage is priced, the cache-read count is an [int] and the
    comparison that reports the cache hit does not raise. *)
Lemma priced_usage_cache_hit (alg : summation) (u : usage) (c : cost_info) :
  Cost._calculate_cost_with_cache u = Return c →
  Cost.gt_zero (Cost.getattr0 (cache_read_input_tokens u))
  = Return (0 <? cache_read_count u).
Proof.
  destruct u as [i o w r]. unfold Cost._calculate_cost_with_cache, cache_read_count.
  simpl. intros Hc.
  destruct i as [[|i]|]; simpl in Hc; [done| |done].
  destruct (Cost.float_of_int i); simpl in Hc; [|done].
  destruct (Cost.times (Cost.getattr0 w) Cost.CACHE_WRITE_PRICE); simpl in Hc; [|done].
  destruct r as [[|r]|]; simpl in *; done.
Qed.




Lemma components_of_count (n : Z) (price : float) :
  0 < n < count_bound →
  price ∈ rates →
  ∃ x, Cost.float_of_int n = Return x
       ∧ Cost.float_of_int (- n) = Return (- x)%float
       ∧ (0 <? x * price)%float = true
       ∧ (- x * price <? 0)%float = true.
Proof.
  intros Hn Hprice. destruct (float_of_count n Hn) as [Hpos Hneg].
  eexists. split; [exact Hpos|]. split; [exact Hneg|].
  pose proof (checked_below_bound_spec _ n components_checked Hn) as Hok.
  unfold components_signed in Hok.
  rewrite forallb_forall in Hok.
  apply andb_true_iff, Hok, list_elem_of_In, Hprice.
Qed.

(** C9 (amended): a usage record without the cache-write or the
    cache-read count is priced as if that count were 0.  The computation
    has error conditions: a record without the fresh-input count raises
    [AttributeError], and so does one without the output count once the
    three counts before it are priced; a count that is [None] raises
    [TypeError]; a count too large for a float, such as 2^1024, raises
    [OverflowError]; and the percentage divides by zero when the savings
    are positive and total + savings is zero, as for -10 fresh and 10
    cached tokens.  Counts are not clamped: unless it divides by zero,
    the call on four integer counts returns, and each component is the
    float of its count times its rate, whatever the sign of the count;
    for a count from 1 to below 2^20 the component is positive at every
    rate, and for the opposite count it is negative. *)
Theorem C9_cost_defaults (alg : summation)
    (input output cache_write cache_read : Z) (i o w r : option count) :
  Cost._calculate_cost_with_cache (Usage i o None r)
  = Cost._calculate_cost_with_cache (Usage i o (Some (Count 0)) r)
  ∧ Cost._calculate_cost_with_cache (Usage i o w None)
    = Cost._calculate_cost_with_cache (Usage i o w (Some (Count 0)))
  ∧ Cost._calculate_cost_with_cache (Usage None o w r)
    = Raise (AttributeError "input_tokens")
  ∧ Cost._calculate_cost_with_cache (Usage (Some NoneValue) o w r)
    = Raise TypeError
  ∧ (Cost.float_of_int input = Raise OverflowError →
     Cost._calculate_cost_with_cache (Usage (Some (Count input)) o w r)
     = Raise OverflowError)
  ∧ Cost.float_of_int (2 ^ 1024) = Raise OverflowError
  ∧ Cost._calculate_cost_with_cache
      (Usage (Some (Count (-10))) (Some (Count 0)) None (Some (Count 10)))
    = Raise ZeroDivisionError
  ∧ (∀ fi fo fw fr : float,
       Cost.float_of_int input = Return fi →
       Cost.float_of_int output = Return fo →
       Cost.float_of_int cache_write = Return fw →
       Cost.float_of_int cache_read = Return fr →
       Cost._calculate_cost_with_cache
         (Usage (Some (Count input)) o (Some NoneValue) r)
       = Raise TypeError
       ∧ Cost._calculate_cost_with_cache
           (Usage (Some (Count input)) o (Some (Count cache_write))
                  (Some NoneValue))
         = Raise TypeError
       ∧ Cost._calculate_cost_with_cache
           (Usage (Some (Count input)) None (Some (Count cache_write))
                  (Some (Count cache_read)))
         = Raise (AttributeError "output_tokens")
       ∧ Cost._calculate_cost_with_cache
           (Usage (Some (Count input)) (Some NoneValue)
                  (Some (Count cache_write)) (Some (Count cache_read)))
         = Raise TypeError
       ∧ ((Cost._calculate_cost_with_cache
             (Usage (Some (Count input)) (Some (Count output))
                    (Some (Count cache_write)) (Some (Count cache_read)))
           = Raise ZeroDivisionError
           ∧ 0 < cache_read
           ∧ (0 <? savings_float fr)%float = true
           ∧ (Cost.sum_floats alg
                [fi * Cost.PROMPT_PRICE; fw * Cost.CACHE_WRITE_PRICE;
                 fr * Cost.CACHE_READ_PRICE; fo * Cost.OUTPUT_PRICE]
              + savings_float fr =? 0)%float = true)
          ∨ (∃ c, Cost._calculate_cost_with_cache
                    (Usage (Some (Count input)) (Some (Count output))
                           (Some (Count cache_write)) (Some (Count cache_read)))
                  = Return c
                  ∧ breakdown c
                    = Breakdown (fi * Cost.PROMPT_PRICE)
                                (fw * Cost.CACHE_WRITE_PRICE)
                                (fr * Cost.CACHE_READ_PRICE)
                                (fo * Cost.OUTPUT_PRICE)
                  ∧ total c
                    = Cost.sum_floats alg
                        [fi * Cost.PROMPT_PRICE; fw * Cost.CACHE_WRITE_PRICE;
                         fr * Cost.CACHE_READ_PRICE; fo * Cost.OUTPUT_PRICE]%float
                  ∧ savings c = savings_amount cache_read fr)))
  ∧ (∀ (n : Z) (price : float),
       0 < n < count_bound →
       price ∈ rates →
       ∃ x, Cost.float_of_int n = Return x
            ∧ Cost.float_of_int (- n) = Return (- x)%float
            ∧ (0 <? x * price)%float = true
            ∧ (- x * price <? 0)%float = true).
Proof.
  split; [reflexivity|]. split; [reflexivity|]. split; [reflexivity|].
  split; [reflexivity|].
  split.
  { intros Hover. unfold Cost._calculate_cost_with_cache; simpl. by rewrite Hover. }
  split; [reflexivity|].
  split; [by destruct alg|].
  split; [|intros n price; apply components_of_count].
  intros fi fo fw fr Hi Ho Hw Hr.
  split; [|split; [|split; [|split]]].
  - unfold Cost._calculate_cost_with_cache; simpl. by rewrite Hi.
  - unfold Cost._calculate_cost_with_cache; simpl. rewrite Hi; simpl. by rewrite Hw.
  - unfold Cost._calculate_cost_with_cache; simpl.
    rewrite Hi; simpl. rewrite Hw; simpl. by rewrite Hr.
  - unfold Cost._calculate_cost_with_cache; simpl.
    rewrite Hi; simpl. rewrite Hw; simpl. by rewrite Hr.
  - destruct (calculate_cost_outcome alg input output cache_write cache_read
                fi fo fw fr Hi Ho Hw Hr)
      as [(Hz & Hpos & Hs & Hsum)|(c & Hc & Htotal & Hcosts & Hsavings)].
    + by left.
    + right. by exists c.
Qed.

(** Four negative counts: the call returns, and the component of the
    cache-read count is the negative [-5 * CACHE_READ_PRICE]. *)
Lemma C9_cost_defaults_witness :
  ∃ c, Cost._calculate_cost_with_cache (alg := Compensated)
         (Usage (Some (Count (-1000))) (Some (Count (-200)))
                (Some (Count (-3))) (Some (Count (-5))))
       = Return c
       ∧ cost_cache_read (breakdown c) = (-5 * Cost.CACHE_READ_PRICE)%float
       ∧ (cost_cache_read (breakdown c) <? 0)%float = true.
Proof.
  destruct (C9_cost_defaults Compensated (-1000) (-200) (-3) (-5) None None None None)
    as (_ & _ & _ & _ & _ & _ & _ & Hcounts & _).
  destruct (Hcounts (-1000)%float (-200)%float (-3)%float (-5)%float)
    as (_ & _ & _ & _ & [(_ & Hpos & _)|(c & Hc & Hcosts & _)]);
    [reflexivity.. | lia |].
  exists c. split; [exact Hc|]. rewrite Hcosts. split; reflexivity.
Defined.

(** C9 as stated fails: negative counts are not priced as 0 (-1000 fresh
    tokens cost -0.003, -5 tokens read from the cache cost -1.5e-06), a
    record without the fresh-input count raises, and so does a cache
    count that is [None]. *)
Lemma C9_negative_and_missing_counts :
  cost_prompt ∘ breakdown
    <$> Cost._calculate_cost_with_cache (alg := LeftToRight)
          (Usage (Some (Count (-1000))) (Some (Count 200)) None None)
  = Return (-0.003)%float
  ∧ cost_cache_read ∘ breakdown
      <$> Cost._calculate_cost_with_cache (alg := LeftToRight)
            (Usage (Some (Count 1000)) (Some (Count 200)) None (Some (Count (-5))))
    = Return (-1.5e-06)%float
  ∧ cost_cache_read ∘ breakdown
      <$> Cost._calculate_cost_with_cache (alg := Compensated)
            (Usage (Some (Count 1000)) (Some (Count 200)) None (Some (Count (-5))))
    = Return (-1.5e-06)%float
  ∧ cost_cache_read ∘ breakdown
      <$> Cost._calculate_cost_with_cache (alg := LeftToRight)
            (Usage (Some (Count 1000)) (Some (Count 200)) None (Some (Count 0)))
    = Return 0%float
  ∧ (-0.003 <? 0)%float = true
  ∧ (-1.5e-06 <? 0)%float = true
  ∧ Cost._calculate_cost_with_cache (alg := LeftToRight)
      (Usage None (Some (Count 200)) None None)
    = Raise (AttributeError "input_tokens")
  ∧ Cost._calculate_cost_with_cache (alg := LeftToRight)
      (Usage (Some (Count 1000)) (Some (Count 200)) (Some NoneValue) None)
    = Raise TypeError.
Proof. repeat split. Qed.

End cost.

(** ** The sweep of idle sessions *)

Lemma remove_sessions_lookup (removed : list string) cm sid :
  let cm' := fold_left CM.remove_session removed cm in
  (sid ∈ removed →
     conversations cm' !! sid = None ∧ session_cache cm' !! sid = None
     ∧ cache_timestamps cm' !! sid = None ∧ session_start_times cm' !! sid = None)
  ∧ (sid ∉ removed →
     conversations cm' !! sid = conversations cm !! sid
     ∧ session_cache cm' !! sid = session_cache cm !! sid
     ∧ cache_timestamps cm' !! sid = cache_timestamps cm !! sid
     ∧ session_start_times cm' !! sid = session_start_times cm !! sid)
  ∧ (conversations cm !! sid = None → conversations cm' !! sid = None)
  ∧ (session_cache cm !! sid = None → session_cache cm' !! sid = None)
  ∧ (cache_timestamps cm !! sid = None → cache_timestamps cm' !! sid = None)
  ∧ (session_start_times cm !! sid = None → session_start_times cm' !! sid = None)
  ∧ cache_ttl cm' = cache_ttl cm.
Proof.
  revert cm. induction removed as [|r removed IH]; intros cm; simpl.
  - split; [intros Hin; by apply elem_of_nil in Hin | done].
  - specialize (IH (CM.remove_session cm r)). simpl in IH.
    destruct IH as (IHin & IHout & IHc & IHs & IHt & IHst & IHttl).
    assert (Hgone : conversations (CM.remove_session cm r) !! r = None
                    ∧ session_cache (CM.remove_session cm r) !! r = None
                    ∧ cache_timestamps (CM.remove_session cm r) !! r = None
                    ∧ session_start_times (CM.remove_session cm r) !! r = None).
    { simpl. by rewrite !lookup_delete_eq. }
    assert (Hkeep : ∀ s, s ≠ r →
                    conversations (CM.remove_session cm r) !! s = conversations cm !! s
                    ∧ session_cache (CM.remove_session cm r) !! s = session_cache cm !! s
                    ∧ cache_timestamps (CM.remove_session cm r) !! s
                      = cache_timestamps cm !! s
                    ∧ session_start_times (CM.remove_session cm r) !! s
                      = session_start_times cm !! s).
    { intros s Hne. simpl. by rewrite !lookup_delete_ne. }
    assert (Hmono : (conversations cm !! sid = None →
                     conversations (CM.remove_session cm r) !! sid = None)
                  ∧ (session_cache cm !! sid = None →
                     session_cache (CM.remove_session cm r) !! sid = None)
                  ∧ (cache_timestamps cm !! sid = None →
                     cache_timestamps (CM.remove_session cm r) !! sid = None)
                  ∧ (session_start_times cm !! sid = None →
                     session_start_times (CM.remove_session cm r) !! sid = None)).
    { destruct (decide (sid = r)) as [->|Hne].
      - destruct Hgone as (-> & -> & -> & ->). done.
      - destruct (Hkeep sid Hne) as (-> & -> & -> & ->). done. }
    destruct Hmono as (Mc & Ms & Mt & Mst).
    split; [|split; [|repeat split]].
    + intros Hin. apply elem_of_cons in Hin as [->|Hin]; [|by apply IHin].
      destruct Hgone as (Gc & Gs & Gt & Gst). auto.
    + intros Hout. apply not_elem_of_cons in Hout as [Hne Hout].
      destruct (IHout Hout) as (-> & -> & -> & ->). by apply Hkeep.
    + auto.
    + auto.
    + auto.
    + auto.
    + by rewrite IHttl.
Qed.

Lemma elem_of_sessions_to_remove now max_age cm sid :
  sid ∈ CM.sessions_to_remove now max_age cm
  ↔ ∃ conversation, conversations cm !! sid = Some conversation
                    ∧ CM.too_old now max_age conversation = true.
Proof.
  unfold CM.sessions_to_remove. rewrite list_elem_of_fmap. split.
  - intros ([s conversation] & -> & Hin).
    apply list_elem_of_filter in Hin as [Hold Hin].
    apply elem_of_map_to_list in Hin. eauto.
  - intros (conversation & Hlook & Hold).
    exists (sid, conversation). split; [done|].
    apply list_elem_of_filter. split; [done|]. by apply elem_of_map_to_list.
Qed.

Lemma NoDup_sessions_to_remove now max_age cm :
  NoDup (CM.sessions_to_remove now max_age cm).
Proof.
  unfold CM.sessions_to_remove.
  apply (sublist_NoDup _ (map_to_list (conversations cm)).*1).
  - apply NoDup_fst_map_to_list.
  - apply fmap_sublist, sublist_filter.
Qed.

Lemma too_old_spec now max_age conversation :
  CM.too_old now max_age conversation = true
  ↔ ∃ t, last conversation = Some t ∧ max_age < now - timestamp t.
Proof.
  unfold CM.too_old. destruct (last conversation) as [t|]; split.
  - intros Hold. exists t. split; [done | by apply Z.ltb_lt].
  - intros (t' & [= <-] & Hold). by apply Z.ltb_lt.
  - discriminate.
  - intros (t' & [=] & _).
Qed.

Lemma last_activity_of_spec sid cm t :
  CM.last_activity_of sid cm = Some t
  ↔ ∃ conversation last_turn,
      conversations cm !! sid = Some conversation
      ∧ last conversation = Some last_turn ∧ timestamp last_turn = t.
Proof.
  unfold CM.last_activity_of, CM.get_conversation. split.
  - destruct (conversations cm !! sid) as [conversation|]; simpl; [|discriminate].
    destruct (last conversation) as [last_turn|] eqn:Hlast; simpl; [|discriminate].
    intros [= <-]. by exists conversation, last_turn.
  - intros (conversation & last_turn & -> & Hlast & <-). simpl. by rewrite Hlast.
Qed.

Lemma idle_session_swept now max_age cm sid :
  sid ∈ CM.sessions_to_remove now max_age cm
  ↔ ∃ t, CM.last_activity_of sid cm = Some t ∧ max_age < now - t.
Proof.
  rewrite elem_of_sessions_to_remove. split.
  - intros (conversation & Hlook & Hold).
    apply too_old_spec in Hold as (last_turn & Hlast & Hage).
    exists (timestamp last_turn). split; [|done].
    apply last_activity_of_spec. eauto.
  - intros (t & Hact & Hage).
    apply last_activity_of_spec in Hact as (conversation & last_turn & Hlook & Hlast & <-).
    exists conversation. split; [done|]. apply too_old_spec. eauto.
Qed.

(** C6: [cleanup_old_sessions] removes the conversation, both cache maps
    and the start time of every session whose last turn is older than
    [max_age], returns the number of sessions it removed, leaves every
    other session as it was, and afterwards no session has a last turn
    older than [max_age]. *)
Theorem C6_cleanup_old_sessions (now max_age : Z) (cm : ConversationManager) :
  (CM.cleanup_old_sessions now max_age cm).1
    = Z.of_nat (length (CM.sessions_to_remove now max_age cm))
  ∧ NoDup (CM.sessions_to_remove now max_age cm)
  ∧ (∀ sid, sid ∈ CM.sessions_to_remove now max_age cm
            ↔ ∃ t, CM.last_activity_of sid cm = Some t ∧ max_age < now - t)
  ∧ (∀ sid t, CM.last_activity_of sid cm = Some t → max_age < now - t →
       conversations (CM.cleanup_old_sessions now max_age cm).2 !! sid = None
       ∧ session_cache (CM.cleanup_old_sessions now max_age cm).2 !! sid = None
       ∧ cache_timestamps (CM.cleanup_old_sessions now max_age cm).2 !! sid = None
       ∧ session_start_times (CM.cleanup_old_sessions now max_age cm).2 !! sid = None)
  ∧ (∀ sid t, CM.last_activity_of sid cm = Some t → now - t ≤ max_age →
       conversations (CM.cleanup_old_sessions now max_age cm).2 !! sid
         = conversations cm !! sid
       ∧ session_cache (CM.cleanup_old_sessions now max_age cm).2 !! sid
         = session_cache cm !! sid
       ∧ cache_timestamps (CM.cleanup_old_sessions now max_age cm).2 !! sid
         = cache_timestamps cm !! sid
       ∧ session_start_times (CM.cleanup_old_sessions now max_age cm).2 !! sid
         = session_start_times cm !! sid)
  ∧ (∀ sid t, CM.last_activity_of sid (CM.cleanup_old_sessions now max_age cm).2
                = Some t → now - t ≤ max_age).
Proof.
  unfold CM.cleanup_old_sessions; simpl.
  split; [done|]. split; [apply NoDup_sessions_to_remove|].
  split; [intros sid; apply idle_session_swept|].
  assert (Hlook := remove_sessions_lookup (CM.sessions_to_remove now max_age cm) cm).
  cbv zeta in Hlook.
  split; [|split].
  - intros sid t Hact Hage. apply Hlook, idle_session_swept. eauto.
  - intros sid t Hact Hage. apply Hlook.
    intros Hin. apply idle_session_swept in Hin as (t' & Hact' & Hage').
    rewrite Hact in Hact'. injection Hact' as <-. lia.
  - intros sid t Hact.
    destruct (Hlook sid) as (Hin & Hout & _).
    destruct (decide (sid ∈ CM.sessions_to_remove now max_age cm)) as [Hsid|Hsid].
    + destruct (Hin Hsid) as (Hgone & _).
      apply last_activity_of_spec in Hact as (? & ? & Hsome & _). congruence.
    + destruct (Z_le_gt_dec (now - t) max_age) as [|Hage]; [done|].
      exfalso. apply Hsid, idle_session_swept. exists t. split; [|lia].
      destruct (Hout Hsid) as (Hsame & _).
      unfold CM.last_activity_of, CM.get_conversation in *.
      by rewrite <- Hsame.
Qed.

(** The scenario of the specification at time 3601 with [max_age] 3600: a
    session last active at 0 (idle 3601 s) is removed with its cache, one
    last active at 2 (idle 3599 s) is retained, and the count is 1. *)
Lemma C6_cleanup_old_sessions_witness :
  (CM.cleanup_old_sessions 3601 3600
     (CM.set_session_cache 0 "old" "docs" (PyStr "X")
        (apply_turns [TurnEvent 0 "old" "Hi" "Hello" [] [];
                      TurnEvent 2 "fresh" "Hey" "Hi there" [] []]
                     (new_manager default_cache_ttl)))).1 = 1
  ∧ conversations
      (CM.cleanup_old_sessions 3601 3600
         (CM.set_session_cache 0 "old" "docs" (PyStr "X")
            (apply_turns [TurnEvent 0 "old" "Hi" "Hello" [] [];
                          TurnEvent 2 "fresh" "Hey" "Hi there" [] []]
                         (new_manager default_cache_ttl)))).2 !! "old" = None
  ∧ session_cache
      (CM.cleanup_old_sessions 3601 3600
         (CM.set_session_cache 0 "old" "docs" (PyStr "X")
            (apply_turns [TurnEvent 0 "old" "Hi" "Hello" [] [];
                          TurnEvent 2 "fresh" "Hey" "Hi there" [] []]
                         (new_manager default_cache_ttl)))).2 !! "old" = None
  ∧ conversations
      (CM.cleanup_old_sessions 3601 3600
         (CM.set_session_cache 0 "old" "docs" (PyStr "X")
            (apply_turns [TurnEvent 0 "old" "Hi" "Hello" [] [];
                          TurnEvent 2 "fresh" "Hey" "Hi there" [] []]
                         (new_manager default_cache_ttl)))).2 !! "fresh"
    = Some [Turn 2 "Hey" "Hi there" [] []].
Proof.
  destruct (C6_cleanup_old_sessions 3601 3600
     (CM.set_session_cache 0 "old" "docs" (PyStr "X")
        (apply_turns [TurnEvent 0 "old" "Hi" "Hello" [] [];
                      TurnEvent 2 "fresh" "Hey" "Hi there" [] []]
                     (new_manager default_cache_ttl))))
    as (Hcount & _ & _ & Hremoved & Hkept & _).
  split; [rewrite Hcount; vm_compute; reflexivity|].
  destruct (Hremoved "old" 0) as (Hc & Hs & _ & _);
    [vm_compute; reflexivity | lia |].
  destruct (Hkept "fresh" 2) as (Hf & _); [vm_compute; reflexivity | lia |].
  split; [exact Hc|]. split; [exact Hs|]. rewrite Hf. vm_compute. reflexivity.
Defined.

(** ** The layout of an assembled request *)

Lemma turn_messages_unmarked turns :
  Forall (λ m, breakpoint_only_at_end m = true ∧ has_breakpoint m = false)
         (turn_messages turns).
Proof.
  induction turns as [|t turns IH]; simpl.
  - constructor.
  - repeat constructor; done.
Qed.

Lemma filter_unmarked (msgs : list chat_message) :
  Forall (λ m, breakpoint_only_at_end m = true ∧ has_breakpoint m = false) msgs →
  filter (λ m, has_breakpoint m = true) msgs = [].
Proof.
  induction 1 as [|m msgs [_ Hm] _ IH]; [done|].
  rewrite filter_cons_False; [done | congruence].
Qed.

Lemma skill_part_marks skill_context :
  Forall (λ m, breakpoint_only_at_end m = true) (skill_part skill_context)
  ∧ filter (λ m, has_breakpoint m = true) (skill_part skill_context)
    = if str_truthy skill_context then [Agent.skill_message skill_context] else [].
Proof.
  unfold skill_part. destruct (str_truthy skill_context).
  - split; [repeat constructor | reflexivity].
  - split; [constructor | reflexivity].
Qed.

Lemma doc_part_marks doc_context :
  Forall (λ m, breakpoint_only_at_end m = true) (doc_part doc_context)
  ∧ filter (λ m, has_breakpoint m = true) (doc_part doc_context)
    = if str_truthy doc_context then [Agent.doc_message doc_context] else [].
Proof.
  unfold doc_part. destruct (str_truthy doc_context).
  - split; [repeat constructor | reflexivity].
  - split; [constructor | reflexivity].
Qed.

Lemma mark_last_tool_snoc tools t :
  Agent.mark_last_tool (tools ++ [t])
  = tools ++ [ToolDef (tool_name t) (Some Ephemeral)].
Proof.
  unfold Agent.mark_last_tool.
  destruct (tools ++ [t]) as [|t0 rest] eqn:Heq.
  - by destruct tools.
  - rewrite <- Heq, length_app. simpl.
    replace (length tools + 1 - 1)%nat with (length tools + 0)%nat by lia.
    by rewrite alter_app_r.
Qed.

(** C3 (amended): the message sequence is, in this order, the turns before
    the boundary, the last two turns, the skill block, the documentation
    block and the new user message, the system instructions travelling in
    the request's own [system] field; the skill and the documentation
    block are each present with their whole text or absent; a cache
    breakpoint sits only on the last part of a message, and the messages
    that carry one are exactly the skill message and the documentation
    message that are present; the system block and the last tool
    definition carry one as well. *)
Theorem C3_request_layout
    (system_prompt message skill_context doc_context : string)
    (conversation : list turn) :
  Agent._build_cached_messages message conversation skill_context doc_context
  = turn_messages (older_turns conversation)
    ++ turn_messages (recent_turns conversation)
    ++ skill_part skill_context ++ doc_part doc_context
    ++ [Msg User (Text message)]
  ∧ (skill_part skill_context = []
     ∨ skill_part skill_context
       = [Msg User (Blocks
            [Block ("📚 SKILL CONTEXT:" +:+ nl +:+ nl +:+ skill_context) None;
             Block "Skills loaded and ready." (Some Ephemeral)]);
          Agent.skill_ack])
  ∧ (doc_part doc_context = []
     ∨ doc_part doc_context
       = [Msg User (Blocks
            [Block ("📖 DOCUMENTATION:" +:+ nl +:+ nl +:+ doc_context) None;
             Block "Documentation loaded." (Some Ephemeral)]);
          Agent.doc_ack])
  ∧ Forall (λ m, breakpoint_only_at_end m = true)
      (Agent._build_cached_messages message conversation skill_context doc_context)
  ∧ filter (λ m, has_breakpoint m = true)
      (Agent._build_cached_messages message conversation skill_context doc_context)
    = (if str_truthy skill_context then [Agent.skill_message skill_context] else [])
      ++ (if str_truthy doc_context then [Agent.doc_message doc_context] else [])
  ∧ req_messages
      (Agent.build_request system_prompt
         (Agent._build_cached_messages message conversation skill_context doc_context))
    = Agent._build_cached_messages message conversation skill_context doc_context
  ∧ req_system
      (Agent.build_request system_prompt
         (Agent._build_cached_messages message conversation skill_context doc_context))
    = [Block system_prompt (Some Ephemeral)]
  ∧ req_tools
      (Agent.build_request system_prompt
         (Agent._build_cached_messages message conversation skill_context doc_context))
    = [ToolDef "search_documentation" None; ToolDef "load_documentation" None;
       ToolDef "query_skill" None; ToolDef "update_knowledge_graph" None;
       ToolDef "get_catalog" (Some Ephemeral)].
Proof.
  rewrite build_cached_messages_layout.
  destruct (skill_part_marks skill_context) as [Hs_end Hs_marks].
  destruct (doc_part_marks doc_context) as [Hd_end Hd_marks].
  split; [done|].
  split; [unfold skill_part; destruct (str_truthy skill_context); auto|].
  split; [unfold doc_part; destruct (str_truthy doc_context); auto|].
  split.
  { rewrite !Forall_app. repeat split; try done.
    - eapply Forall_impl; [apply turn_messages_unmarked|]. by intros m [H _].
    - eapply Forall_impl; [apply turn_messages_unmarked|]. by intros m [H _].
    - by repeat constructor. }
  split.
  { rewrite !filter_app, Hs_marks, Hd_marks.
    rewrite !(filter_unmarked _ (turn_messages_unmarked _)). simpl.
    by rewrite app_nil_r. }
  repeat split.
Qed.

(** C3 as stated fails: with one earlier turn, a skill context and a
    documentation context, the assembled sequence starts with the earlier
    turn and not with the skill block, so it differs from the sequence in
    the order of the specification; and both the skill and the
    documentation message carry a breakpoint. *)
Lemma C3_history_precedes_context_blocks :
  Agent._build_cached_messages "m" [Turn 1 "u1" "a1" [] []] "s" "d" !! 0%nat
    = Some (Msg User (Text "u1"))
  ∧ spec_block_order "m" [Turn 1 "u1" "a1" [] []] "s" "d" !! 0%nat
    = Some (Agent.skill_message "s")
  ∧ Agent._build_cached_messages "m" [Turn 1 "u1" "a1" [] []] "s" "d"
    ≠ spec_block_order "m" [Turn 1 "u1" "a1" [] []] "s" "d"
  ∧ filter (λ m, has_breakpoint m = true)
      (Agent._build_cached_messages "m" [Turn 1 "u1" "a1" [] []] "s" "d")
    = [Agent.skill_message "s"; Agent.doc_message "d"].
Proof.
  split; [reflexivity|]. split; [reflexivity|].
  split; [|reflexivity]. intros Heq.
  apply (f_equal (λ l, l !! 0%nat)) in Heq. discriminate Heq.
Qed.

(** ** The cache boundary in the assembled request *)

Lemma turn_messages_app (turns more : list turn) :
  turn_messages (turns ++ more) = turn_messages turns ++ turn_messages more.
Proof. unfold turn_messages. apply flat_map_app. Qed.

Lemma turn_messages_no_breakpoint turns :
  Forall (λ m, has_breakpoint m = false) (turn_messages turns).
Proof.
  eapply Forall_impl; [apply turn_messages_unmarked|]. by intros m [_ Hm].
Qed.

Lemma cached_prefix_none (messages : list chat_message) :
  existsb has_breakpoint messages = false → cached_prefix messages = [].
Proof.
  destruct messages as [|m messages]; simpl; [done|]. by intros ->.
Qed.

Lemma no_breakpoint_among (unmarked : list chat_message) :
  Forall (λ m, has_breakpoint m = false) unmarked →
  existsb has_breakpoint unmarked = false.
Proof. induction 1 as [|m unmarked Hm _ IH]; simpl; [done|]. by rewrite Hm, IH. Qed.

Lemma cached_prefix_after_unmarked (unmarked messages : list chat_message) :
  Forall (λ m, has_breakpoint m = false) unmarked →
  cached_prefix (unmarked ++ messages)
  = if existsb has_breakpoint messages
    then unmarked ++ cached_prefix messages else [].
Proof.
  induction 1 as [|m unmarked Hm Hrest IH]; simpl.
  - destruct (existsb has_breakpoint messages) eqn:Hany; [done|].
    by apply cached_prefix_none.
  - rewrite Hm, existsb_app, IH, (no_breakpoint_among _ Hrest). simpl.
    by destruct (existsb has_breakpoint messages).
Qed.

(** C1: the two loops of [_build_cached_messages] do split the history at
    [max(0, len - 2)], but the split has no effect on the request: the
    messages are those of one loop over the whole history, no turn message
    carries a breakpoint, and what the breakpoints cover does not depend
    on the boundary.  With a documentation or a skill block the cached
    part runs through the whole history, the last two turns included, up
    to the last marked block; without one nothing of the message sequence
    is cached, the turns before the boundary included.  So for three
    turns, where the boundary is 1, the cached part is empty without a
    block and holds all six turn messages with a skill block. *)
Theorem C1_boundary_leaves_no_trace
    (message skill_context doc_context : string) (conversation : list turn)
    (t1 t2 t3 : turn) :
  let messages :=
    Agent._build_cached_messages message conversation skill_context doc_context in
  older_turns conversation
  = take (spec_partition_point 2 conversation) conversation
  ∧ recent_turns conversation
    = drop (spec_partition_point 2 conversation) conversation
  ∧ messages
    = turn_messages conversation ++ skill_part skill_context
      ++ doc_part doc_context ++ [Msg User (Text message)]
  ∧ Forall (λ m, has_breakpoint m = false) (turn_messages conversation)
  ∧ cached_prefix messages
    = (if str_truthy doc_context
       then turn_messages conversation ++ skill_part skill_context
            ++ [Agent.doc_message doc_context]
       else if str_truthy skill_context
       then turn_messages conversation ++ [Agent.skill_message skill_context]
       else [])
  ∧ fresh_suffix messages
    = (if str_truthy doc_context
       then [Agent.doc_ack; Msg User (Text message)]
       else if str_truthy skill_context
       then [Agent.skill_ack; Msg User (Text message)]
       else messages)
  ∧ spec_partition_point 2 [t1; t2; t3] = 1%nat
  ∧ cached_prefix (Agent._build_cached_messages message [t1; t2; t3] "" "") = []
  ∧ cached_prefix
      (Agent._build_cached_messages message [t1; t2; t3] "Use the docx skill." "")
    = turn_messages [t1; t2; t3] ++ [Agent.skill_message "Use the docx skill."]
  ∧ fresh_suffix
      (Agent._build_cached_messages message [t1; t2; t3] "Use the docx skill." "")
    = [Agent.skill_ack; Msg User (Text message)].
Proof.
  intros messages.
  assert (Hlayout : messages
          = turn_messages conversation ++ skill_part skill_context
            ++ doc_part doc_context ++ [Msg User (Text message)]).
  { unfold messages. rewrite build_cached_messages_layout, app_assoc.
    by rewrite <- turn_messages_app, older_recent_partition. }
  assert (Hcached : cached_prefix messages
          = (if str_truthy doc_context
             then turn_messages conversation ++ skill_part skill_context
                  ++ [Agent.doc_message doc_context]
             else if str_truthy skill_context
             then turn_messages conversation ++ [Agent.skill_message skill_context]
             else [])).
  { rewrite Hlayout.
    rewrite cached_prefix_after_unmarked by apply turn_messages_no_breakpoint.
    unfold skill_part, doc_part.
    by destruct (str_truthy skill_context), (str_truthy doc_context). }
  split; [by rewrite spec_partition_point_2, older_turns_take|].
  split; [by rewrite spec_partition_point_2, recent_turns_drop|].
  split; [exact Hlayout|].
  split; [apply turn_messages_no_breakpoint|].
  split; [exact Hcached|].
  split.
  { unfold fresh_suffix. rewrite Hcached. clear Hcached. rewrite Hlayout.
    unfold doc_part.
    destruct (str_truthy doc_context).
    - replace (turn_messages conversation ++ skill_part skill_context
               ++ [Agent.doc_message doc_context; Agent.doc_ack]
               ++ [Msg User (Text message)])
        with ((turn_messages conversation ++ skill_part skill_context
               ++ [Agent.doc_message doc_context])
              ++ [Agent.doc_ack; Msg User (Text message)])
        by (by rewrite <- !app_assoc).
      apply drop_app_length.
    - unfold skill_part. destruct (str_truthy skill_context); [|done].
      replace (turn_messages conversation
               ++ [Agent.skill_message skill_context; Agent.skill_ack]
               ++ [] ++ [Msg User (Text message)])
        with ((turn_messages conversation ++ [Agent.skill_message skill_context])
              ++ [Agent.skill_ack; Msg User (Text message)])
        by (by rewrite <- !app_assoc).
      apply drop_app_length. }
  repeat split.
Qed.

(** ** The documentation context *)

Section documentation.
Context {World : Type}.
Variable search_documentation :
  string → Z → World → option search_results * World.

Lemma documentation_absent now query sid cm w :
  default ∅ (session_cache cm !! sid) !! "docs" = None →
  Agent._get_documentation_context search_documentation now query sid cm w
  = doc_miss search_documentation now query sid cm w.
Proof.
  intros Habs. unfold Agent._get_documentation_context, doc_miss.
  by rewrite (get_absent_entry now sid "docs" cm Habs).
Qed.

Lemma documentation_falsy_fresh now query sid cm w v stamps written :
  default ∅ (session_cache cm !! sid) !! "docs" = Some v →
  truthy v = false →
  cache_timestamps cm !! sid = Some stamps →
  stamps !! "docs" = Some written →
  now - written ≤ cache_ttl cm →
  Agent._get_documentation_context search_documentation now query sid cm w
  = doc_miss search_documentation now query sid cm w.
Proof.
  intros Hv Hfalsy Hts Hw Hfresh.
  unfold Agent._get_documentation_context, doc_miss, CM.get_session_cache.
  rewrite Hv, Hts, Hw.
  replace (cache_ttl cm <? now - written) with false
    by (symmetry; apply Z.ltb_ge; lia).
  destruct v as [|s]; [done|]. by rewrite Hfalsy.
Qed.

(** Writing an entry back after its eviction gives the manager that
    overwriting it in place gives. *)
Lemma set_after_eviction now sid key v cm inner stamps :
  session_cache cm !! sid = Some inner →
  cache_timestamps cm !! sid = Some stamps →
  CM.set_session_cache now sid key v
    (with_cache cm (<[sid := delete key inner]> (session_cache cm))
                   (<[sid := delete key stamps]> (cache_timestamps cm)))
  = CM.set_session_cache now sid key v cm.
Proof.
  intros Hin Hts. unfold CM.set_session_cache, with_cache; simpl.
  rewrite !lookup_insert_eq, Hin, Hts; simpl.
  by rewrite !insert_insert_eq, !insert_delete_eq.
Qed.

(** A falsy entry, expired or not, is a miss whenever the retrieval
    formats without raising. *)
Lemma documentation_falsy now query sid cm w v context :
  default ∅ (session_cache cm !! sid) !! "docs" = Some v →
  truthy v = false →
  is_Some (default ∅ (cache_timestamps cm !! sid) !! "docs") →
  Agent._format_docs_for_cache (search_documentation query 5 w).1
    = Return context →
  Agent._get_documentation_context search_documentation now query sid cm w
  = (Return context,
     CM.set_session_cache now sid "docs" (PyStr context) cm,
     (search_documentation query 5 w).2).
Proof.
  intros Hv Hfalsy [written Hw] Hfmt.
  destruct (session_cache cm !! sid) as [inner|] eqn:Hin; [|done].
  destruct (cache_timestamps cm !! sid) as [stamps|] eqn:Hts; [|done].
  simpl in Hv, Hw.
  unfold Agent._get_documentation_context, CM.get_session_cache.
  rewrite Hin, Hts; simpl. rewrite Hv, Hw.
  destruct (search_documentation query 5 w) as [results w'] eqn:Hsearch.
  simpl in Hfmt |- *.
  destruct (cache_ttl cm <? now - written).
  - rewrite Hfmt. by rewrite set_after_eviction.
  - destruct v as [|s]; [|rewrite Hfalsy]; by rewrite Hfmt.
Qed.

Lemma doc_requests_always_retrieve requests sid cm w v :
  (∀ q w, Agent._format_docs_for_cache (search_documentation q 5 w).1
          = Return "") →
  default ∅ (session_cache cm !! sid) !! "docs" = Some v →
  truthy v = false →
  is_Some (default ∅ (cache_timestamps cm !! sid) !! "docs") →
  (doc_requests search_documentation requests sid cm w).2
    = retrievals search_documentation requests w
  ∧ (doc_requests search_documentation requests sid cm w).1.1
    = replicate (length requests) (Return "").
Proof.
  intros Hempty. revert cm w v.
  induction requests as [|[now query] requests IH]; intros cm w v Hv Hfalsy Hts.
  - done.
  - simpl.
    rewrite (documentation_falsy now query sid cm w v "" Hv Hfalsy Hts (Hempty _ _)).
    destruct (cache_entry_after_set now sid "docs" (PyStr "") cm) as (Hv' & Hts' & _).
    specialize (IH (CM.set_session_cache now sid "docs" (PyStr "") cm)
                   (search_documentation query 5 w).2 (PyStr "") Hv' eq_refl).
    destruct IH as [IHw IHr].
    { rewrite Hts'. simpl. rewrite lookup_insert_eq. by eexists. }
    destruct (doc_requests search_documentation requests sid _ _) as [[rs cm'] w'].
    simpl in *. by rewrite IHw, IHr.
Qed.

(** C10: when the entry under ["docs"] is present, unexpired and falsy
    ([None] or the empty string), [_get_documentation_context] takes the
    miss path: it calls the retrieval and writes the formatted result
    back over the entry, exactly as it does when the entry is absent;
    and when the retrieval keeps giving an empty result, every one of
    any number of later requests calls the retrieval again and returns
    the empty context. *)
Theorem C10_falsy_entry_is_a_miss
    (now : Z) (query sid : string) (cm : ConversationManager) (w : World)
    (v : pyval) (stamps : gmap string Z) (written : Z)
    (requests : list (Z * string)) :
  default ∅ (session_cache cm !! sid) !! "docs" = Some v →
  truthy v = false →
  cache_timestamps cm !! sid = Some stamps →
  stamps !! "docs" = Some written →
  now - written ≤ cache_ttl cm →
  (CM.get_session_cache now sid "docs" cm = (Return v, cm))
  ∧ Agent._get_documentation_context search_documentation now query sid cm w
    = doc_miss search_documentation now query sid cm w
  ∧ (Agent._get_documentation_context search_documentation now query sid cm w).2
    = (search_documentation query 5 w).2
  ∧ (∀ context,
       Agent._format_docs_for_cache (search_documentation query 5 w).1
         = Return context →
       Agent._get_documentation_context search_documentation now query sid cm w
       = (Return context,
          CM.set_session_cache now sid "docs" (PyStr context) cm,
          (search_documentation query 5 w).2))
  ∧ ((∀ q w, Agent._format_docs_for_cache (search_documentation q 5 w).1
             = Return "") →
     (doc_requests search_documentation requests sid cm w).2
       = retrievals search_documentation requests w
     ∧ (doc_requests search_documentation requests sid cm w).1.1
       = replicate (length requests) (Return "")).
Proof.
  intros Hv Hfalsy Hts Hw Hfresh.
  assert (Hstamp : is_Some (default ∅ (cache_timestamps cm !! sid) !! "docs")).
  { rewrite Hts. simpl. by eexists. }
  split; [|split; [|split; [|split]]].
  - unfold CM.get_session_cache. rewrite Hv, Hts, Hw.
    by replace (cache_ttl cm <? now - written) with false
      by (symmetry; apply Z.ltb_ge; lia).
  - by apply (documentation_falsy_fresh now query sid cm w v stamps written).
  - rewrite (documentation_falsy_fresh now query sid cm w v stamps written)
      by done.
    unfold doc_miss. destruct (search_documentation query 5 w) as [results w'].
    simpl. by destruct (Agent._format_docs_for_cache results).
  - intros context Hfmt. by apply (documentation_falsy now query sid cm w v).
  - intros Hempty. by apply (doc_requests_always_retrieve requests sid cm w v).
Qed.

End documentation.

(** Three requests against an entry that holds the empty string, with a
    retrieval that finds nothing and counts its calls: the first request
    calls it once, and three further requests make three more calls. *)
Lemma C10_falsy_entry_is_a_miss_witness :
  (Agent._get_documentation_context
     (λ (_ : string) (_ : Z) (calls : nat),
        (Some (SearchResults (Some []) (Some [])), S calls))
     10 "q0" "s"
     (CM.set_session_cache 0 "s" "docs" (PyStr "") (new_manager default_cache_ttl))
     0%nat).2 = 1%nat
  ∧ (doc_requests
       (λ (_ : string) (_ : Z) (calls : nat),
          (Some (SearchResults (Some []) (Some [])), S calls))
       [(20, "q1"); (30, "q2"); (40, "q3")] "s"
       (CM.set_session_cache 0 "s" "docs" (PyStr "") (new_manager default_cache_ttl))
       0%nat).2 = 3%nat.
Proof.
  destruct (C10_falsy_entry_is_a_miss
              (λ (_ : string) (_ : Z) (calls : nat),
                 (Some (SearchResults (Some []) (Some [])), S calls))
              10 "q0" "s"
              (CM.set_session_cache 0 "s" "docs" (PyStr "")
                 (new_manager default_cache_ttl))
              0%nat (PyStr "") {["docs" := 0]} 0
              [(20, "q1"); (30, "q2"); (40, "q3")])
    as (_ & _ & Hcall & _ & Hall);
    [reflexivity | reflexivity | reflexivity | reflexivity | unfold default_cache_ttl; simpl; lia |].
  split; [exact Hcall|].
  destruct Hall as [Hworld _]; [reflexivity|]. exact Hworld.
Defined.

(** ** Turn handling on a session that was never created *)

Section chat.
Context {World : Type}.
Context {alg : summation}.
Variable skills : gmap string skill.
Variable system_prompt : string.
Variable detect_needed_skills : string → list string.
Variable search_documentation :
  string → Z → World → option search_results * World.
Variable messages_create : request → World → result response * World.
Variable tools_execute : string → string → World → World.

Lemma process_response_returns r start_time end_time needed_skills w cost :
  Cost._calculate_cost_with_cache (resp_usage r) = Return cost →
  ∃ res w',
    Agent._process_response tools_execute r start_time end_time needed_skills w
    = (Return res, w')
    ∧ res_skills_used res = needed_skills.
Proof.
  intros Hcost. unfold Agent._process_response.
  destruct (fold_left Agent.collect_block (resp_content r) ("", []))
    as [text tcs].
  destruct (String.eqb (stop_reason r) "tool_use" && negb (bool_decide (tcs = [])));
    simpl; rewrite Hcost, (priced_usage_cache_hit _ _ _ Hcost); eauto.
Qed.

(** C8 (amended): on a session id the manager holds no state for, the
    reads return the empty history (and the cache read [None]) and
    leave the manager as it is; [chat] reports no error when the
    retrieval, the model call and the cost computation succeed, and it
    creates the session: afterwards the history holds the one new turn
    and the start time is recorded; the explicit error is raised by the
    API layer, whose [send_message] rejects a session id it has no
    record of with status 404 before the agent is called. *)
Theorem C8_unknown_session
    (now later n : Z) (message sid key : string)
    (cm : ConversationManager) (w w' : World)
    (sessions : gmap string session_info)
    (context : string) (r : response) (cost : cost_info) :
  conversations cm !! sid = None →
  session_cache cm !! sid = None →
  session_start_times cm !! sid = None →
  sessions !! sid = None →
  Agent._format_docs_for_cache (search_documentation message 5 w).1
    = Return context →
  messages_create
    (Agent.build_request system_prompt
       (Agent._build_cached_messages message []
          (Agent._build_skill_context skills (detect_needed_skills message))
          context))
    (search_documentation message 5 w).2
    = (Return r, w') →
  Cost._calculate_cost_with_cache (resp_usage r) = Return cost →
  CM.get_conversation sid cm = []
  ∧ CM.get_last_n_turns sid n cm = []
  ∧ CM.get_session_cache now sid key cm = (Return PyNone, cm)
  ∧ (∃ res cm' w'',
       Agent.chat skills system_prompt detect_needed_skills search_documentation
         messages_create tools_execute now later message sid cm w
       = (Return res, cm', w'')
       ∧ CM.get_conversation sid cm'
         = [Turn later message (res_message res) (res_tool_calls res)
                 (detect_needed_skills message)]
       ∧ session_start_times cm' !! sid = Some later)
  ∧ Api.send_message skills system_prompt detect_needed_skills
      search_documentation messages_create tools_execute
      now later sid message (ApiState sessions cm w)
    = (Raise (HTTPException 404 "Session not found"), ApiState sessions cm w).
Proof.
  intros Hconv Hcache Hstart Hsess Hfmt Hcreate Hcost.
  assert (Hempty : CM.get_conversation sid cm = []).
  { unfold CM.get_conversation. by rewrite Hconv. }
  split; [exact Hempty|].
  split.
  { unfold CM.get_last_n_turns. rewrite Hempty.
    destruct (n <? _); [|done].
    unfold py_slice. by rewrite drop_nil, take_nil. }
  split; [apply get_absent_entry; by rewrite Hcache|].
  split.
  - unfold Agent.chat.
    rewrite documentation_absent by (by rewrite Hcache).
    unfold doc_miss.
    destruct (search_documentation message 5 w) as [results w1].
    simpl in Hfmt, Hcreate. rewrite Hfmt, Hempty, Hcreate.
    destruct (process_response_returns r now later
                (detect_needed_skills message) w' cost Hcost)
      as (res & w'' & -> & _).
    eexists _, _, _. split; [reflexivity|].
    unfold CM.get_conversation, CM.add_turn; simpl.
    rewrite lookup_insert_eq, Hconv, Hstart, lookup_insert_eq. done.
  - unfold Api.send_message, SM.get_session_info; simpl. by rewrite Hsess.
Qed.

End chat.

(** A first message on the session id "nope", with a retrieval that finds
    nothing and a model that answers "Hi": no error, and the session
    exists afterwards; the API layer rejects the same id. *)
Lemma C8_unknown_session_witness :
  CM.get_conversation "nope" (new_manager default_cache_ttl) = []
  ∧ (∃ res cm' w'',
       Agent.chat (alg := LeftToRight) ∅ "You are the Librarian Agent" (λ _, [])
         (λ _ _ (w : unit), (None, w))
         (λ _ (w : unit),
            (Return (Response [TextBlock "Hi"] "end_turn"
                       (Usage (Some (Count 10)) (Some (Count 5)) None None)), w))
         (λ _ _ (w : unit), w)
         0 1 "Hello" "nope" (new_manager default_cache_ttl) tt
       = (Return res, cm', w'')
       ∧ CM.get_conversation "nope" cm'
         = [Turn 1 "Hello" (res_message res) (res_tool_calls res) []]
       ∧ session_start_times cm' !! "nope" = Some 1)
  ∧ Api.send_message (alg := LeftToRight) ∅ "You are the Librarian Agent" (λ _, [])
      (λ _ _ (w : unit), (None, w))
      (λ _ (w : unit),
         (Return (Response [TextBlock "Hi"] "end_turn"
                    (Usage (Some (Count 10)) (Some (Count 5)) None None)), w))
      (λ _ _ (w : unit), w)
      0 1 "nope" "Hello" (ApiState ∅ (new_manager default_cache_ttl) tt)
    = (Raise (HTTPException 404 "Session not found"),
       ApiState ∅ (new_manager default_cache_ttl) tt).
Proof.
  edestruct (C8_unknown_session (alg := LeftToRight) ∅ "You are the Librarian Agent" (λ _, [])
              (λ _ _ (w : unit), (None, w))
              (λ _ (w : unit),
                 (Return (Response [TextBlock "Hi"] "end_turn"
                            (Usage (Some (Count 10)) (Some (Count 5)) None None)), w))
              (λ _ _ (w : unit), w)
              0 1 0 "Hello" "nope" "docs" (new_manager default_cache_ttl) tt tt ∅ ""
              (Response [TextBlock "Hi"] "end_turn"
                 (Usage (Some (Count 10)) (Some (Count 5)) None None)))
    as (Hread & _ & _ & Hchat & Hapi);
    [reflexivity | reflexivity | reflexivity | reflexivity | reflexivity
    | reflexivity | reflexivity |].
  split; [exact Hread|]. split; [exact Hchat | exact Hapi].
Defined.

(** C8 as stated fails: [chat] on the session id "nope", which the
    manager has never seen, returns the reply without an error, and the
    session then has a history and a start time. *)
Lemma C8_chat_creates_the_session :
  conversations (new_manager default_cache_ttl) !! "nope" = None
  ∧ session_start_times (new_manager default_cache_ttl) !! "nope" = None
  ∧ ∃ res cm',
      Agent.chat (alg := LeftToRight) ∅ "You are the Librarian Agent" (λ _, [])
        Agent.search_documentation_mock
        (λ _ (w : unit),
           (Return (Response [TextBlock "Hi"] "end_turn"
                      (Usage (Some (Count 10)) (Some (Count 5)) None None)), w))
        (λ _ _ (w : unit), w)
        0 1 "Hello" "nope" (new_manager default_cache_ttl) tt
      = (Return res, cm', tt)
      ∧ res_message res = "Hi"
      ∧ conversations cm' !! "nope" = Some [Turn 1 "Hello" "Hi" [] []]
      ∧ session_start_times cm' !! "nope" = Some 1.
Proof.
  split; [reflexivity|]. split; [reflexivity|].
  eexists _, _. split; [reflexivity|].
  split; [reflexivity|]. split; reflexivity.
Qed.

(** ** The sweep of the API-layer session manager *)

Lemma expired_spec now max_age_minutes s :
  SM.expired now max_age_minutes s = true
  ↔ 60 * max_age_minutes < now - last_activity s.
Proof.
  unfold SM.expired. cbv zeta. rewrite negb_true_iff.
  rewrite <- not_true_iff_false, Qle_bool_iff.
  unfold Qle, Qdiv, Qmult, Qinv, inject_Z; simpl. lia.
Qed.

Lemma fold_delete_lookup {V} (removed : list string) (m : gmap string V) sid :
  fold_left (λ m session_id, delete session_id m) removed m !! sid
  = if decide (sid ∈ removed) then None else m !! sid.
Proof.
  revert m. induction removed as [|r removed IH]; intros m; simpl.
  - destruct (decide (sid ∈ [])) as [Hin|]; [by apply elem_of_nil in Hin | done].
  - rewrite IH.
    destruct (decide (sid ∈ removed)) as [Hin|Hout],
             (decide (sid ∈ r :: removed)) as [Hin'|Hout']; try done.
    + exfalso. apply Hout'. by apply list_elem_of_further.
    + apply elem_of_cons in Hin' as [->|Hin']; [apply lookup_delete_eq | done].
    + apply not_elem_of_cons in Hout' as [Hne _]. by apply lookup_delete_ne.
Qed.

(** [SessionManager.cleanup_old_sessions] applies the same strict test, in
    minutes, to its own records: the expired ones are deleted, the others
    are kept as they are. *)
Lemma session_manager_cleanup_lookup now max_age_minutes sessions sid :
  SM.cleanup_old_sessions now max_age_minutes sessions !! sid
  = match sessions !! sid with
    | Some s => if SM.expired now max_age_minutes s then None else Some s
    | None => None
    end.
Proof.
  unfold SM.cleanup_old_sessions. rewrite fold_delete_lookup.
  destruct (decide _) as [Hin|Hout].
  - apply list_elem_of_fmap in Hin as ([sid' s'] & -> & Hin).
    apply list_elem_of_filter in Hin as [He Hin].
    apply elem_of_map_to_list in Hin. simpl in *. by rewrite Hin, He.
  - destruct (sessions !! sid) as [s|] eqn:Hs; [|done].
    destruct (SM.expired now max_age_minutes s) eqn:He; [|done].
    exfalso. apply Hout, list_elem_of_fmap.
    exists (sid, s). split; [done|]. apply list_elem_of_filter.
    split; [done|]. by apply elem_of_map_to_list.
Qed.


(** * Further properties of the code *)

(** ** Histories under [add_turn] *)

Lemma apply_turn_history cm e sid :
  CM.get_conversation sid (apply_turn cm e)
  = CM.get_conversation sid cm
    ++ (turn_of <$> filter (λ e, te_session e = sid) [e]).
Proof.
  unfold apply_turn. rewrite get_conversation_add_turn.
  rewrite filter_cons, filter_nil.
  destruct (decide (te_session e = sid)); simpl; [done | by rewrite app_nil_r].
Qed.

Lemma apply_turn_start cm e sid t0 :
  session_start_times cm !! sid = Some t0 →
  session_start_times (apply_turn cm e) !! sid = Some t0.
Proof.
  intros Hs. unfold apply_turn, CM.add_turn; simpl.
  destruct (session_start_times cm !! te_session e) eqn:He; [done|].
  rewrite lookup_insert_ne; [done | congruence].
Qed.

(** The history of a session after a run of [add_turn] calls is its
    history before, followed by the turns of the calls addressed to it, in
    call order; the calls change neither cache map nor the TTL, and a
    start time that is recorded stays as it is. *)
Theorem history_after_turns
    (events : list turn_event) (cm : ConversationManager) (sid : string) :
  CM.get_conversation sid (apply_turns events cm)
  = CM.get_conversation sid cm
    ++ (turn_of <$> filter (λ e, te_session e = sid) events)
  ∧ session_cache (apply_turns events cm) = session_cache cm
  ∧ cache_timestamps (apply_turns events cm) = cache_timestamps cm
  ∧ cache_ttl (apply_turns events cm) = cache_ttl cm
  ∧ session_start_times (apply_turns events cm) !! sid
    = match session_start_times cm !! sid with
      | Some t0 => Some t0
      | None => te_now <$> head (filter (λ e, te_session e = sid) events)
      end.
Proof.
  revert cm. induction events as [|e events IH]; intros cm.
  - simpl. rewrite app_nil_r. by destruct (session_start_times cm !! sid).
  - change (apply_turns (e :: events) cm) with (apply_turns events (apply_turn cm e)).
    destruct (IH (apply_turn cm e)) as (Hh & Hc & Ht & Httl & Hs).
    rewrite Hh, Hc, Ht, Httl, Hs, apply_turn_history.
    split; [|repeat split].
    + rewrite <- app_assoc, <- fmap_app. by rewrite <- filter_app.
    + destruct (session_start_times cm !! sid) as [t0|] eqn:Hstart.
      * by rewrite (apply_turn_start cm e sid t0 Hstart).
      * rewrite filter_cons. unfold apply_turn, CM.add_turn; simpl.
        destruct (decide (te_session e = sid)) as [<-|Hne]; simpl.
        -- by rewrite Hstart, lookup_insert_eq.
        -- destruct (session_start_times cm !! te_session e);
             [|rewrite lookup_insert_ne by done]; by rewrite Hstart.
Qed.

(** ** What the public operations keep true *)

Lemma consistent_add_turn cm e : cm_consistent cm → cm_consistent (apply_turn cm e).
Proof.
  intros [Hconv Hcache]. split; [|exact Hcache].
  intros sid conversation. unfold apply_turn, CM.add_turn; simpl.
  destruct (decide (te_session e = sid)) as [<-|Hne].
  - rewrite lookup_insert_eq. intros [= <-]. split.
    + by destruct (default [] (conversations cm !! te_session e)).
    + destruct (session_start_times cm !! te_session e) eqn:Hs;
        [by rewrite Hs | by rewrite lookup_insert_eq].
  - rewrite lookup_insert_ne by done. intros Hlook.
    destruct (Hconv sid conversation Hlook) as [Hne' Hstart]. split; [done|].
    destruct (session_start_times cm !! te_session e); [done|].
    by rewrite lookup_insert_ne.
Qed.

Lemma consistent_set_cache now sid key v cm :
  cm_consistent cm → cm_consistent (CM.set_session_cache now sid key v cm).
Proof.
  intros [Hconv Hcache]. split; [exact Hconv|].
  intros sid' key'. unfold CM.set_session_cache, with_cache; simpl.
  destruct (decide (sid = sid')) as [<-|Hne].
  - rewrite !lookup_insert_eq; simpl.
    destruct (decide (key = key')) as [<-|Hk].
    + rewrite !lookup_insert_eq. eauto.
    + rewrite !lookup_insert_ne by done. apply Hcache.
  - rewrite !lookup_insert_ne by done. apply Hcache.
Qed.

Lemma consistent_get_cache now sid key cm :
  cm_consistent cm → cm_consistent (CM.get_session_cache now sid key cm).2.
Proof.
  intros [Hconv Hcache]. unfold CM.get_session_cache.
  destruct (default ∅ (session_cache cm !! sid) !! key) as [value|] eqn:Hv;
    [|by split].
  destruct (Hcache sid key) as [written Hw]; [by rewrite Hv|].
  destruct (cache_timestamps cm !! sid) as [stamps|] eqn:Hts; [|done].
  simpl in Hw. rewrite Hw.
  destruct (cache_ttl cm <? now - written); [|by split].
  split; [exact Hconv|]. intros sid' key'. simpl.
  destruct (decide (sid = sid')) as [<-|Hne].
  - rewrite !lookup_insert_eq; simpl.
    destruct (decide (key = key')) as [<-|Hk].
    + rewrite lookup_delete_eq. by intros [? ?].
    + rewrite !lookup_delete_ne by done. intros Hsome.
      specialize (Hcache sid key' Hsome). by rewrite Hts in Hcache.
  - rewrite !lookup_insert_ne by done. apply Hcache.
Qed.

Lemma consistent_clear_cache sid cm :
  cm_consistent cm → cm_consistent (CM.clear_session_cache sid cm).
Proof.
  intros [Hconv Hcache]. split; [exact Hconv|].
  intros sid' key. unfold CM.clear_session_cache, with_cache; simpl.
  destruct (decide (sid = sid')) as [<-|Hne].
  - rewrite !lookup_delete_eq; simpl. rewrite lookup_empty. by intros [? ?].
  - rewrite !lookup_delete_ne by done. apply Hcache.
Qed.

Lemma consistent_cleanup now max_age cm :
  cm_consistent cm → cm_consistent (CM.cleanup_old_sessions now max_age cm).2.
Proof.
  intros [Hconv Hcache]. unfold CM.cleanup_old_sessions; simpl.
  assert (Hlook := remove_sessions_lookup (CM.sessions_to_remove now max_age cm) cm).
  cbv zeta in Hlook.
  split.
  - intros sid conversation Hsid.
    destruct (Hlook sid) as (Hin & Hout & _).
    destruct (decide (sid ∈ CM.sessions_to_remove now max_age cm)) as [Hd|Hd].
    + destruct (Hin Hd) as (Hgone & _). congruence.
    + destruct (Hout Hd) as (Hc & _ & _ & Hs). rewrite Hs.
      apply Hconv. by rewrite <- Hc.
  - intros sid key.
    destruct (Hlook sid) as (Hin & Hout & _).
    destruct (decide (sid ∈ CM.sessions_to_remove now max_age cm)) as [Hd|Hd].
    + destruct (Hin Hd) as (_ & Hs & _). rewrite Hs; simpl.
      rewrite lookup_empty. by intros [? ?].
    + destruct (Hout Hd) as (_ & Hs & Ht & _). rewrite Hs, Ht. apply Hcache.
Qed.

Lemma consistent_run_op cm op : cm_consistent cm → cm_consistent (run_op cm op).
Proof.
  destruct op; simpl.
  - apply consistent_add_turn.
  - apply consistent_set_cache.
  - apply consistent_get_cache.
  - apply consistent_clear_cache.
  - apply consistent_cleanup.
Qed.

Lemma consistent_run_ops ops cm : cm_consistent cm → cm_consistent (run_ops ops cm).
Proof.
  revert cm. induction ops as [|op ops IH]; intros cm H; [done|].
  apply IH. by apply consistent_run_op.
Qed.

Lemma consistent_from_new ops ttl : cm_consistent (run_ops ops (new_manager ttl)).
Proof.
  apply consistent_run_ops. split.
  - intros sid conversation. unfold new_manager; simpl.
    by rewrite lookup_empty.
  - intros sid key. unfold new_manager; simpl.
    rewrite lookup_empty; simpl. rewrite lookup_empty. by intros [? ?].
Qed.

(** Whatever public operations ([add_turn], [set_session_cache],
    [get_session_cache], [clear_session_cache], [cleanup_old_sessions]) a
    fresh manager goes through, every history it stores has at least one
    turn and a recorded start time, and every cached value has a
    timestamp; so the sweep never meets an empty history. *)
Theorem manager_stays_consistent (ops : list cm_op) (ttl : Z) :
  cm_consistent (run_ops ops (new_manager ttl))
  ∧ map_Forall (λ _ conversation, is_Some (last conversation))
      (conversations (run_ops ops (new_manager ttl))).
Proof.
  assert (H := consistent_from_new ops ttl).
  split; [exact H|].
  intros sid conversation Hsid. destruct H as [Hconv _].
  destruct (Hconv sid conversation Hsid) as [Hne _].
  destruct conversation as [|t conversation] using rev_ind; [done|].
  rewrite last_snoc. eauto.
Qed.

(** On a manager that a fresh one has become through its public
    operations, [get_session_cache] never raises: the [KeyError] of a
    missing timestamp cannot occur. *)
Theorem get_session_cache_never_raises
    (ops : list cm_op) (ttl now : Z) (sid key : string) :
  ∃ value,
    (CM.get_session_cache now sid key (run_ops ops (new_manager ttl))).1
    = Return value.
Proof.
  destruct (consistent_from_new ops ttl) as [_ Hcache].
  unfold CM.get_session_cache.
  destruct (default ∅ (session_cache (run_ops ops (new_manager ttl)) !! sid) !! key)
    as [value|] eqn:Hv; [|by eexists].
  destruct (Hcache sid key) as [written Hw]; [by rewrite Hv|].
  destruct (cache_timestamps (run_ops ops (new_manager ttl)) !! sid) as [stamps|];
    [|done].
  simpl in Hw. rewrite Hw.
  destruct (cache_ttl _ <? now - written); by eexists.
Qed.

(** ** Writing and clearing the side-cache *)

Lemma get_cache_other_entry t T sid key v sid' key' cm :
  (sid', key') ≠ (sid, key) →
  (CM.get_session_cache t sid' key' (CM.set_session_cache T sid key v cm)).1
  = (CM.get_session_cache t sid' key' cm).1.
Proof.
  intros Hne. unfold CM.get_session_cache, CM.set_session_cache, with_cache; simpl.
  destruct (decide (sid = sid')) as [<-|Hs].
  - assert (Hk : key ≠ key') by congruence.
    rewrite !lookup_insert_eq; simpl. rewrite !lookup_insert_ne by done.
    destruct (default ∅ (session_cache cm !! sid) !! key') as [value|]; [|done].
    destruct (cache_timestamps cm !! sid) as [stamps|]; simpl.
    + destruct (stamps !! key') as [written|]; [|done].
      by destruct (cache_ttl cm <? t - written).
    + by rewrite lookup_empty.
  - rewrite !lookup_insert_ne by done.
    destruct (default ∅ (session_cache cm !! sid') !! key') as [value|]; [|done].
    destruct (cache_timestamps cm !! sid') as [stamps|]; [|done].
    destruct (stamps !! key') as [written|]; [|done].
    by destruct (cache_ttl cm <? t - written).
Qed.

(** A second [set_session_cache] on a key replaces the first altogether,
    value and write time (the TTL runs from the last write), and a write
    does not change what a read of any other key or session returns. *)
Theorem set_session_cache_overwrites
    (T1 T2 t : Z) (sid key sid' key' : string) (v1 v2 : pyval)
    (cm : ConversationManager) :
  CM.set_session_cache T2 sid key v2 (CM.set_session_cache T1 sid key v1 cm)
  = CM.set_session_cache T2 sid key v2 cm
  ∧ ((sid', key') ≠ (sid, key) →
     (CM.get_session_cache t sid' key' (CM.set_session_cache T1 sid key v1 cm)).1
     = (CM.get_session_cache t sid' key' cm).1).
Proof.
  split; [|apply get_cache_other_entry].
  unfold CM.set_session_cache, with_cache; simpl.
  rewrite !lookup_insert_eq; simpl. by rewrite !insert_insert_eq.
Qed.

(** A value written at 0 and rewritten at 200 under TTL 300 is read at 450
    (it would have expired at 300), and a second key is left alone. *)
Lemma set_session_cache_overwrites_witness :
  (CM.get_session_cache 450 "s" "docs"
     (CM.set_session_cache 200 "s" "docs" (PyStr "new")
        (CM.set_session_cache 0 "s" "docs" (PyStr "old") (new_manager 300)))).1
  = Return (PyStr "new")
  ∧ (CM.get_session_cache 10 "s" "skills"
       (CM.set_session_cache 5 "s" "docs" (PyStr "old")
          (CM.set_session_cache 0 "s" "skills" (PyStr "k") (new_manager 300)))).1
    = Return (PyStr "k").
Proof.
  destruct (set_session_cache_overwrites 0 200 450 "s" "docs" "s" "docs"
              (PyStr "old") (PyStr "new") (new_manager 300)) as [Hover _].
  destruct (set_session_cache_overwrites 5 0 10 "s" "docs" "s" "skills"
              (PyStr "old") (PyStr "old")
              (CM.set_session_cache 0 "s" "skills" (PyStr "k") (new_manager 300)))
    as [_ Hframe].
  split.
  - rewrite Hover. reflexivity.
  - rewrite Hframe; [reflexivity | discriminate].
Defined.

(** After [clear_session_cache] every key of the session reads as [None]
    (and the read changes nothing); histories and start times are kept,
    reads of other sessions return what they returned, and clearing twice
    is clearing once. *)
Theorem clear_session_cache_empties
    (t : Z) (sid sid' key : string) (cm : ConversationManager) :
  CM.get_session_cache t sid key (CM.clear_session_cache sid cm)
  = (Return PyNone, CM.clear_session_cache sid cm)
  ∧ conversations (CM.clear_session_cache sid cm) = conversations cm
  ∧ session_start_times (CM.clear_session_cache sid cm) = session_start_times cm
  ∧ CM.clear_session_cache sid (CM.clear_session_cache sid cm)
    = CM.clear_session_cache sid cm
  ∧ (sid' ≠ sid →
     (CM.get_session_cache t sid' key (CM.clear_session_cache sid cm)).1
     = (CM.get_session_cache t sid' key cm).1).
Proof.
  split; [|split; [done|split; [done|split]]].
  - apply get_absent_entry. unfold CM.clear_session_cache, with_cache; simpl.
    by rewrite lookup_delete_eq.
  - unfold CM.clear_session_cache, with_cache; simpl.
    by rewrite !delete_delete_eq.
  - intros Hne. unfold CM.get_session_cache, CM.clear_session_cache, with_cache; simpl.
    rewrite !lookup_delete_ne by done.
    destruct (default ∅ (session_cache cm !! sid') !! key) as [value|]; [|done].
    destruct (cache_timestamps cm !! sid') as [stamps|]; [|done].
    destruct (stamps !! key) as [written|]; [|done].
    by destruct (cache_ttl cm <? t - written).
Qed.

Lemma clear_session_cache_empties_witness :
  (CM.get_session_cache 1 "b" "docs"
     (CM.clear_session_cache "a"
        (CM.set_session_cache 0 "b" "docs" (PyStr "B")
           (CM.set_session_cache 0 "a" "docs" (PyStr "A") (new_manager 300))))).1
  = Return (PyStr "B").
Proof.
  destruct (clear_session_cache_empties 1 "a" "b" "docs"
              (CM.set_session_cache 0 "b" "docs" (PyStr "B")
                 (CM.set_session_cache 0 "a" "docs" (PyStr "A") (new_manager 300))))
    as (_ & _ & _ & _ & Hother).
  rewrite Hother; [reflexivity | discriminate].
Defined.

(** ** Counting sessions and sweeping them *)

Lemma remove_sessions_size (removed : list string) cm :
  NoDup removed →
  (∀ sid, sid ∈ removed → is_Some (conversations cm !! sid)) →
  (size (conversations (fold_left CM.remove_session removed cm)) + length removed
   = size (conversations cm))%nat.
Proof.
  revert cm. induction removed as [|r removed IH]; intros cm Hnd Hin; simpl.
  - lia.
  - apply NoDup_cons in Hnd as [Hr Hnd].
    specialize (IH (CM.remove_session cm r) Hnd).
    assert (Hrest : ∀ sid, sid ∈ removed →
                    is_Some (conversations (CM.remove_session cm r) !! sid)).
    { intros sid Hsid. simpl. rewrite lookup_delete_ne.
      - apply Hin. by right.
      - intros ->. done. }
    specialize (IH Hrest). simpl in IH.
    rewrite map_size_delete_Some in IH by (apply Hin; left).
    destruct (Hin r) as [conversation Hconv]; [left|].
    assert (size (conversations cm) ≠ 0%nat).
    { intros Hz. apply map_size_empty_inv in Hz. rewrite Hz in Hconv.
      by rewrite lookup_empty in Hconv. }
    lia.
Qed.

(** The number [cleanup_old_sessions] returns is the drop in
    [get_active_session_count]. *)
Theorem cleanup_count_is_drop_in_active_sessions
    (now max_age : Z) (cm : ConversationManager) :
  CM.get_active_session_count (CM.cleanup_old_sessions now max_age cm).2
  = CM.get_active_session_count cm - (CM.cleanup_old_sessions now max_age cm).1.
Proof.
  unfold CM.get_active_session_count, CM.cleanup_old_sessions; simpl.
  pose proof (remove_sessions_size (CM.sessions_to_remove now max_age cm) cm
                (NoDup_sessions_to_remove now max_age cm)) as Hsize.
  rewrite <- Hsize; [lia|].
  intros sid Hin. apply elem_of_sessions_to_remove in Hin as (c & -> & _). eauto.
Qed.

Lemma nothing_left_to_sweep now max_age cm :
  CM.sessions_to_remove now max_age (CM.cleanup_old_sessions now max_age cm).2 = [].
Proof.
  apply elem_of_nil_inv. intros sid Hin.
  apply elem_of_sessions_to_remove in Hin as (conversation & Hlook & Hold).
  unfold CM.cleanup_old_sessions in Hlook; simpl in Hlook.
  pose proof (remove_sessions_lookup (CM.sessions_to_remove now max_age cm) cm sid)
    as (Hin & Hout & _).
  destruct (decide (sid ∈ CM.sessions_to_remove now max_age cm)) as [Hd|Hd].
  - destruct (Hin Hd) as (Hgone & _). congruence.
  - destruct (Hout Hd) as (Hsame & _). apply Hd, elem_of_sessions_to_remove.
    exists conversation. split; [congruence | done].
Qed.

(** Sweeping again at the same time with the same limit removes nothing
    and returns 0. *)
Theorem cleanup_twice_is_cleanup_once
    (now max_age : Z) (cm : ConversationManager) :
  CM.cleanup_old_sessions now max_age (CM.cleanup_old_sessions now max_age cm).2
  = (0, (CM.cleanup_old_sessions now max_age cm).2).
Proof.
  unfold CM.cleanup_old_sessions at 1.
  by rewrite nothing_left_to_sweep.
Qed.

(** [add_turn] adds one to [get_active_session_count] exactly when the
    session had no history, and afterwards [get_all_sessions] lists the
    session; [get_all_sessions] lists each session with a history once,
    as many as [get_active_session_count] counts. *)
Theorem active_sessions_after_add_turn
    (now : Z) (sid sid' user agent : string) (tcs : list tool_call)
    (skills : list string) (cm : ConversationManager) :
  CM.get_active_session_count (CM.add_turn now sid user agent tcs skills cm)
  = CM.get_active_session_count cm
    + match conversations cm !! sid with Some _ => 0 | None => 1 end
  ∧ sid ∈ CM.get_all_sessions (CM.add_turn now sid user agent tcs skills cm)
  ∧ NoDup (CM.get_all_sessions cm)
  ∧ Z.of_nat (length (CM.get_all_sessions cm)) = CM.get_active_session_count cm
  ∧ (sid' ∈ CM.get_all_sessions cm ↔ is_Some (conversations cm !! sid')).
Proof.
  unfold CM.get_active_session_count, CM.get_all_sessions.
  split; [|split; [|split; [|split]]].
  - unfold CM.add_turn; simpl. rewrite map_size_insert.
    destruct (conversations cm !! sid); simpl; lia.
  - unfold CM.add_turn; simpl. apply list_elem_of_fmap.
    eexists (sid, _). split; [done|]. apply elem_of_map_to_list.
    apply lookup_insert_eq.
  - apply NoDup_fst_map_to_list.
  - by rewrite length_fmap, length_map_to_list.
  - rewrite list_elem_of_fmap. split.
    + intros ([s c] & -> & Hin). apply elem_of_map_to_list in Hin. eauto.
    + intros [c Hc]. exists (sid', c). split; [done|].
      by apply elem_of_map_to_list.
Qed.

(** ** Session statistics *)

Lemma count_tools_from (conversation : list turn) (acc : Z) :
  fold_left (λ acc t, acc + Z.of_nat (length (tool_calls t))) conversation acc
  = acc + Z.of_nat (length (concat (tool_calls <$> conversation))).
Proof.
  revert acc. induction conversation as [|t conversation IH]; intros acc; simpl.
  - lia.
  - rewrite IH, length_app, Nat2Z.inj_add, Z.add_assoc. reflexivity.
Qed.

Lemma collect_skills_from (conversation : list turn) (acc : gset string) :
  fold_left (λ acc t, acc ∪ list_to_set (skills_used t)) conversation acc
  = acc ∪ list_to_set (concat (skills_used <$> conversation)).
Proof.
  revert acc. induction conversation as [|t conversation IH]; intros acc; simpl.
  - by rewrite (right_id_L ∅ (∪)).
  - by rewrite IH, list_to_set_app_L, (assoc_L (∪)).
Qed.

Lemma stats_of_history now sid cm first final :
  head (CM.get_conversation sid cm) = Some first →
  last (CM.get_conversation sid cm) = Some final →
  CM.get_session_stats now sid cm
  = CM.Stats sid (Z.of_nat (length (CM.get_conversation sid cm)))
      (CM.count_tools (CM.get_conversation sid cm))
      (CM.collect_skills (CM.get_conversation sid cm))
      (now - default now (session_start_times cm !! sid))
      (dom (default ∅ (session_cache cm !! sid)))
      (timestamp first) (timestamp final).
Proof.
  intros Hhead Hlast. unfold CM.get_session_stats. cbv zeta.
  destruct (CM.get_conversation sid cm) as [|f rest]; [done|].
  rewrite Hlast. by injection Hhead as ->.
Qed.

(** The statistics of a session right after a turn is added to it: one
    more turn than the history had, the tool invocations of the history
    plus those of the new turn, the skills of both, the new turn's time
    as the last message time, and the first message time of the history
    (of the new turn when there was none); the totals are those of all
    tool invocations and all skills of the history; a session the sweep
    has removed has the short statistics of a session without turns. *)
Theorem stats_after_add_turn
    (now t : Z) (sid user agent : string) (tcs : list tool_call)
    (skills : list string) (cm : ConversationManager) :
  CM.get_session_stats now sid (CM.add_turn t sid user agent tcs skills cm)
  = CM.Stats sid
      (Z.of_nat (length (CM.get_conversation sid cm)) + 1)
      (CM.count_tools (CM.get_conversation sid cm) + Z.of_nat (length tcs))
      (CM.collect_skills (CM.get_conversation sid cm) ∪ list_to_set skills)
      (now - default t (session_start_times cm !! sid))
      (dom (default ∅ (session_cache cm !! sid)))
      (match CM.get_conversation sid cm with
       | first :: _ => timestamp first
       | [] => t
       end)
      t
  ∧ CM.count_tools (CM.get_conversation sid cm)
    = Z.of_nat (length (concat (tool_calls <$> CM.get_conversation sid cm)))
  ∧ CM.collect_skills (CM.get_conversation sid cm)
    = list_to_set (concat (skills_used <$> CM.get_conversation sid cm))
  ∧ CM.get_session_stats now sid (CM.remove_session cm sid) = CM.NoTurns sid.
Proof.
  split; [|split; [|split]].
  - rewrite (stats_of_history now sid _
               (match CM.get_conversation sid cm with
                | first :: _ => first
                | [] => Turn t user agent tcs skills
                end)
               (Turn t user agent tcs skills));
      rewrite ?get_conversation_add_turn, ?decide_True by done.
    + set (old := CM.get_conversation sid cm).
      assert (Hstart : default now
                (session_start_times (CM.add_turn t sid user agent tcs skills cm) !! sid)
              = default t (session_start_times cm !! sid)).
      { unfold CM.add_turn; simpl.
        destruct (session_start_times cm !! sid) eqn:Hs;
          [by rewrite Hs | by rewrite lookup_insert_eq]. }
      rewrite Hstart.
      assert (Hlen : Z.of_nat (length (old ++ [Turn t user agent tcs skills]))
                     = Z.of_nat (length old) + 1).
      { rewrite length_app. simpl. lia. }
      assert (Htools : CM.count_tools (old ++ [Turn t user agent tcs skills])
                       = CM.count_tools old + Z.of_nat (length tcs)).
      { unfold CM.count_tools. rewrite fold_left_app. reflexivity. }
      assert (Hskills : CM.collect_skills (old ++ [Turn t user agent tcs skills])
                        = CM.collect_skills old ∪ list_to_set skills).
      { unfold CM.collect_skills. rewrite fold_left_app. reflexivity. }
      rewrite Hlen, Htools, Hskills.
      destruct old as [|first rest]; reflexivity.
    + by destruct (CM.get_conversation sid cm).
    + apply last_snoc.
  - unfold CM.count_tools. rewrite count_tools_from. lia.
  - unfold CM.collect_skills. by rewrite collect_skills_from, (left_id_L ∅ (∪)).
  - unfold CM.get_session_stats, CM.get_conversation; simpl.
    by rewrite lookup_delete_eq.
Qed.

(** ** The last turns, for a positive and for a negative count *)

(** For [n >= 1], [get_last_n_turns] returns a suffix of the history of
    length [min(n, len)]. *)
Theorem last_n_turns_is_suffix (sid : string) (n : Z) (cm : ConversationManager) :
  1 ≤ n →
  CM.get_last_n_turns sid n cm `suffix_of` CM.get_conversation sid cm
  ∧ Z.of_nat (length (CM.get_last_n_turns sid n cm))
    = Z.min n (Z.of_nat (length (CM.get_conversation sid cm))).
Proof.
  intros Hn. rewrite get_last_n_turns_positive by done. split.
  - apply suffix_drop.
  - rewrite length_drop. lia.
Qed.

Lemma last_n_turns_is_suffix_witness :
  CM.get_last_n_turns "s" 2
    (apply_turns [TurnEvent 1 "s" "a" "A" [] []; TurnEvent 2 "s" "b" "B" [] [];
                  TurnEvent 3 "s" "c" "C" [] []] (new_manager 300))
  `suffix_of`
  CM.get_conversation "s"
    (apply_turns [TurnEvent 1 "s" "a" "A" [] []; TurnEvent 2 "s" "b" "B" [] [];
                  TurnEvent 3 "s" "c" "C" [] []] (new_manager 300))
  ∧ Z.of_nat (length (CM.get_last_n_turns "s" 2
       (apply_turns [TurnEvent 1 "s" "a" "A" [] []; TurnEvent 2 "s" "b" "B" [] [];
                     TurnEvent 3 "s" "c" "C" [] []] (new_manager 300)))) = 2.
Proof.
  destruct (last_n_turns_is_suffix "s" 2
    (apply_turns [TurnEvent 1 "s" "a" "A" [] []; TurnEvent 2 "s" "b" "B" [] [];
                  TurnEvent 3 "s" "c" "C" [] []] (new_manager 300)))
    as [Hsuffix Hlen]; [lia|].
  split; [exact Hsuffix|]. rewrite Hlen. reflexivity.
Defined.

(** For a negative [n], [get_last_n_turns] does not return the last turns:
    [conversation[-n:]] skips the first [-n] turns and returns the rest. *)
Theorem last_n_turns_negative (sid : string) (n : Z) (cm : ConversationManager) :
  n < 0 →
  CM.get_last_n_turns sid n cm
  = drop (Z.to_nat (- n)) (CM.get_conversation sid cm).
Proof.
  intros Hn. unfold CM.get_last_n_turns.
  set (conversation := CM.get_conversation sid cm).
  replace (n <? Z.of_nat (length conversation)) with true
    by (symmetry; apply Z.ltb_lt; lia).
  unfold py_slice, slice_index.
  replace (- n <? 0) with false by (symmetry; apply Z.ltb_ge; lia).
  rewrite take_ge by (rewrite length_drop; lia).
  destruct (Z.le_gt_cases (- n) (Z.of_nat (length conversation))) as [Hle|Hgt].
  - f_equal. lia.
  - rewrite !drop_ge; [done | lia | lia].
Qed.

Lemma last_n_turns_negative_witness :
  CM.get_last_n_turns "s" (-1)
    (apply_turns [TurnEvent 1 "s" "a" "A" [] []; TurnEvent 2 "s" "b" "B" [] [];
                  TurnEvent 3 "s" "c" "C" [] []] (new_manager 300))
  = [Turn 2 "b" "B" [] []; Turn 3 "c" "C" [] []].
Proof.
  rewrite (last_n_turns_negative "s" (-1)); [reflexivity | lia].
Defined.

(** ** The skill context and the documentation text *)

Lemma concat_cons_nonempty (sep x : string) (l : list string) :
  x ≠ "" → String.concat sep (x :: l) ≠ "".
Proof.
  intros Hx. destruct x as [|c x]; [done|].
  simpl. by destruct l.
Qed.

Lemma skill_contexts_from (skills : gmap string skill)
    (needed : list string) (contexts : list string) :
  fold_left (λ contexts skill_name,
      match skills !! skill_name with
      | Some sk =>
          contexts ++ ["=== SKILL: " +:+ skill_name +:+ " ===" +:+ nl
                         +:+ skill_content sk +:+ nl]
      | None => contexts
      end) needed contexts
  = contexts ++ omap (λ name, skill_entry name <$> skills !! name) needed.
Proof.
  revert contexts. induction needed as [|name needed IH]; intros contexts; simpl.
  - by rewrite app_nil_r.
  - rewrite IH. destruct (skills !! name); simpl; [|done].
    by rewrite <- app_assoc.
Qed.

Lemma build_skill_context_eq (skills : gmap string skill) needed :
  Agent._build_skill_context skills needed
  = String.concat nl (omap (λ name, skill_entry name <$> skills !! name) needed).
Proof.
  unfold Agent._build_skill_context. destruct needed as [|name needed]; [done|].
  by rewrite skill_contexts_from.
Qed.

(** [_build_skill_context] joins the entries of the needed skills that are
    loaded, in the order they are needed, and skips the others; the
    context is non-empty, so that the request gets a skill block, exactly
    when at least one needed skill is loaded. *)
Theorem skill_block_iff_a_needed_skill_is_loaded
    (skills : gmap string skill) (needed : list string) :
  Agent._build_skill_context skills needed
  = String.concat nl (omap (λ name, skill_entry name <$> skills !! name) needed)
  ∧ (str_truthy (Agent._build_skill_context skills needed) = true
     ↔ ∃ name, name ∈ needed ∧ is_Some (skills !! name))
  ∧ (skill_part (Agent._build_skill_context skills needed) = []
     ↔ ∀ name, name ∈ needed → skills !! name = None).
Proof.
  rewrite build_skill_context_eq. split; [done|].
  assert (Hcases :
    (omap (λ name, skill_entry name <$> skills !! name) needed = []
     ∧ ∀ name, name ∈ needed → skills !! name = None)
    ∨ (∃ entry rest name,
         omap (λ name, skill_entry name <$> skills !! name) needed = entry :: rest
         ∧ entry ≠ "" ∧ name ∈ needed ∧ is_Some (skills !! name))).
  { induction needed as [|n needed IH]; simpl.
    - left. split; [done|]. intros name Hin. by apply elem_of_nil in Hin.
    - destruct (skills !! n) as [sk|] eqn:Hn; simpl.
      + right. eexists (skill_entry n sk), _, n.
        split; [reflexivity|]. split; [done|]. split; [left | by rewrite Hn].
      + destruct IH as [[Hnil Hnone]|(entry & rest & name & Hom & Hne & Hin & Hsome)].
        * left. split; [done|]. intros name Hin.
          apply elem_of_cons in Hin as [->|Hin]; [done | by apply Hnone].
        * right. exists entry, rest, name. repeat split; try done. by right. }
  destruct Hcases as [[-> Hnone]|(entry & rest & name & -> & Hne & Hin & Hsome)].
  - split; split; try done.
    + intros (name & Hin & [sk Hsk]). rewrite (Hnone name Hin) in Hsk. done.
  - pose proof (concat_cons_nonempty nl entry rest Hne) as Hctx.
    assert (Htruthy : str_truthy (String.concat nl (entry :: rest)) = true).
    { unfold str_truthy. apply negb_true_iff, String.eqb_neq. exact Hctx. }
    split; split.
    + intros _. eauto.
    + done.
    + unfold skill_part. by rewrite Htruthy.
    + intros Hnone. rewrite (Hnone name Hin) in Hsome. by destruct Hsome.
Qed.

(** Of the needed skills "docx" and "pptx" only "docx" is loaded: the
    context is its entry, and the request gets a skill block. *)
Lemma skill_block_iff_a_needed_skill_is_loaded_witness :
  Agent._build_skill_context {["docx" := Skill "Word documents" "Use styles."]}
    ["docx"; "pptx"]
  = "=== SKILL: docx ===" +:+ nl +:+ "Use styles." +:+ nl
  ∧ str_truthy
      (Agent._build_skill_context
         {["docx" := Skill "Word documents" "Use styles."]} ["docx"; "pptx"])
    = true.
Proof.
  destruct (skill_block_iff_a_needed_skill_is_loaded
              {["docx" := Skill "Word documents" "Use styles."]} ["docx"; "pptx"])
    as (Heq & [_ Htruthy] & _).
  split; [rewrite Heq; reflexivity|].
  apply Htruthy. exists "docx". split; [left | by eexists].
Defined.

(** [_format_docs_for_cache] returns the empty text for a result without
    results, with or without sources; with at least one result it raises
    [KeyError] when the sources are missing, and otherwise returns a
    non-empty text, so that the request gets a documentation block. *)
Theorem format_docs_empty_iff_no_results
    (x : string) (found : list string)
    (sources : option (list (gmap string string)))
    (present : list (gmap string string)) :
  Agent._format_docs_for_cache None = Return ""
  ∧ Agent._format_docs_for_cache (Some (SearchResults None sources)) = Return ""
  ∧ Agent._format_docs_for_cache (Some (SearchResults (Some []) sources))
    = Return ""
  ∧ Agent._format_docs_for_cache (Some (SearchResults (Some (x :: found)) None))
    = Raise (KeyError "sources")
  ∧ ∃ context,
      Agent._format_docs_for_cache
        (Some (SearchResults (Some (x :: found)) (Some present)))
      = Return context
      ∧ str_truthy context = true
      ∧ doc_part context = [Agent.doc_message context; Agent.doc_ack].
Proof.
  repeat (split; [reflexivity|]).
  eexists. split; [reflexivity|].
  assert (Htruthy : str_truthy
            (String.concat nl (imap (Agent.format_doc present) (x :: found))) = true).
  { unfold str_truthy. apply negb_true_iff, String.eqb_neq.
    simpl. apply concat_cons_nonempty. done. }
  split; [exact Htruthy|]. unfold doc_part. by rewrite Htruthy.
Qed.

(** ** A documentation context that is cached *)

Lemma documentation_hit {World : Type}
    (search : string → Z → World → option search_results * World)
    now query sid cm (w : World) context stamps written :
  default ∅ (session_cache cm !! sid) !! "docs" = Some (PyStr context) →
  str_truthy context = true →
  cache_timestamps cm !! sid = Some stamps →
  stamps !! "docs" = Some written →
  now - written ≤ cache_ttl cm →
  Agent._get_documentation_context search now query sid cm w
  = (Return context, cm, w).
Proof.
  intros Hv Htruthy Hts Hw Hfresh.
  unfold Agent._get_documentation_context, CM.get_session_cache.
  rewrite Hv, Hts, Hw.
  replace (cache_ttl cm <? now - written) with false
    by (symmetry; apply Z.ltb_ge; lia).
  simpl. unfold str_truthy in Htruthy. by rewrite Htruthy.
Qed.

(** Once a request has retrieved a non-empty documentation text at time
    [T], every request of the session up to [T + cache_ttl] gets that same
    text whatever its query is, without a retrieval and without a change
    to the manager: the entry is keyed by the session alone. *)
Theorem documentation_is_cached_per_session {World : Type}
    (search : string → Z → World → option search_results * World)
    (T t : Z) (query query' sid : string) (cm : ConversationManager) (w : World)
    (context : string) :
  default ∅ (session_cache cm !! sid) !! "docs" = None →
  Agent._format_docs_for_cache (search query 5 w).1 = Return context →
  str_truthy context = true →
  t ≤ T + cache_ttl cm →
  Agent._get_documentation_context search T query sid cm w
  = (Return context,
     CM.set_session_cache T sid "docs" (PyStr context) cm,
     (search query 5 w).2)
  ∧ Agent._get_documentation_context search t query' sid
      (CM.set_session_cache T sid "docs" (PyStr context) cm) (search query 5 w).2
    = (Return context,
       CM.set_session_cache T sid "docs" (PyStr context) cm,
       (search query 5 w).2).
Proof.
  intros Habs Hfmt Htruthy Ht. split.
  - rewrite documentation_absent by done. unfold doc_miss.
    destruct (search query 5 w) as [results w']. simpl in *. by rewrite Hfmt.
  - destruct (cache_entry_after_set T sid "docs" (PyStr context) cm)
      as (Hv & Hts & Httl).
    apply (documentation_hit search t query' sid _ _ context
             (<["docs" := T]> (default ∅ (cache_timestamps cm !! sid))) T);
      [done | done | done | apply lookup_insert_eq | rewrite Httl; lia].
Qed.

(** With the repository's stand-in search: the text retrieved for "first"
    at time 0 is what a request for "second" gets at time 300. *)
Lemma documentation_is_cached_per_session_witness :
  ∃ context,
    (Agent._get_documentation_context Agent.search_documentation_mock
       0 "first" "s" (new_manager 300) tt).1.1 = Return context
    ∧ Agent._get_documentation_context Agent.search_documentation_mock
        300 "second" "s"
        (CM.set_session_cache 0 "s" "docs" (PyStr context) (new_manager 300)) tt
      = (Return context,
         CM.set_session_cache 0 "s" "docs" (PyStr context) (new_manager 300), tt).
Proof.
  eexists.
  edestruct (documentation_is_cached_per_session
               (@Agent.search_documentation_mock unit)
               0 300 "first" "second" "s" (new_manager 300) tt) as [Hfirst Hsecond];
    [reflexivity | reflexivity | reflexivity | simpl; lia |].
  split; [by rewrite Hfirst | exact Hsecond].
Defined.

(** ** What [chat] does to the histories *)

Lemma get_cache_keeps_histories now sid key cm :
  conversations (CM.get_session_cache now sid key cm).2 = conversations cm
  ∧ session_start_times (CM.get_session_cache now sid key cm).2
    = session_start_times cm.
Proof.
  unfold CM.get_session_cache.
  destruct (default ∅ (session_cache cm !! sid) !! key); [|done].
  destruct (cache_timestamps cm !! sid) as [stamps|]; [|done].
  destruct (stamps !! key) as [written|]; [|done].
  by destruct (cache_ttl cm <? now - written).
Qed.

Lemma documentation_keeps_histories {World : Type}
    (search : string → Z → World → option search_results * World)
    now query sid cm (w : World) :
  conversations (Agent._get_documentation_context search now query sid cm w).1.2
    = conversations cm
  ∧ session_start_times
      (Agent._get_documentation_context search now query sid cm w).1.2
    = session_start_times cm.
Proof.
  unfold Agent._get_documentation_context.
  pose proof (get_cache_keeps_histories now sid "docs" cm) as Hkeep.
  destruct (CM.get_session_cache now sid "docs" cm) as [[cached|e] cm'];
    simpl in Hkeep; [|done].
  destruct cached as [|s].
  - destruct (search query 5 w) as [results w'].
    by destruct (Agent._format_docs_for_cache results).
  - destruct (truthy (PyStr s)); [done|].
    destruct (search query 5 w) as [results w'].
    by destruct (Agent._format_docs_for_cache results).
Qed.

(** Whatever its collaborators do, [chat] either returns a result and has
    appended exactly one turn to the session (the message, the reply and
    the tool invocations of the result, the detected skills), or raises
    and has left every history and every start time as it was; the turn
    of a request that fails is never stored. *)
Theorem chat_appends_one_turn_or_none {World : Type} {alg : summation}
    (skills : gmap string skill) (system_prompt : string)
    (detect : string → list string)
    (search : string → Z → World → option search_results * World)
    (create : request → World → result response * World)
    (execute : string → string → World → World)
    (now later : Z) (message sid : string)
    (cm : ConversationManager) (w : World) :
  match (Agent.chat skills system_prompt detect search create execute
           now later message sid cm w).1 with
  | (Return res, cm') =>
      conversations cm'
      = <[sid := CM.get_conversation sid cm
                 ++ [Turn later message (res_message res) (res_tool_calls res)
                          (detect message)]]> (conversations cm)
      ∧ res_skills_used res = detect message
  | (Raise _, cm') =>
      conversations cm' = conversations cm
      ∧ session_start_times cm' = session_start_times cm
  end.
Proof.
  unfold Agent.chat.
  pose proof (documentation_keeps_histories search now message sid cm w) as Hkeep.
  destruct (Agent._get_documentation_context search now message sid cm w)
    as [[[doc_context|e] cm1] w1]; simpl in Hkeep; [|exact Hkeep].
  destruct (create _ w1) as [[r|e] w2]; [|exact Hkeep].
  unfold Agent._process_response.
  destruct (fold_left Agent.collect_block (resp_content r) ("", [])) as [text tcs].
  destruct (String.eqb (stop_reason r) "tool_use" && negb (bool_decide (tcs = [])));
    simpl; destruct (Cost._calculate_cost_with_cache (resp_usage r)); simpl;
    try exact Hkeep;
    destruct (Cost.gt_zero _); simpl; try exact Hkeep.
  - destruct Hkeep as [-> _]. done.
  - destruct Hkeep as [-> _]. done.
Qed.

(** ** Strings *)

Lemma string_app_nil_r (s : string) : s +:+ "" = s.
Proof.
  induction s as [|c s IH]; [done|].
  change (String c (s +:+ "") = String c s). by rewrite IH.
Qed.

Lemma string_app_assoc (s1 s2 s3 : string) :
  (s1 +:+ s2) +:+ s3 = s1 +:+ (s2 +:+ s3).
Proof.
  induction s1 as [|c s1 IH]; [done|].
  change (String c ((s1 +:+ s2) +:+ s3) = String c (s1 +:+ (s2 +:+ s3))).
  by rewrite IH.
Qed.

Lemma prefix_spec (s1 s2 : string) :
  String.prefix s1 s2 = true ↔ ∃ post, s2 = s1 +:+ post.
Proof.
  revert s2. induction s1 as [|a s1 IH]; intros s2.
  - destruct s2; simpl; split; eauto.
  - destruct s2 as [|b s2].
    + split; [done | by intros [post ?]].
    + change (String.prefix (String a s1) (String b s2))
        with (if Ascii.ascii_dec a b then String.prefix s1 s2 else false).
      destruct (Ascii.ascii_dec a b) as [->|Hne].
      * rewrite IH. split; intros [post Hpost]; exists post.
        -- simpl. by rewrite Hpost.
        -- simpl in Hpost. by injection Hpost.
      * split; [done|]. intros [post Hpost].
        change (String a s1 +:+ post) with (String a (s1 +:+ post)) in Hpost.
        injection Hpost as Hab _. by destruct Hne.
Qed.

Lemma contains_spec (needle haystack : string) :
  Skills.contains needle haystack = true
  ↔ ∃ pre post, haystack = pre +:+ needle +:+ post.
Proof.
  induction haystack as [|c haystack IH].
  - change (Skills.contains needle "")
      with (String.prefix needle "" || false).
    rewrite orb_false_r, prefix_spec. split.
    + intros [post ->]. by exists "", post.
    + intros (pre & post & Heq). destruct pre as [|? ?]; [|done].
      by exists post.
  - change (Skills.contains needle (String c haystack))
      with (String.prefix needle (String c haystack)
            || Skills.contains needle haystack).
    rewrite orb_true_iff, prefix_spec, IH. split.
    + intros [[post ->]|(pre & post & ->)].
      * by exists "", post.
      * by exists (String c pre), post.
    + intros (pre & post & Heq). destruct pre as [|c' pre].
      * left. by exists post.
      * right. simpl in Heq. injection Heq as -> ->. by exists pre, post.
Qed.

Lemma contains_longer (short extra haystack : string) :
  Skills.contains (short +:+ extra) haystack = true →
  Skills.contains short haystack = true.
Proof.
  rewrite !contains_spec. intros (pre & post & ->).
  exists pre, (extra +:+ post). by rewrite string_app_assoc.
Qed.

(** ** Processing a response *)

Lemma collect_blocks_from (blocks : list response_block)
    (text : string) (tcs : list tool_call) :
  fold_left Agent.collect_block blocks (text, tcs)
  = (text +:+ texts_of blocks, tcs ++ tool_uses_of blocks).
Proof.
  revert text tcs. induction blocks as [|b blocks IH]; intros text tcs; simpl.
  - by rewrite string_app_nil_r, app_nil_r.
  - destruct b as [t|id name input]; simpl; rewrite IH; simpl.
    + by rewrite string_app_assoc.
    + by rewrite <- app_assoc.
Qed.

(** [_process_response] gathers the text blocks into the message and the
    tool invocations into the tool calls, both in order.  When the stop
    reason is "tool_use" and there is an invocation, every invocation is
    executed once, in order, and the message ends with the count of them;
    otherwise nothing is executed.  The tools have been executed by the
    time the usage is priced, also when pricing raises; when it does not,
    the result reports a cache hit exactly for a positive cache-read
    count. *)
Theorem process_response_outcome {World : Type} {alg : summation}
    (execute : string → string → World → World)
    (r : response) (start_time end_time : Z) (needed : list string) (w : World) :
  (Agent._process_response execute r start_time end_time needed w).2
  = (if String.eqb (stop_reason r) "tool_use"
        && negb (bool_decide (tool_uses_of (resp_content r) = []))
     then fold_left (λ w tc, execute (tc_name tc) (tc_input tc) w)
                    (tool_uses_of (resp_content r)) w
     else w)
  ∧ (Agent._process_response execute r start_time end_time needed w).1
    = match Cost._calculate_cost_with_cache (resp_usage r) with
      | Raise e => Raise e
      | Return cost =>
          Return (ChatResult
            (if String.eqb (stop_reason r) "tool_use"
                && negb (bool_decide (tool_uses_of (resp_content r) = []))
             then texts_of (resp_content r) +:+ nl +:+ nl +:+ "[Tool Results: "
                    +:+ pretty (Z.of_nat (length (tool_uses_of (resp_content r))))
                    +:+ " tools executed]"
             else texts_of (resp_content r))
            (tool_uses_of (resp_content r)) needed cost (resp_usage r)
            (end_time - start_time)
            (0 <? cache_read_count (resp_usage r)))
      end.
Proof.
  unfold Agent._process_response.
  rewrite collect_blocks_from. simpl.
  destruct (String.eqb (stop_reason r) "tool_use"
            && negb (bool_decide (tool_uses_of (resp_content r) = [])));
    simpl;
    destruct (Cost._calculate_cost_with_cache (resp_usage r)) eqn:Hcost;
    try done; by rewrite (priced_usage_cache_hit _ _ _ Hcost).
Qed.

(** ** Skill detection *)

Lemma append_when (b : bool) (l : list string) (x : string) :
  (if b then l ++ [x] else l) = l ++ when b x.
Proof. destruct b; simpl; [done | by rewrite app_nil_r]. Qed.

Lemma append_when_either (b c : bool) (l : list string) (x y : string) :
  (if b then if c then l ++ [x] else l ++ [y] else l)
  = (l ++ when (b && c) x) ++ when (b && negb c) y.
Proof. destruct b, c; simpl; by rewrite ?app_nil_r. Qed.

Lemma elem_of_when (x : string) (b : bool) (y : string) :
  x ∈ when b y ↔ b = true ∧ x = y.
Proof.
  destruct b; simpl.
  - rewrite list_elem_of_singleton. tauto.
  - rewrite elem_of_nil. split; [done | by intros [? _]].
Qed.

Lemma when_sublist (b : bool) (x : string) : when b x `sublist_of` [x].
Proof. destruct b; simpl; [done | apply sublist_nil_l]. Qed.

Lemma any_in_cons word words message_lower :
  Skills.any_in (word :: words) message_lower
  = Skills.contains word message_lower || Skills.any_in words message_lower.
Proof. reflexivity. Qed.

(** The list [detect_needed_skills] builds, piece by piece. *)
Lemma detect_needed_skills_pieces (lower : string → string) (message : string) :
  Skills.detect_needed_skills lower message
  = when (Skills.any_in ["word"; "docx"; "document"; "doc"] (lower message)) "docx"
    ++ when (Skills.any_in ["powerpoint"; "pptx"; "presentation"; "slide"]
               (lower message)) "pptx"
    ++ when (Skills.any_in ["excel"; "xlsx"; "spreadsheet"; "workbook"]
               (lower message)) "xlsx"
    ++ when (Skills.any_in ["pdf"; "portable document"] (lower message)) "pdf"
    ++ when (Skills.any_in ["frontend"; "ui"; "interface"; "react"; "html"; "css"]
               (lower message)) "frontend-design"
    ++ when (Skills.any_in ["theme"; "style"; "color"; "brand"] (lower message)
             && Skills.contains "anthropic" (lower message)) "brand-guidelines"
    ++ when (Skills.any_in ["theme"; "style"; "color"; "brand"] (lower message)
             && negb (Skills.contains "anthropic" (lower message))) "theme-factory"
    ++ when (Skills.any_in ["create skill"; "new skill"; "skill for"]
               (lower message)) "skill-creator"
    ++ when (Skills.any_in ["claude api"; "anthropic"; "claude code"; "pricing";
                            "rate limit"] (lower message)) "product-self-knowledge".
Proof.
  unfold Skills.detect_needed_skills. cbv zeta.
  rewrite ?append_when, append_when_either, ?append_when.
  by rewrite <- !app_assoc.
Qed.

Lemma elem_of_detected (lower : string → string) (message x : string) :
  x ∈ Skills.detect_needed_skills lower message
  ↔ (Skills.any_in ["word"; "docx"; "document"; "doc"] (lower message) = true
     ∧ x = "docx")
    ∨ (Skills.any_in ["powerpoint"; "pptx"; "presentation"; "slide"]
         (lower message) = true ∧ x = "pptx")
    ∨ (Skills.any_in ["excel"; "xlsx"; "spreadsheet"; "workbook"]
         (lower message) = true ∧ x = "xlsx")
    ∨ (Skills.any_in ["pdf"; "portable document"] (lower message) = true
       ∧ x = "pdf")
    ∨ (Skills.any_in ["frontend"; "ui"; "interface"; "react"; "html"; "css"]
         (lower message) = true ∧ x = "frontend-design")
    ∨ (Skills.any_in ["theme"; "style"; "color"; "brand"] (lower message)
       && Skills.contains "anthropic" (lower message) = true
       ∧ x = "brand-guidelines")
    ∨ (Skills.any_in ["theme"; "style"; "color"; "brand"] (lower message)
       && negb (Skills.contains "anthropic" (lower message)) = true
       ∧ x = "theme-factory")
    ∨ (Skills.any_in ["create skill"; "new skill"; "skill for"]
         (lower message) = true ∧ x = "skill-creator")
    ∨ (Skills.any_in ["claude api"; "anthropic"; "claude code"; "pricing";
                      "rate limit"] (lower message) = true
       ∧ x = "product-self-knowledge").
Proof.
  by rewrite detect_needed_skills_pieces, !elem_of_app, !elem_of_when.
Qed.

(** [detect_needed_skills] returns its skills in one fixed order and none
    twice; it never returns both "brand-guidelines" and "theme-factory",
    and "brand-guidelines" always comes with "product-self-knowledge"
    (both are triggered by "anthropic"). *)
Theorem detected_skills_shape (lower : string → string) (message : string) :
  Skills.detect_needed_skills lower message `sublist_of` detectable_skills
  ∧ NoDup (Skills.detect_needed_skills lower message)
  ∧ ¬ ("brand-guidelines" ∈ Skills.detect_needed_skills lower message
       ∧ "theme-factory" ∈ Skills.detect_needed_skills lower message)
  ∧ ("brand-guidelines" ∈ Skills.detect_needed_skills lower message →
     "product-self-knowledge" ∈ Skills.detect_needed_skills lower message).
Proof.
  assert (Hsub : ∀ b1 b2 b3 b4 b5 b6 b7 b8 b9,
            when b1 "docx" ++ when b2 "pptx" ++ when b3 "xlsx" ++ when b4 "pdf"
              ++ when b5 "frontend-design" ++ when b6 "brand-guidelines"
              ++ when b7 "theme-factory" ++ when b8 "skill-creator"
              ++ when b9 "product-self-knowledge"
            `sublist_of` detectable_skills).
  { intros. unfold detectable_skills.
    repeat (apply (sublist_app _ [_]); [apply when_sublist|]).
    apply when_sublist. }
  assert (Hbrand : "brand-guidelines" ∈ Skills.detect_needed_skills lower message →
            Skills.any_in ["theme"; "style"; "color"; "brand"] (lower message)
            && Skills.contains "anthropic" (lower message) = true).
  { rewrite elem_of_detected.
    intros H. repeat destruct H as [H|H]; destruct H as [H1 H2];
      first [exact H1 | discriminate H2]. }
  assert (Htheme : "theme-factory" ∈ Skills.detect_needed_skills lower message →
            Skills.any_in ["theme"; "style"; "color"; "brand"] (lower message)
            && negb (Skills.contains "anthropic" (lower message)) = true).
  { rewrite elem_of_detected.
    intros H. repeat destruct H as [H|H]; destruct H as [H1 H2];
      first [exact H1 | discriminate H2]. }
  rewrite detect_needed_skills_pieces at 1 2.
  split; [apply Hsub|]. split; [|split].
  - apply (sublist_NoDup _ detectable_skills); [|apply Hsub].
    apply (bool_decide_unpack (NoDup detectable_skills)). by vm_compute.
  - intros [Hb Ht]. apply Hbrand in Hb. apply Htheme in Ht.
    destruct (Skills.contains "anthropic" (lower message));
      rewrite ?andb_true_r, ?andb_false_r in *; simpl in *; congruence.
  - intros Hb. apply Hbrand in Hb. apply andb_true_iff in Hb as [_ Hc].
    rewrite elem_of_detected.
    repeat right. split; [|done].
    rewrite !any_in_cons, Hc. by rewrite orb_true_r.
Qed.

(** A message about the Anthropic brand gets the brand guidelines, and
    with them the product knowledge. *)
Lemma detected_skills_shape_witness :
  Skills.detect_needed_skills (λ s, s) "the anthropic brand"
    = ["brand-guidelines"; "product-self-knowledge"]
  ∧ "product-self-knowledge"
      ∈ Skills.detect_needed_skills (λ s, s) "the anthropic brand".
Proof.
  split; [reflexivity|].
  destruct (detected_skills_shape (λ s, s) "the anthropic brand")
    as (_ & _ & _ & Hbrand).
  apply Hbrand. rewrite elem_of_detected. do 5 right. left. by split.
Defined.

Lemma contains_infix (pre needle post haystack : string) :
  Skills.contains (pre +:+ needle +:+ post) haystack = true →
  Skills.contains needle haystack = true.
Proof.
  rewrite !contains_spec. intros (before & after & ->).
  exists (before +:+ pre), (post +:+ after).
  by rewrite !string_app_assoc.
Qed.

(** The keyword "doc" covers "docx" and "document": "docx" is detected
    exactly when the lowered message contains "word" or "doc".  A message
    that contains "portable document" therefore gets "docx" as well as
    "pdf". *)
Theorem docx_detected_by_word_or_doc (lower : string → string) (message : string) :
  ("docx" ∈ Skills.detect_needed_skills lower message
   ↔ Skills.contains "word" (lower message) = true
     ∨ Skills.contains "doc" (lower message) = true)
  ∧ (Skills.contains "portable document" (lower message) = true →
     "docx" ∈ Skills.detect_needed_skills lower message
     ∧ "pdf" ∈ Skills.detect_needed_skills lower message).
Proof.
  assert (Hdocx : Skills.any_in ["word"; "docx"; "document"; "doc"] (lower message)
                  = true
                  ↔ Skills.contains "word" (lower message) = true
                    ∨ Skills.contains "doc" (lower message) = true).
  { rewrite !any_in_cons. simpl (Skills.any_in [] _).
    rewrite !orb_true_iff. split.
    - intros [H|[H|[H|[H|H]]]]; [by left | right | right | by right | done].
      + by apply (contains_longer "doc" "x").
      + by apply (contains_longer "doc" "ument").
    - intros [H|H]; [by left | by right; right; right; left]. }
  split.
  - rewrite elem_of_detected, <- Hdocx. split.
    + intros H. repeat destruct H as [H|H]; destruct H as [H1 H2];
        first [exact H1 | discriminate H2].
    + intros H. by left.
  - intros Hpd. rewrite !elem_of_detected. split.
    + left. split; [|done]. apply Hdocx. right.
      by apply (contains_infix "portable " "doc" "ument").
    + do 3 right. left. split; [|done].
      rewrite !any_in_cons, Hpd. by rewrite orb_true_r.
Qed.

Lemma docx_detected_by_word_or_doc_witness :
  Skills.detect_needed_skills (λ s, s) "a portable document" = ["docx"; "pdf"]
  ∧ "docx" ∈ Skills.detect_needed_skills (λ s, s) "a portable document"
  ∧ "pdf" ∈ Skills.detect_needed_skills (λ s, s) "a portable document".
Proof.
  split; [reflexivity|].
  destruct (docx_detected_by_word_or_doc (λ s, s) "a portable document")
    as [_ Hboth].
  apply Hboth. reflexivity.
Defined.

(** ** The session records of the API layer *)

(** A session that is created can be read back with no turns and no
    messages; a message added to it is stored and counted; deleting it
    reports [True] and removes it, after which deleting again reports
    [False] and changes nothing, and [update_activity] and [add_message]
    do nothing. *)
Theorem session_record_lifecycle
    (now t : Z) (sid : string) (msg : string * string)
    (sessions : gmap string session_info) :
  SM.get_session_info sid (SM.create_session now sid sessions)
  = Some (SessionInfo sid now now 0 [])
  ∧ SM.get_session_info sid
      (SM.add_message t sid msg (SM.create_session now sid sessions))
    = Some (SessionInfo sid now t 1 [msg])
  ∧ SM.delete_session sid (SM.create_session now sid sessions)
    = (true, delete sid sessions)
  ∧ SM.delete_session sid (delete sid sessions) = (false, delete sid sessions)
  ∧ SM.get_session_info sid (delete sid sessions) = None
  ∧ SM.update_activity t sid (delete sid sessions) = delete sid sessions
  ∧ SM.add_message t sid msg (delete sid sessions) = delete sid sessions.
Proof.
  unfold SM.get_session_info, SM.create_session, SM.add_message,
    SM.update_activity, SM.delete_session.
  repeat split.
  - apply lookup_insert_eq.
  - rewrite lookup_insert_eq. simpl. rewrite lookup_insert_eq. simpl.
    apply lookup_insert_eq.
  - by rewrite lookup_insert_eq, delete_insert_eq.
  - by rewrite lookup_delete_eq.
  - apply lookup_delete_eq.
  - by rewrite lookup_delete_eq.
  - by rewrite lookup_delete_eq.
Qed.

(** After [cleanup_old_sessions] on the session records, the sessions that
    remain are sessions that were there, unchanged, and none of them has
    been inactive for more than [max_age_minutes]; a session within the
    limit is kept; and sweeping again changes nothing. *)
Theorem session_records_after_cleanup
    (now max_age_minutes : Z) (sid : string) (s : session_info)
    (sessions : gmap string session_info) :
  (SM.cleanup_old_sessions now max_age_minutes sessions !! sid = Some s →
     sessions !! sid = Some s ∧ now - last_activity s ≤ 60 * max_age_minutes)
  ∧ (sessions !! sid = Some s → now - last_activity s ≤ 60 * max_age_minutes →
     SM.cleanup_old_sessions now max_age_minutes sessions !! sid = Some s)
  ∧ (sessions !! sid = Some s → 60 * max_age_minutes < now - last_activity s →
     SM.cleanup_old_sessions now max_age_minutes sessions !! sid = None)
  ∧ SM.cleanup_old_sessions now max_age_minutes
      (SM.cleanup_old_sessions now max_age_minutes sessions)
    = SM.cleanup_old_sessions now max_age_minutes sessions.
Proof.
  split; [|split; [|split]].
  - rewrite session_manager_cleanup_lookup.
    destruct (sessions !! sid) as [s'|]; [|done].
    destruct (SM.expired now max_age_minutes s') eqn:He; [done|].
    intros [= ->]. split; [done|].
    destruct (Z.le_gt_cases (now - last_activity s) (60 * max_age_minutes))
      as [|Hgt]; [done|].
    apply expired_spec in Hgt. congruence.
  - intros Hs Hage. rewrite session_manager_cleanup_lookup, Hs.
    destruct (SM.expired now max_age_minutes s) eqn:He; [|done].
    apply expired_spec in He. lia.
  - intros Hs Hage. rewrite session_manager_cleanup_lookup, Hs.
    apply expired_spec in Hage. by rewrite Hage.
  - apply map_eq. intros i. rewrite !session_manager_cleanup_lookup.
    destruct (sessions !! i) as [s'|]; [|done].
    destruct (SM.expired now max_age_minutes s') eqn:He; [done|].
    by rewrite He.
Qed.

(** With a limit of 60 minutes at time 3601: a session last active at 0 is
    removed and one last active at 1 (idle 3600 s, the limit itself) is
    kept. *)
Lemma session_records_after_cleanup_witness :
  SM.cleanup_old_sessions 3601 60
    (SM.create_session 1 "fresh" (SM.create_session 0 "old" ∅)) !! "old" = None
  ∧ SM.cleanup_old_sessions 3601 60
      (SM.create_session 1 "fresh" (SM.create_session 0 "old" ∅)) !! "fresh"
    = Some (SessionInfo "fresh" 1 1 0 []).
Proof.
  destruct (session_records_after_cleanup 3601 60 "old" (SessionInfo "old" 0 0 0 [])
              (SM.create_session 1 "fresh" (SM.create_session 0 "old" ∅)))
    as (_ & _ & Hold & _).
  destruct (session_records_after_cleanup 3601 60 "fresh"
              (SessionInfo "fresh" 1 1 0 [])
              (SM.create_session 1 "fresh" (SM.create_session 0 "old" ∅)))
    as (_ & Hfresh & _ & _).
  split.
  - apply Hold; [reflexivity | simpl; lia].
  - apply Hfresh; [reflexivity | simpl; lia].
Defined.

(** ** The chat route on a session that exists *)

(** For a session that has a record, [send_message] never raises: the
    outcome of [chat] becomes the end of the stream, a message end for a
    result and an error event for an exception.  Either way the user
    message is appended to the record's messages (the reply is not), the
    last activity is the time the stream ended, and the turn count has
    grown by two, once for the stored message and once for the stream. *)
Theorem send_message_on_known_session {World : Type} {alg : summation}
    (skills : gmap string skill) (system_prompt : string)
    (detect : string → list string)
    (search : string → Z → World → option search_results * World)
    (create : request → World → result response * World)
    (execute : string → string → World → World)
    (now later : Z) (sid message : string)
    (sessions : gmap string session_info) (cm : ConversationManager) (w : World)
    (s : session_info) :
  sessions !! sid = Some s →
  Api.send_message skills system_prompt detect search create execute
    now later sid message (ApiState sessions cm w)
  = (Return
       match (Agent.chat skills system_prompt detect search create execute
                now later message sid cm w).1.1 with
       | Return res => MessageEnd res
       | Raise e => ErrorEvent e
       end,
     ApiState
       (<[sid := SessionInfo (si_session_id s) (created_at s) later
                   (turn_count s + 2) (si_messages s ++ [("user", message)])]>
          sessions)
       (Agent.chat skills system_prompt detect search create execute
          now later message sid cm w).1.2
       (Agent.chat skills system_prompt detect search create execute
          now later message sid cm w).2)
  ∧ Api.get_history sid
      (<[sid := SessionInfo (si_session_id s) (created_at s) later
                  (turn_count s + 2) (si_messages s ++ [("user", message)])]>
         sessions)
    = Return (si_messages s ++ [("user", message)]).
Proof.
  intros Hs. split.
  - unfold Api.send_message, SM.get_session_info; simpl. rewrite Hs.
    unfold Api.generate_sse_stream; simpl.
    destruct (Agent.chat skills system_prompt detect search create execute
                now later message sid cm w) as [[r cm'] w']; simpl.
    unfold SM.add_message, SM.update_activity. rewrite Hs.
    rewrite lookup_insert_eq; simpl. rewrite lookup_insert_eq; simpl.
    rewrite !insert_insert_eq.
    by replace (turn_count s + 1 + 1) with (turn_count s + 2) by lia.
  - unfold Api.get_history, SM.get_session_info. by rewrite lookup_insert_eq.
Qed.

(** A session created at 0 whose model call fails: the stream ends with
    the error event, and the record still counts two turns and stores the
    user message. *)
Lemma send_message_on_known_session_witness :
  Api.send_message (alg := LeftToRight) ∅ "You are the Librarian Agent" (λ _, [])
    (λ _ _ (w : unit), (None, w))
    (λ _ (w : unit), (Raise (TransportError "timeout"), w))
    (λ _ _ (w : unit), w)
    1 2 "s" "Hello"
    (ApiState (SM.create_session 0 "s" ∅) (new_manager default_cache_ttl) tt)
  = (Return (ErrorEvent (TransportError "timeout")),
     ApiState
       (<["s" := SessionInfo "s" 0 2 2 [("user", "Hello")]]>
          (SM.create_session 0 "s" ∅))
       (CM.set_session_cache 1 "s" "docs" (PyStr "")
          (new_manager default_cache_ttl))
       tt).
Proof.
  destruct (send_message_on_known_session (alg := LeftToRight) ∅ "You are the Librarian Agent" (λ _, [])
              (λ _ _ (w : unit), (None, w))
              (λ _ (w : unit), (Raise (TransportError "timeout"), w))
              (λ _ _ (w : unit), w)
              1 2 "s" "Hello" (SM.create_session 0 "s" ∅)
              (new_manager default_cache_ttl) tt (SessionInfo "s" 0 0 0 []))
    as [Hsend _]; [reflexivity|].
  rewrite Hsend. reflexivity.
Defined.

(** Deleting a session through the route is not idempotent: once it is
    deleted (or if it never existed) the route answers 404 and changes
    nothing, and so does the history route; other sessions keep their
    history. *)
Theorem delete_route_then_not_found
    (sid sid' : string) (sessions : gmap string session_info) :
  Api.delete_session sid (Api.delete_session sid sessions).2
  = (Raise (HTTPException 404 "Session not found"),
     (Api.delete_session sid sessions).2)
  ∧ Api.get_history sid (Api.delete_session sid sessions).2
    = Raise (HTTPException 404 "Session not found")
  ∧ (sid' ≠ sid →
     Api.get_history sid' (Api.delete_session sid sessions).2
     = Api.get_history sid' sessions).
Proof.
  assert (Hgone : (Api.delete_session sid sessions).2 !! sid = None).
  { unfold Api.delete_session.
    destruct (sessions !! sid) eqn:Hs; simpl; [apply lookup_delete_eq | done]. }
  split; [|split].
  - unfold Api.delete_session at 1. by rewrite Hgone.
  - unfold Api.get_history, SM.get_session_info. by rewrite Hgone.
  - intros Hne. unfold Api.get_history, SM.get_session_info, Api.delete_session.
    destruct (sessions !! sid); simpl; [|done]. by rewrite lookup_delete_ne.
Qed.

Lemma delete_route_then_not_found_witness :
  Api.get_history "b"
    (Api.delete_session "a"
       (SM.create_session 0 "b" (SM.create_session 0 "a" ∅))).2
  = Return [].
Proof.
  destruct (delete_route_then_not_found "a" "b"
              (SM.create_session 0 "b" (SM.create_session 0 "a" ∅)))
    as (_ & _ & Hother).
  rewrite Hother; [reflexivity | discriminate].
Defined.

(** ** The rate limiter *)

Lemma rate_limit_run_from (times : list Z) key max_requests window_seconds
    (verdicts : list bool) (requests : gmap string (list Z)) :
  fold_left (λ acc now,
      let '(allowed, _, requests) :=
        RateLimiter.check_rate_limit now key max_requests window_seconds acc.2 in
      (acc.1 ++ [allowed], requests))
    times (verdicts, requests)
  = (verdicts ++ (rate_limit_run times key max_requests window_seconds requests).1,
     (rate_limit_run times key max_requests window_seconds requests).2).
Proof.
  unfold rate_limit_run. revert verdicts requests.
  induction times as [|now times IH]; intros verdicts requests; simpl.
  - by rewrite app_nil_r.
  - destruct (RateLimiter.check_rate_limit now key max_requests window_seconds
                requests) as [[allowed remaining] requests'].
    rewrite (IH (verdicts ++ [allowed])), (IH [allowed]). simpl.
    by rewrite <- app_assoc.
Qed.

Lemma rate_limit_run_cons now (times : list Z) key max_requests window_seconds
    (requests : gmap string (list Z)) :
  rate_limit_run (now :: times) key max_requests window_seconds requests
  = ((RateLimiter.check_rate_limit now key max_requests window_seconds requests).1.1
       :: (rate_limit_run times key max_requests window_seconds
             (RateLimiter.check_rate_limit now key max_requests window_seconds
                requests).2).1,
     (rate_limit_run times key max_requests window_seconds
        (RateLimiter.check_rate_limit now key max_requests window_seconds
           requests).2).2).
Proof.
  unfold rate_limit_run at 1. simpl.
  destruct (RateLimiter.check_rate_limit now key max_requests window_seconds
              requests) as [[allowed remaining] requests'].
  by rewrite rate_limit_run_from.
Qed.

Lemma check_rate_limit_step now key max_requests window_seconds
    (requests : gmap string (list Z)) :
  Z.of_nat (length (default [] (requests !! key))) ≤ max_requests →
  Z.of_nat (length (default []
     ((RateLimiter.check_rate_limit now key max_requests window_seconds requests).2
        !! key))) ≤ max_requests
  ∧ (RateLimiter.check_rate_limit now key max_requests window_seconds requests).1.2
    = max_requests
      - Z.of_nat (length (default []
          ((RateLimiter.check_rate_limit now key max_requests window_seconds
              requests).2 !! key)))
  ∧ ((RateLimiter.check_rate_limit now key max_requests window_seconds requests).1.1
       = false →
     (RateLimiter.check_rate_limit now key max_requests window_seconds requests).1.2
       = 0)
  ∧ ∀ key', key' ≠ key →
      (RateLimiter.check_rate_limit now key max_requests window_seconds requests).2
        !! key' = requests !! key'.
Proof.
  intros Hlen. unfold RateLimiter.check_rate_limit. cbv zeta.
  set (kept := filter (λ req_time, now - window_seconds < req_time)
                      (default [] (requests !! key))).
  assert (Hkept : (length kept ≤ length (default [] (requests !! key)))%nat)
    by apply length_filter.
  destruct (Z.leb_spec max_requests (Z.of_nat (length kept))) as [Hfull|Hroom];
    simpl; rewrite lookup_insert_eq; simpl.
  - repeat split; try lia. intros key' Hne. by rewrite lookup_insert_ne.
  - repeat split; try (rewrite length_app; simpl; lia); try done.
    intros key' Hne. by rewrite !lookup_insert_ne.
Qed.

Lemma rate_limit_run_invariant (times : list Z) (key key' : string)
    (max_requests window_seconds : Z) (requests : gmap string (list Z)) :
  Z.of_nat (length (default [] (requests !! key))) ≤ max_requests →
  Z.of_nat (length (default []
     ((rate_limit_run times key max_requests window_seconds requests).2 !! key)))
    ≤ max_requests
  ∧ (key' ≠ key →
     (rate_limit_run times key max_requests window_seconds requests).2 !! key'
     = requests !! key').
Proof.
  revert requests. induction times as [|t times IH]; intros requests Hlen.
  - by split.
  - rewrite rate_limit_run_cons. simpl.
    destruct (check_rate_limit_step t key max_requests window_seconds requests Hlen)
      as (Hlen' & _ & _ & Hother).
    destruct (IH _ Hlen') as [IHlen IHother]. split; [exact IHlen|].
    intros Hne. rewrite IHother by done. by apply Hother.
Qed.

(** Under one limit, a key that has at most [max_requests] recorded
    request times keeps at most that many through any run of checks, at
    whatever times they come; each check reports the allowance that is
    left after it, which is never negative and is 0 for a refused request;
    the times of other keys are not touched. *)
Theorem rate_limit_keeps_the_limit
    (times : list Z) (now : Z) (key key' : string) (max_requests window_seconds : Z)
    (requests : gmap string (list Z)) :
  Z.of_nat (length (default [] (requests !! key))) ≤ max_requests →
  Z.of_nat (length (default []
     ((rate_limit_run times key max_requests window_seconds requests).2 !! key)))
    ≤ max_requests
  ∧ 0 ≤ (RateLimiter.check_rate_limit now key max_requests window_seconds
           (rate_limit_run times key max_requests window_seconds requests).2).1.2
  ∧ ((RateLimiter.check_rate_limit now key max_requests window_seconds
        (rate_limit_run times key max_requests window_seconds requests).2).1.1
       = false →
     (RateLimiter.check_rate_limit now key max_requests window_seconds
        (rate_limit_run times key max_requests window_seconds requests).2).1.2 = 0)
  ∧ (key' ≠ key →
     (rate_limit_run times key max_requests window_seconds requests).2 !! key'
     = requests !! key').
Proof.
  intros Hlen.
  destruct (rate_limit_run_invariant times key key' max_requests window_seconds
              requests Hlen) as [Hrun Hother].
  destruct (check_rate_limit_step now key max_requests window_seconds _ Hrun)
    as (Hlen' & Hrem & Hrefused & _).
  split; [exact Hrun|]. split; [lia|]. split; [exact Hrefused | exact Hother].
Qed.

(** Three checks at 0, 10 and 20 under a limit of 2 in 60 s leave two
    request times, and a check at 30 is refused with allowance 0. *)
Lemma rate_limit_keeps_the_limit_witness :
  Z.of_nat (length (default [] ((rate_limit_run [0; 10; 20] "ip" 2 60 ∅).2 !! "ip")))
    ≤ 2
  ∧ (RateLimiter.check_rate_limit 30 "ip" 2 60
       (rate_limit_run [0; 10; 20] "ip" 2 60 ∅).2).1 = (false, 0).
Proof.
  destruct (rate_limit_keeps_the_limit [0; 10; 20] 30 "ip" "other" 2 60 ∅)
    as (Hlen & _ & _ & _); [rewrite lookup_empty; simpl; lia|].
  split; [exact Hlen | reflexivity].
Defined.

Lemma filter_replicate_all (P : Z → Prop) `{∀ x, Decision (P x)} (k : nat) (x : Z) :
  P x → filter P (replicate k x) = replicate k x.
Proof.
  intros Hx. induction k as [|k IH]; [done|].
  simpl. rewrite filter_cons_True by done. by rewrite IH.
Qed.

Lemma burst_from (n k : nat) now key max_requests window_seconds
    (requests : gmap string (list Z)) :
  0 < window_seconds →
  default [] (requests !! key) = replicate k now →
  (k ≤ Z.to_nat max_requests)%nat →
  0 ≤ max_requests →
  (rate_limit_run (replicate n now) key max_requests window_seconds requests).1
  = replicate (n `min` (Z.to_nat max_requests - k)) true
    ++ replicate (n - (Z.to_nat max_requests - k)) false.
Proof.
  intros Hwin. revert k requests.
  induction n as [|n IH]; intros k requests Hreq Hk Hmax; [done|].
  rewrite replicate_S, rate_limit_run_cons. simpl.
  unfold RateLimiter.check_rate_limit. cbv zeta. rewrite Hreq.
  rewrite (filter_replicate_all _ k now) by (simpl; lia).
  rewrite length_replicate.
  destruct (Z.leb_spec max_requests (Z.of_nat k)) as [Hfull|Hroom]; simpl.
  - rewrite (IH k); [|by rewrite lookup_insert_eq | done | done].
    replace (Z.to_nat max_requests - k)%nat with 0%nat by lia.
    rewrite !Nat.min_0_r, !Nat.sub_0_r. done.
  - rewrite (IH (S k));
      [|by rewrite lookup_insert_eq, replicate_S_end | lia | done].
    replace (Z.to_nat max_requests - k)%nat
      with (S (Z.to_nat max_requests - S k))%nat by lia.
    done.
Qed.

(** Of [n] requests of one key that arrive at the same instant, with no
    earlier request on record, exactly the first [max_requests] are
    allowed and all the others are refused. *)
Theorem burst_allows_the_first_max
    (n : nat) (now : Z) (key : string) (max_requests window_seconds : Z)
    (requests : gmap string (list Z)) :
  0 < window_seconds →
  0 ≤ max_requests →
  requests !! key = None →
  (rate_limit_run (replicate n now) key max_requests window_seconds requests).1
  = replicate (n `min` Z.to_nat max_requests) true
    ++ replicate (n - Z.to_nat max_requests) false.
Proof.
  intros Hwin Hmax Hnone.
  rewrite (burst_from n 0 now key max_requests window_seconds requests);
    [|done | by rewrite Hnone | lia | done].
  by rewrite Nat.sub_0_r.
Qed.

Lemma burst_allows_the_first_max_witness :
  (rate_limit_run (replicate 5 100) "ip" 3 60 ∅).1
  = [true; true; true; false; false].
Proof.
  rewrite (burst_allows_the_first_max 5 100 "ip" 3 60 ∅);
    [reflexivity | lia | lia | reflexivity].
Defined.

Lemma filter_window_twice (w t T : Z) (l : list Z) :
  t ≤ T →
  filter (λ x, T - w < x) (filter (λ x, t - w < x) l) = filter (λ x, T - w < x) l.
Proof.
  intros Hle. rewrite list_filter_filter. apply list_filter_iff.
  intros x. lia.
Qed.

Lemma stored_after_run (times : list Z) (T : Z) key max_requests window_seconds
    (requests : gmap string (list Z)) :
  0 < window_seconds →
  StronglySorted Z.le times →
  last times = Some T →
  default [] ((rate_limit_run times key max_requests window_seconds requests).2
                !! key)
  = filter (λ x, T - window_seconds < x)
      (default [] (requests !! key)
       ++ allowed_times times
            (rate_limit_run times key max_requests window_seconds requests).1).
Proof.
  intros Hwin. revert requests.
  induction times as [|t times IH]; intros requests Hsorted Hlast; [done|].
  rewrite rate_limit_run_cons. cbn [fst snd allowed_times].
  assert (Hstep :
    default [] ((RateLimiter.check_rate_limit t key max_requests window_seconds
                   requests).2 !! key)
    = filter (λ x, t - window_seconds < x) (default [] (requests !! key))
      ++ (if (RateLimiter.check_rate_limit t key max_requests window_seconds
                requests).1.1 then [t] else [])).
  { unfold RateLimiter.check_rate_limit. cbv zeta.
    destruct (max_requests <=? _); simpl; rewrite lookup_insert_eq; simpl;
      [by rewrite app_nil_r | done]. }
  apply StronglySorted_inv in Hsorted as [Hsorted Hall].
  destruct times as [|t' times].
  - simpl in Hlast. injection Hlast as <-.
    change (rate_limit_run [] key max_requests window_seconds ?r) with ([] : list bool, r).
    cbn [fst snd allowed_times]. rewrite Hstep, app_nil_r, filter_app.
    f_equal.
    destruct (RateLimiter.check_rate_limit t key max_requests window_seconds
                requests).1.1; [|done].
    rewrite filter_cons_True by lia. done.
  - rewrite last_cons_cons in Hlast.
    assert (HtT : t ≤ T).
    { rewrite Forall_forall in Hall. apply Hall. by apply last_Some_elem_of. }
    rewrite IH; [|done | done].
    rewrite Hstep, !filter_app, filter_window_twice by done.
    by rewrite <- app_assoc.
Qed.

(** With a clock that does not go back and no earlier request on record,
    what the limiter holds for a key after a run of checks is the times
    of the allowed requests that lie in the window ending at the last
    check, and there are at most [max_requests] of them: no window that
    ends at a check contains more allowed requests than the limit. *)
Theorem sliding_window_guarantee
    (times : list Z) (T : Z) (key : string) (max_requests window_seconds : Z) :
  0 < window_seconds →
  0 ≤ max_requests →
  StronglySorted Z.le times →
  last times = Some T →
  default [] ((rate_limit_run times key max_requests window_seconds ∅).2 !! key)
  = filter (λ x, T - window_seconds < x)
      (allowed_times times
         (rate_limit_run times key max_requests window_seconds ∅).1)
  ∧ Z.of_nat (length (filter (λ x, T - window_seconds < x)
       (allowed_times times
          (rate_limit_run times key max_requests window_seconds ∅).1)))
    ≤ max_requests.
Proof.
  intros Hwin Hmax Hsorted Hlast.
  pose proof (stored_after_run times T key max_requests window_seconds ∅
                Hwin Hsorted Hlast) as Hstored.
  rewrite lookup_empty in Hstored. simpl in Hstored.
  split; [exact Hstored|]. rewrite <- Hstored.
  apply (rate_limit_run_invariant times key key max_requests window_seconds ∅).
  rewrite lookup_empty. simpl. lia.
Qed.

(** A limit of 2 in 60 s and checks at 0, 10, 20, 65 and 68: the third is
    refused, the fourth is allowed again once the first has left the
    window, the fifth is refused, and the window ending at 68 holds the
    two requests of 10 and 65. *)
Lemma sliding_window_guarantee_witness :
  (rate_limit_run [0; 10; 20; 65; 68] "ip" 2 60 ∅).1
    = [true; true; false; true; false]
  ∧ default [] ((rate_limit_run [0; 10; 20; 65; 68] "ip" 2 60 ∅).2 !! "ip")
    = [10; 65].
Proof.
  split; [reflexivity|].
  destruct (sliding_window_guarantee [0; 10; 20; 65; 68] 68 "ip" 2 60)
    as [Hstored _]; [lia | lia | | reflexivity |].
  - repeat (apply SSorted_cons; [|repeat constructor; lia]). apply SSorted_nil.
  - rewrite Hstored. reflexivity.
Defined.

(** ** Cache entries of sessions without a history *)

Lemma sweep_keeps_cache_without_history now max_age cm sid :
  conversations cm !! sid = None →
  conversations (CM.cleanup_old_sessions now max_age cm).2 !! sid = None
  ∧ session_cache (CM.cleanup_old_sessions now max_age cm).2 !! sid
    = session_cache cm !! sid
  ∧ cache_timestamps (CM.cleanup_old_sessions now max_age cm).2 !! sid
    = cache_timestamps cm !! sid.
Proof.
  intros Hnone. unfold CM.cleanup_old_sessions; simpl.
  pose proof (remove_sessions_lookup (CM.sessions_to_remove now max_age cm) cm sid)
    as (_ & Hout & Hc & _).
  cbv zeta in Hout, Hc.
  split; [by apply Hc|].
  destruct Hout as (_ & Hs & Ht & _); [|by split].
  intros Hin. apply elem_of_sessions_to_remove in Hin as (c & Hc' & _). congruence.
Qed.

(** [cleanup_old_sessions] only removes cache entries together with a
    history: the entries of a session that has none (say, its only
    request failed after the documentation was cached) survive every
    sweep, whenever it runs and whatever its limit. *)
Theorem sweep_never_clears_sessions_without_history
    (calls : list (Z * Z)) (cm : ConversationManager) (sid : string) :
  conversations cm !! sid = None →
  session_cache (sweeps calls cm) !! sid = session_cache cm !! sid
  ∧ cache_timestamps (sweeps calls cm) !! sid = cache_timestamps cm !! sid
  ∧ conversations (sweeps calls cm) !! sid = None.
Proof.
  revert cm. induction calls as [|[now max_age] calls IH]; intros cm Hnone.
  - done.
  - destruct (sweep_keeps_cache_without_history now max_age cm sid Hnone)
      as (Hc & Hs & Ht).
    destruct (IH _ Hc) as (IHs & IHt & IHc).
    change (sweeps ((now, max_age) :: calls) cm)
      with (sweeps calls (CM.cleanup_old_sessions now max_age cm).2).
    by rewrite IHs, IHt, Hs, Ht.
Qed.

(** A request whose model call fails leaves its documentation entry
    behind, and a sweep a day later with a limit of one hour does not
    remove it. *)
Lemma sweep_never_clears_sessions_without_history_witness :
  default ∅ (session_cache
    (sweeps [(86400, 3600)]
       (Agent.chat (alg := LeftToRight) ∅ "You are the Librarian Agent" (λ _, [])
          Agent.search_documentation_mock
          (λ _ (w : unit), (Raise (TransportError "timeout"), w))
          (λ _ _ (w : unit), w)
          0 1 "Hello" "s" (new_manager default_cache_ttl) tt).1.2) !! "s")
    !! "docs"
  = default ∅ (session_cache
      (Agent.chat (alg := LeftToRight) ∅ "You are the Librarian Agent" (λ _, [])
         Agent.search_documentation_mock
         (λ _ (w : unit), (Raise (TransportError "timeout"), w))
         (λ _ _ (w : unit), w)
         0 1 "Hello" "s" (new_manager default_cache_ttl) tt).1.2 !! "s")
      !! "docs"
  ∧ is_Some (default ∅ (session_cache
      (Agent.chat (alg := LeftToRight) ∅ "You are the Librarian Agent" (λ _, [])
         Agent.search_documentation_mock
         (λ _ (w : unit), (Raise (TransportError "timeout"), w))
         (λ _ _ (w : unit), w)
         0 1 "Hello" "s" (new_manager default_cache_ttl) tt).1.2 !! "s")
      !! "docs").
Proof.
  destruct (sweep_never_clears_sessions_without_history [(86400, 3600)]
              (Agent.chat (alg := LeftToRight) ∅ "You are the Librarian Agent" (λ _, [])
                 Agent.search_documentation_mock
                 (λ _ (w : unit), (Raise (TransportError "timeout"), w))
                 (λ _ _ (w : unit), w)
                 0 1 "Hello" "s" (new_manager default_cache_ttl) tt).1.2 "s")
    as (Hs & _ & _); [reflexivity|].
  split; [by rewrite Hs|]. by eexists.
Defined.
